(** * openedu-mcp: the configuration loader of [src/config.py]

    A shallow embedding of the configuration schema (the dataclasses),
    of [Config.from_dict], [Config.to_dict], [load_config],
    [_get_env_overrides] and [_merge_configs], and the properties of the
    loader that follow from it.

    Modelling conventions.
    - A Python object read from YAML or from the environment is a [value]:
      [None], a bool, an int (unbounded, [Z]), a float (binary64), a str,
      a list or a dict with string keys.  Dicts are finite maps
      ([gmap string value]): keys are unique and Python's [==] on dicts
      does not look at the insertion order.  Dates, sets, byte strings
      and dicts with keys that are not strings, which a YAML document can
      also hold, are left out.
    - A dataclass does not check the declared type of a field, so every
      field of the configuration records holds a [value].
    - An exception is a [Raise e] result; the exceptions are those the
      code can run into.
    - Equality of configurations is structural equality.  It agrees with
      the dataclass [__eq__] except on floats that are NaN or zeros of
      different sign, where [==] of IEEE floats is not structural. *)

From Stdlib Require Import ZArith Floats Ascii String.
From stdpp Require Import gmap strings list fin_maps.

#[local] Set Warnings "-register-all,-inexact-float".
#[local] Open Scope string_scope.

(** ** Python values *)

Inductive value : Type :=
  | VNone
  | VBool (b : bool)
  | VInt (n : Z)
  | VFloat (f : float)
  | VStr (s : string)
  | VList (l : list value)
  | VDict (m : gmap string value).

(** [isinstance(v, dict)] *)
Definition is_dict (v : value) : bool :=
  match v with VDict _ => true | _ => false end.

(** Truth value of an object, as [if v:] and [v or d] test it. *)
Definition truthy (v : value) : bool :=
  match v with
  | VNone => false
  | VBool b => b
  | VInt n => negb (n =? 0)%Z
  | VFloat f => negb (PrimFloat.eqb f 0%float)
  | VStr s => negb (String.eqb s "")
  | VList l => match l with [] => false | _ => true end
  | VDict m => negb (bool_decide (m = ∅))
  end.

(** ** Exceptions *)

Inductive exn : Set :=
  | TypeError       (* bad keyword argument, missing argument, keyword spreading of a non-mapping *)
  | AttributeError  (* [.get] or [.copy] on an object that has none *)
  | ValueError      (* [int(s)] on a string that is not an integer literal *)
  | YAMLError       (* [yaml.safe_load] on a malformed document *)
  | OSError         (* [open] on a path that cannot be read *)
  | OtherError (class : string).
                    (* any other class, by name: [UnicodeDecodeError], ... *)

Inductive result (A : Type) : Type :=
  | Ok (a : A)
  | Raise (e : exn).
Arguments Ok {A} a.
Arguments Raise {A} e.

#[global] Instance result_ret : MRet result := fun A a => Ok a.
#[global] Instance result_bind : MBind result :=
  fun A B f r => match r with Ok a => f a | Raise e => Raise e end.

Definition raises {A} (r : result A) : Prop := exists e, r = Raise e.

(** ** Dictionary and keyword-argument helpers *)

(** [d.get(k, dflt)] on a dict. *)
Definition dict_get (d : gmap string value) (k : string) (dflt : value) : value :=
  default dflt (d !! k).

(** [v.get(k, dflt)] on an arbitrary object: only a dict has [get]. *)
Definition value_get (v : value) (k : string) (dflt : value) : result value :=
  match v with
  | VDict d => Ok (dict_get d k dflt)
  | _ => Raise AttributeError
  end.

(** [Cls] called with the keywords of [v], for a dataclass with the given field names: [v] has to be
    a mapping and each of its keys has to be a field. *)
Definition spread (fields : list string) (v : value) : result (gmap string value) :=
  match v with
  | VDict kw =>
      if bool_decide (dom kw ⊆ list_to_set fields) then Ok kw else Raise TypeError
  | _ => Raise TypeError
  end.

(** A field with a default, and a field without one. *)
Definition optional (kw : gmap string value) (k : string) (dflt : value) : value :=
  default dflt (kw !! k).

Definition required (kw : gmap string value) (k : string) : result value :=
  match kw !! k with
  | Some v => Ok v
  | None => Raise TypeError
  end.

(** ** The schema *)

Record ServerConfig := {
  name : value;
  version : value;
  host : value;
  port : value;
  log_level : value;
  debug : value
}.

Record CacheConfig := {
  database_path : value;
  default_ttl : value;
  max_size_mb : value;
  cleanup_interval : value;
  enable_compression : value
}.

Record APIConfig := {
  base_url : value;
  rate_limit : value;
  timeout : value;
  retry_attempts : value;
  backoff_factor : value
}.

Record APIsConfig := {
  open_library : APIConfig;
  wikipedia : APIConfig;
  dictionary : APIConfig;
  arxiv : APIConfig
}.

Record ContentFilters := {
  enable_age_appropriate : value;
  enable_curriculum_alignment : value;
  min_educational_relevance : value
}.

Record EducationConfig := {
  grade_levels : value;
  curriculum_standards : value;
  subjects : value;
  content_filters : ContentFilters
}.

Record LoggingConfig := {
  level : value;
  format : value;
  file_path : value;
  max_file_size_mb : value;
  backup_count : value
}.

Record MonitoringConfig := {
  enable_metrics : value;
  metrics_port : value;
  health_check_interval : value
}.

Record Config := {
  server : ServerConfig;
  cache : CacheConfig;
  apis : APIsConfig;
  education : EducationConfig;
  logging : LoggingConfig;
  monitoring : MonitoringConfig
}.

(** The field names of each dataclass, in declaration order. *)
Definition ServerConfig_fields : list string :=
  ["name"; "version"; "host"; "port"; "log_level"; "debug"].
Definition CacheConfig_fields : list string :=
  ["database_path"; "default_ttl"; "max_size_mb"; "cleanup_interval";
   "enable_compression"].
Definition APIConfig_fields : list string :=
  ["base_url"; "rate_limit"; "timeout"; "retry_attempts"; "backoff_factor"].
Definition ContentFilters_fields : list string :=
  ["enable_age_appropriate"; "enable_curriculum_alignment";
   "min_educational_relevance"].
Definition LoggingConfig_fields : list string :=
  ["level"; "format"; "file_path"; "max_file_size_mb"; "backup_count"].
Definition MonitoringConfig_fields : list string :=
  ["enable_metrics"; "metrics_port"; "health_check_interval"].

(** *** Constructors called with the keyword arguments of a mapping *)

Definition new_ServerConfig (v : value) : result ServerConfig :=
  kw ← spread ServerConfig_fields v;
  mret {| name := optional kw "name" (VStr "openedu-mcp-server");
          version := optional kw "version" (VStr "1.0.0");
          host := optional kw "host" (VStr "localhost");
          port := optional kw "port" (VInt 8000);
          log_level := optional kw "log_level" (VStr "INFO");
          debug := optional kw "debug" (VBool false) |}.

Definition new_CacheConfig (v : value) : result CacheConfig :=
  kw ← spread CacheConfig_fields v;
  mret {| database_path := optional kw "database_path" (VStr "~/.openedu-mcp/cache.db");
          default_ttl := optional kw "default_ttl" (VInt 3600);
          max_size_mb := optional kw "max_size_mb" (VInt 100);
          cleanup_interval := optional kw "cleanup_interval" (VInt 3600);
          enable_compression := optional kw "enable_compression" (VBool true) |}.

(** [base_url], [rate_limit] and [timeout] have no default. *)
Definition new_APIConfig (v : value) : result APIConfig :=
  kw ← spread APIConfig_fields v;
  u ← required kw "base_url";
  r ← required kw "rate_limit";
  t ← required kw "timeout";
  mret {| base_url := u;
          rate_limit := r;
          timeout := t;
          retry_attempts := optional kw "retry_attempts" (VInt 3);
          backoff_factor := optional kw "backoff_factor" (VFloat 2%float) |}.

Definition new_ContentFilters (v : value) : result ContentFilters :=
  kw ← spread ContentFilters_fields v;
  mret {| enable_age_appropriate := optional kw "enable_age_appropriate" (VBool true);
          enable_curriculum_alignment :=
            optional kw "enable_curriculum_alignment" (VBool true);
          min_educational_relevance :=
            optional kw "min_educational_relevance" (VFloat 0.7%float) |}.

Definition new_LoggingConfig (v : value) : result LoggingConfig :=
  kw ← spread LoggingConfig_fields v;
  mret {| level := optional kw "level" (VStr "INFO");
          format := optional kw "format" (VStr "json");
          file_path := optional kw "file_path" (VStr "~/.openedu-mcp/logs/server.log");
          max_file_size_mb := optional kw "max_file_size_mb" (VInt 10);
          backup_count := optional kw "backup_count" (VInt 5) |}.

Definition new_MonitoringConfig (v : value) : result MonitoringConfig :=
  kw ← spread MonitoringConfig_fields v;
  mret {| enable_metrics := optional kw "enable_metrics" (VBool true);
          metrics_port := optional kw "metrics_port" (VInt 9090);
          health_check_interval := optional kw "health_check_interval" (VInt 60) |}.

(** *** The defaults that the dataclasses declare

    What [ServerConfig()], ..., [Config()] build when called without
    arguments: the field defaults and the [default_factory] values. *)

Definition default_ServerConfig : ServerConfig :=
  {| name := VStr "openedu-mcp-server"; version := VStr "1.0.0";
     host := VStr "localhost"; port := VInt 8000;
     log_level := VStr "INFO"; debug := VBool false |}.

Definition default_CacheConfig : CacheConfig :=
  {| database_path := VStr "~/.openedu-mcp/cache.db"; default_ttl := VInt 3600;
     max_size_mb := VInt 100; cleanup_interval := VInt 3600;
     enable_compression := VBool true |}.

Definition default_APIsConfig : APIsConfig :=
  {| open_library :=
       {| base_url := VStr "https://openlibrary.org"; rate_limit := VInt 100;
          timeout := VInt 30; retry_attempts := VInt 3;
          backoff_factor := VFloat 2%float |};
     wikipedia :=
       {| base_url := VStr "https://en.wikipedia.org/api/rest_v1";
          rate_limit := VInt 200; timeout := VInt 30; retry_attempts := VInt 2;
          backoff_factor := VFloat 2%float |};
     dictionary :=
       {| base_url := VStr "https://api.dictionaryapi.dev/api/v2";
          rate_limit := VInt 450; timeout := VInt 15; retry_attempts := VInt 3;
          backoff_factor := VFloat 2%float |};
     arxiv :=
       {| base_url := VStr "http://export.arxiv.org/api"; rate_limit := VInt 3;
          timeout := VInt 60; retry_attempts := VInt 3;
          backoff_factor := VFloat 2%float |} |}.

Definition default_ContentFilters : ContentFilters :=
  {| enable_age_appropriate := VBool true; enable_curriculum_alignment := VBool true;
     min_educational_relevance := VFloat 0.7%float |}.

Definition default_grade_levels : value :=
  VList [VStr "K-2"; VStr "3-5"; VStr "6-8"; VStr "9-12"; VStr "College"].
Definition default_curriculum_standards : value :=
  VList [VStr "Common Core"; VStr "NGSS"; VStr "State Standards"].
Definition default_subjects : value :=
  VList [VStr "Mathematics"; VStr "Science"; VStr "English Language Arts";
         VStr "Social Studies"; VStr "Arts"; VStr "Physical Education";
         VStr "Technology"].

Definition default_EducationConfig : EducationConfig :=
  {| grade_levels := default_grade_levels;
     curriculum_standards := default_curriculum_standards;
     subjects := default_subjects;
     content_filters := default_ContentFilters |}.

Definition default_LoggingConfig : LoggingConfig :=
  {| level := VStr "INFO"; format := VStr "json";
     file_path := VStr "~/.openedu-mcp/logs/server.log";
     max_file_size_mb := VInt 10; backup_count := VInt 5 |}.

Definition default_MonitoringConfig : MonitoringConfig :=
  {| enable_metrics := VBool true; metrics_port := VInt 9090;
     health_check_interval := VInt 60 |}.

Definition default_Config : Config :=
  {| server := default_ServerConfig; cache := default_CacheConfig;
     apis := default_APIsConfig; education := default_EducationConfig;
     logging := default_LoggingConfig; monitoring := default_MonitoringConfig |}.

(** ** [Config.from_dict]

    The arguments of [cls(...)] are evaluated from left to right, so the
    first section that raises decides the exception. *)

Definition from_dict (data : gmap string value) : result Config :=
  s ← new_ServerConfig (dict_get data "server" (VDict ∅));
  c ← new_CacheConfig (dict_get data "cache" (VDict ∅));
  a1 ← value_get (dict_get data "apis" (VDict ∅)) "open_library" (VDict ∅)
         ≫= new_APIConfig;
  a2 ← value_get (dict_get data "apis" (VDict ∅)) "wikipedia" (VDict ∅)
         ≫= new_APIConfig;
  a3 ← value_get (dict_get data "apis" (VDict ∅)) "dictionary" (VDict ∅)
         ≫= new_APIConfig;
  a4 ← value_get (dict_get data "apis" (VDict ∅)) "arxiv" (VDict ∅)
         ≫= new_APIConfig;
  g ← value_get (dict_get data "education" (VDict ∅)) "grade_levels" (VList []);
  cs ← value_get (dict_get data "education" (VDict ∅)) "curriculum_standards" (VList []);
  sb ← value_get (dict_get data "education" (VDict ∅)) "subjects" (VList []);
  cf ← value_get (dict_get data "education" (VDict ∅)) "content_filters" (VDict ∅)
         ≫= new_ContentFilters;
  l ← new_LoggingConfig (dict_get data "logging" (VDict ∅));
  m ← new_MonitoringConfig (dict_get data "monitoring" (VDict ∅));
  mret {| server := s;
          cache := c;
          apis := {| open_library := a1; wikipedia := a2;
                     dictionary := a3; arxiv := a4 |};
          education := {| grade_levels := g; curriculum_standards := cs;
                          subjects := sb; content_filters := cf |};
          logging := l;
          monitoring := m |}.

(** ** [Config.to_dict]

    [obj.__dict__] of a dataclass instance holds its fields. *)

Definition ServerConfig_dict (s : ServerConfig) : gmap string value :=
  {[ "name" := name s; "version" := version s; "host" := host s;
     "port" := port s; "log_level" := log_level s; "debug" := debug s ]}.

Definition CacheConfig_dict (c : CacheConfig) : gmap string value :=
  {[ "database_path" := database_path c; "default_ttl" := default_ttl c;
     "max_size_mb" := max_size_mb c; "cleanup_interval" := cleanup_interval c;
     "enable_compression" := enable_compression c ]}.

Definition APIConfig_dict (a : APIConfig) : gmap string value :=
  {[ "base_url" := base_url a; "rate_limit" := rate_limit a;
     "timeout" := timeout a; "retry_attempts" := retry_attempts a;
     "backoff_factor" := backoff_factor a ]}.

Definition ContentFilters_dict (f : ContentFilters) : gmap string value :=
  {[ "enable_age_appropriate" := enable_age_appropriate f;
     "enable_curriculum_alignment" := enable_curriculum_alignment f;
     "min_educational_relevance" := min_educational_relevance f ]}.

Definition LoggingConfig_dict (l : LoggingConfig) : gmap string value :=
  {[ "level" := level l; "format" := format l; "file_path" := file_path l;
     "max_file_size_mb" := max_file_size_mb l; "backup_count" := backup_count l ]}.

Definition MonitoringConfig_dict (m : MonitoringConfig) : gmap string value :=
  {[ "enable_metrics" := enable_metrics m; "metrics_port" := metrics_port m;
     "health_check_interval" := health_check_interval m ]}.

Definition to_dict (self : Config) : gmap string value :=
  {[ "server" := VDict (ServerConfig_dict (server self));
     "cache" := VDict (CacheConfig_dict (cache self));
     "apis" := VDict
       {[ "open_library" := VDict (APIConfig_dict (open_library (apis self)));
          "wikipedia" := VDict (APIConfig_dict (wikipedia (apis self)));
          "dictionary" := VDict (APIConfig_dict (dictionary (apis self)));
          "arxiv" := VDict (APIConfig_dict (arxiv (apis self))) ]};
     "education" := VDict
       {[ "grade_levels" := grade_levels (education self);
          "curriculum_standards" := curriculum_standards (education self);
          "subjects" := subjects (education self);
          "content_filters" :=
            VDict (ContentFilters_dict (content_filters (education self))) ]};
     "logging" := VDict (LoggingConfig_dict (logging self));
     "monitoring" := VDict (MonitoringConfig_dict (monitoring self)) ]}.

(** ** Strings: [str.lower] and [int(str)]

    A [string] holds the UTF-8 bytes of a Python str.  Case mapping is
    modelled on ASCII: no character outside ASCII lowers to a letter of
    ["true"].  [int] is modelled on code points, with the decimal digits
    and the white space that Unicode has outside ASCII. *)

Definition lower_ascii (c : ascii) : ascii :=
  let n := nat_of_ascii c in
  if (65 <=? n)%nat && (n <=? 90)%nat then ascii_of_nat (n + 32) else c.

Fixpoint lower (s : string) : string :=
  match s with
  | EmptyString => EmptyString
  | String c s' => String (lower_ascii c) (lower s')
  end.

Definition is_space (c : ascii) : bool :=
  let n := nat_of_ascii c in
  ((9 <=? n)%nat && (n <=? 13)%nat) || (n =? 32)%nat.

Fixpoint lstrip (l : list ascii) : list ascii :=
  match l with
  | c :: l' => if is_space c then lstrip l' else l
  | [] => []
  end.

Definition strip (l : list ascii) : list ascii :=
  rev (lstrip (rev (lstrip l))).

Definition digit_of (c : ascii) : option Z :=
  let n := nat_of_ascii c in
  if (48 <=? n)%nat && (n <=? 57)%nat then Some (Z.of_nat n - 48)%Z else None.

(** Decimal digits, with single underscores allowed between two digits. *)
Fixpoint parse_digits (acc : Z) (after_digit : bool) (l : list ascii) : option Z :=
  match l with
  | [] => if after_digit then Some acc else None
  | c :: l' =>
      match digit_of c with
      | Some d => parse_digits (10 * acc + d) true l'
      | None =>
          if Ascii.eqb c "_" && after_digit then parse_digits acc false l' else None
      end
  end.

(** The code points of a UTF-8 text.  [None] stands for bytes that are
    not well-formed UTF-8 (a stray or missing continuation byte, an
    overlong form, a surrogate, a code point above U+10FFFF): [os.environ]
    holds a lone surrogate in place of each such byte, a character that is
    neither a digit nor white space. *)
Definition byte_of (c : ascii) : Z := Z.of_nat (nat_of_ascii c).

Definition continuation (b : Z) : option Z :=
  if (128 <=? b)%Z && (b <? 192)%Z then Some (b - 128)%Z else None.

Fixpoint utf8_decode (l : list Z) : option (list Z) :=
  match l with
  | [] => Some []
  | b :: l1 =>
      if (b <? 128)%Z then cons b <$> utf8_decode l1
      else if (b <? 192)%Z then None
      else if (b <? 224)%Z then
        match l1 with
        | b1 :: l2 =>
            c1 ← continuation b1;
            let cp := ((b - 192) * 64 + c1)%Z in
            if (128 <=? cp)%Z then cons cp <$> utf8_decode l2 else None
        | _ => None
        end
      else if (b <? 240)%Z then
        match l1 with
        | b1 :: b2 :: l3 =>
            c1 ← continuation b1;
            c2 ← continuation b2;
            let cp := (((b - 224) * 64 + c1) * 64 + c2)%Z in
            if (2048 <=? cp)%Z && negb ((55296 <=? cp)%Z && (cp <=? 57343)%Z)
            then cons cp <$> utf8_decode l3 else None
        | _ => None
        end
      else if (b <? 248)%Z then
        match l1 with
        | b1 :: b2 :: b3 :: l4 =>
            c1 ← continuation b1;
            c2 ← continuation b2;
            c3 ← continuation b3;
            let cp := ((((b - 240) * 64 + c1) * 64 + c2) * 64 + c3)%Z in
            if (65536 <=? cp)%Z && (cp <=? 1114111)%Z
            then cons cp <$> utf8_decode l4 else None
        | _ => None
        end
      else None
  end.

(** White space outside ASCII ([str.isspace]): U+0085, U+00A0, U+1680,
    U+2000 to U+200A, U+2028, U+2029, U+202F, U+205F and U+3000. *)
Definition unicode_space (cp : Z) : bool :=
  bool_decide (cp ∈ [133; 160; 5760; 8232; 8233; 8239; 8287; 12288]%Z)
  || ((8192 <=? cp)%Z && (cp <=? 8202)%Z).

(** The digit zero of each run of ten decimal digits (category Nd) of
    Unicode 14.0, the version of CPython 3.11: ASCII, Arabic-Indic,
    Devanagari, ..., fullwidth, mathematical, ... *)
Definition decimal_zeros : list Z :=
  [48; 1632; 1776; 1984; 2406; 2534; 2662; 2790; 2918; 3046; 3174; 3302;
   3430; 3558; 3664; 3792; 3872; 4160; 4240; 6112; 6160; 6470; 6608; 6784;
   6800; 6992; 7088; 7232; 7248; 42528; 43216; 43264; 43472; 43504; 43600;
   44016; 65296; 66720; 68912; 69734; 69872; 69942; 70096; 70384; 70736;
   70864; 71248; 71360; 71472; 71904; 72016; 72784; 73040; 73120; 92768;
   92864; 93008; 120782; 120792; 120802; 120812; 120822; 123200; 123632;
   125264; 130032]%Z.

(** [unicodedata.decimal]: the value of a decimal digit. *)
Definition decimal (cp : Z) : option Z :=
  (fun z => (cp - z)%Z)
    <$> List.find (fun z => (z <=? cp)%Z && (cp <? z + 10)%Z) decimal_zeros.

(** What [int] makes of a character before it reads the literal: an
    ASCII character stands for itself, white space for a space and a
    decimal digit for the ASCII digit of its value; any other character is
    refused. *)
Definition to_ascii (cp : Z) : option ascii :=
  if (cp <? 127)%Z then Some (ascii_of_nat (Z.to_nat cp))
  else if unicode_space cp then Some " "%char
  else (fun d => ascii_of_nat (Z.to_nat (48 + d))) <$> decimal cp.

(** [sys.get_int_max_str_digits()], as the interpreter sets it when it is
    not configured otherwise: a literal with more digits is refused. *)
Definition int_max_str_digits : nat := 4300.

Definition count_digits (l : list ascii) : nat :=
  length (List.filter (fun c => bool_decide (is_Some (digit_of c))) l).

Definition parse_limited (l : list ascii) : option Z :=
  if (int_max_str_digits <? count_digits l)%nat then None
  else parse_digits 0 false l.

(** [int(s)]: [None] stands for the [ValueError] of a string that is not
    an integer literal, or that has more than [int_max_str_digits]
    digits. *)
Definition py_int (s : string) : option Z :=
  cps ← utf8_decode (byte_of <$> list_ascii_of_string s);
  l ← mapM to_ascii cps;
  match strip l with
  | c :: l =>
      if Ascii.eqb c "+" then parse_limited l
      else if Ascii.eqb c "-" then Z.opp <$> parse_limited l
      else parse_limited (c :: l)
  | [] => None
  end.

(** ** [_get_env_overrides] *)

(** The chained [setdefault]s followed by an item assignment,
    [overrides.setdefault(s1, {}).setdefault(s2, {})[key] = v].  The dict
    that [setdefault] returns is the one stored in [overrides], so the
    assignment shows in [overrides].  In [_get_env_overrides] what a
    section holds is a dict that an earlier statement put there. *)
Fixpoint assign (sections : list string) (key : string) (v : value)
    (d : gmap string value) : gmap string value :=
  match sections with
  | [] => <[key := v]> d
  | s :: rest =>
      let sub := match d !! s with Some (VDict sub) => sub | _ => ∅ end in
      <[s := VDict (assign rest key v sub)]> d
  end.

Definition coerce_str (s : string) : result value := Ok (VStr s).

Definition coerce_int (s : string) : result value :=
  match py_int s with
  | Some n => Ok (VInt n)
  | None => Raise ValueError
  end.

Definition coerce_bool (s : string) : result value :=
  Ok (VBool (String.eqb (lower s) "true")).

(** One [if os.getenv(var): overrides...[key] = coerce(os.getenv(var))]
    statement.  The guard tests the truth value of the string, so an
    empty value is skipped like an unset variable. *)
Definition override_from (environ : gmap string string) (var : string)
    (sections : list string) (key : string) (coerce : string -> result value)
    (overrides : gmap string value) : result (gmap string value) :=
  match environ !! var with
  | Some s =>
      if truthy (VStr s)
      then v ← coerce s; mret (assign sections key v overrides)
      else mret overrides
  | None => mret overrides
  end.

Definition _get_env_overrides (environ : gmap string string)
    : result (gmap string value) :=
  let overrides : gmap string value := ∅ in
  (* Server overrides *)
  overrides ← override_from environ "OPENEDU_MCP_HOST"
                ["server"] "host" coerce_str overrides;
  overrides ← override_from environ "OPENEDU_MCP_PORT"
                ["server"] "port" coerce_int overrides;
  overrides ← override_from environ "OPENEDU_MCP_LOG_LEVEL"
                ["server"] "log_level" coerce_str overrides;
  overrides ← override_from environ "OPENEDU_MCP_DEBUG"
                ["server"] "debug" coerce_bool overrides;
  (* Cache overrides *)
  overrides ← override_from environ "OPENEDU_MCP_CACHE_PATH"
                ["cache"] "database_path" coerce_str overrides;
  overrides ← override_from environ "OPENEDU_MCP_CACHE_TTL"
                ["cache"] "default_ttl" coerce_int overrides;
  overrides ← override_from environ "OPENEDU_MCP_CACHE_MAX_SIZE_MB"
                ["cache"] "max_size_mb" coerce_int overrides;
  (* API rate limit overrides *)
  overrides ← override_from environ "OPENEDU_MCP_OPEN_LIBRARY_RATE_LIMIT"
                ["apis"; "open_library"] "rate_limit" coerce_int overrides;
  overrides ← override_from environ "OPENEDU_MCP_WIKIPEDIA_RATE_LIMIT"
                ["apis"; "wikipedia"] "rate_limit" coerce_int overrides;
  mret overrides.

(** The nine variables that [_get_env_overrides] reads, and those among
    them that go through [int]. *)
Definition override_vars : list string :=
  ["OPENEDU_MCP_HOST"; "OPENEDU_MCP_PORT"; "OPENEDU_MCP_LOG_LEVEL";
   "OPENEDU_MCP_DEBUG"; "OPENEDU_MCP_CACHE_PATH"; "OPENEDU_MCP_CACHE_TTL";
   "OPENEDU_MCP_CACHE_MAX_SIZE_MB"; "OPENEDU_MCP_OPEN_LIBRARY_RATE_LIMIT";
   "OPENEDU_MCP_WIKIPEDIA_RATE_LIMIT"].

Definition int_vars : list string :=
  ["OPENEDU_MCP_PORT"; "OPENEDU_MCP_CACHE_TTL"; "OPENEDU_MCP_CACHE_MAX_SIZE_MB";
   "OPENEDU_MCP_OPEN_LIBRARY_RATE_LIMIT"; "OPENEDU_MCP_WIKIPEDIA_RATE_LIMIT"].

(** ** [_merge_configs]

    [merge_item rv val] is what the loop body stores at [key], where
    [rv] is [result[key]] when [key in result]: the recursive merge when
    both are dicts, and [val], the value of the item, otherwise.  The loop runs over the items
    of [override]; the keys of a dict are distinct, so the order in which
    [map_fold] visits them does not show in the result
    (see [merge_configs_lookup]). *)
Fixpoint merge_item (rv : option value) (val : value) {struct val} : value :=
  match val, rv with
  | VDict override, Some (VDict base) =>
      VDict (map_fold (fun key val result =>
                         <[key := merge_item (result !! key) val]> result)
                      base override)
  | _, _ => val
  end.

Definition _merge_configs (base override : gmap string value) : gmap string value :=
  let result := base (* base.copy() *) in
  map_fold (fun key val result =>
              <[key := merge_item (result !! key) val]> result)
           result override.

(** ** [load_config]

    The world outside the program: the process environment as it is when
    [load_config] is called (after [load_dotenv] at import) and, for each
    path, whether a file exists there and what opening it and
    [yaml.safe_load] make of it. *)

Inductive file : Type :=
  | Unreadable            (* [open] raises, e.g. the path is a directory *)
  | Malformed (x : exn)   (* reading the file or [yaml.safe_load] raises [x] *)
  | Document (v : value). (* [yaml.safe_load] returns [v] *)

(** What [Malformed] raises is for the world to say: the [YAMLError] of a
    text that is not YAML, [OtherError "UnicodeDecodeError"] for bytes
    that are not text in the encoding of the locale, the [ValueError] of
    a timestamp such as [2001-13-01], [OtherError "RecursionError"] for a
    document nested too deep. *)

Record World := {
  environ : gmap string string;
  files : gmap string file
}.

Definition path_exists (w : World) (p : string) : bool :=
  bool_decide (is_Some (files w !! p)).

(** The first part of [load_config]: which file, if any, is read. *)
Definition resolve_config_file (w : World) (config_path : option string)
    : option string :=
  match config_path with
  | Some p =>
      if truthy (VStr p) then Some p
      else find (path_exists w)
             ["config/default.yaml"; "config/development.yaml";
              default "config/default.yaml" (environ w !! "OPENEDU_MCP_CONFIG_PATH")]
  | None =>
      find (path_exists w)
        ["config/default.yaml"; "config/development.yaml";
         default "config/default.yaml" (environ w !! "OPENEDU_MCP_CONFIG_PATH")]
  end.

(** [config_data] after the file has been read: [yaml.safe_load(f) or {}]
    when the file exists, and [{}] otherwise. *)
Definition read_config_data (w : World) (config_file : option string) : result value :=
  match config_file with
  | Some p =>
      match files w !! p with
      | Some Unreadable => Raise OSError
      | Some (Malformed x) => Raise x
      | Some (Document v) => Ok (if truthy v then v else VDict ∅)
      | None => Ok (VDict ∅)
      end
  | None => Ok (VDict ∅)
  end.

(** [_merge_configs(config_data, env_overrides)] where [config_data] is
    what the file held, which need not be a mapping: a list has [copy] but
    no string keys, other objects have no [copy]. *)
Definition merge_loaded (config_data : value) (env_overrides : gmap string value)
    : result value :=
  match config_data with
  | VDict base => Ok (VDict (_merge_configs base env_overrides))
  | VList l => if decide (env_overrides = ∅) then Ok (VList l) else Raise TypeError
  | _ => Raise AttributeError
  end.

(** [Config.from_dict(config_data)]: only a dict has [get]. *)
Definition from_loaded (config_data : value) : result Config :=
  match config_data with
  | VDict data => from_dict data
  | _ => Raise AttributeError
  end.

Definition load_config (w : World) (config_path : option string) : result Config :=
  config_data ← read_config_data w (resolve_config_file w config_path);
  env_overrides ← _get_env_overrides (environ w);
  config_data ← merge_loaded config_data env_overrides;
  from_loaded config_data.

(** ** Sample inputs *)

Definition int_samples : list (string * option Z) :=
  [("7000", Some 7000%Z); (" 42 ", Some 42%Z); ("-5", Some (-5)%Z);
   ("+1_000", Some 1000%Z); ("007", Some 7%Z); ("abc", None); ("", None);
   ("12a", None); ("1__0", None); ("_1", None); ("1_", None); ("- 5", None);
   ("8000.0", None)].

(** Values outside ASCII, given by their UTF-8 bytes. *)
Definition utf8 (bytes : list nat) : string :=
  string_of_list_ascii (ascii_of_nat <$> bytes).

Definition int_unicode_samples : list (string * option Z) :=
  [ (utf8 [217; 163; 239; 188; 144], Some 30%Z);        (* U+0663 U+FF10 *)
    (utf8 [227; 128; 128; 45; 224; 165; 173; 194; 160], Some (-7)%Z);
                                          (* U+3000 - U+096D U+00A0 *)
    (utf8 [240; 157; 159; 143; 95; 49], Some 11%Z);      (* U+1D7CF _ 1 *)
    (utf8 [194; 178], None);                             (* U+00B2, superscript two *)
    (utf8 [226; 133; 167], None);                        (* U+2167, roman numeral eight *)
    (utf8 [28; 49], None);                               (* U+001C 1 *)
    (utf8 [192; 177], None);                             (* overlong form of 1 *)
    (utf8 [49; 255], None) ].                            (* a byte that is not UTF-8 *)

Definition digits_of_length (n : nat) : string :=
  string_of_list_ascii (repeat "1"%char n).

(** ** Paths into nested mappings *)

(** [v[k1][k2]...] where every step has to find a dict that has the key. *)
Fixpoint lookup_path (path : list string) (v : value) : option value :=
  match path with
  | [] => Some v
  | k :: rest =>
      match v with
      | VDict d => d !! k ≫= lookup_path rest
      | _ => None
      end
  end.

(** Two paths part ways: at some depth they name different keys. *)
Fixpoint diverge (p q : list string) : bool :=
  match p, q with
  | a :: p', b :: q' => if decide (a = b) then diverge p' q' else true
  | _, _ => false
  end.

Definition sample_base : gmap string value :=
  {[ "server" := VDict {[ "host" := VStr "example.org"; "port" := VInt 9000 ]};
     "education" := VDict {[ "subjects" := VList [VStr "Mathematics"; VStr "Science"] ]};
     "logging" := VDict {[ "level" := VStr "DEBUG" ]} ]}.

Definition sample_override : gmap string value :=
  {[ "server" := VDict {[ "port" := VInt 7000 ]};
     "education" := VDict {[ "subjects" := VList [VStr "Art"] ]} ]}.

(** ** The overrides as a table

    The nine statements of [_get_env_overrides], one entry each: the
    variable, the sections passed to [setdefault], the key assigned and the
    coercion of the string. *)

Definition override_entry : Type :=
  string * list string * string * (string -> result value).

Definition entry_var (e : override_entry) : string := e.1.1.1.
Definition entry_path (e : override_entry) : list string := e.1.1.2 ++ [e.1.2].
Definition entry_coerce (e : override_entry) : string -> result value := e.2.

Definition override_table : list override_entry :=
  [("OPENEDU_MCP_HOST", ["server"], "host", coerce_str);
   ("OPENEDU_MCP_PORT", ["server"], "port", coerce_int);
   ("OPENEDU_MCP_LOG_LEVEL", ["server"], "log_level", coerce_str);
   ("OPENEDU_MCP_DEBUG", ["server"], "debug", coerce_bool);
   ("OPENEDU_MCP_CACHE_PATH", ["cache"], "database_path", coerce_str);
   ("OPENEDU_MCP_CACHE_TTL", ["cache"], "default_ttl", coerce_int);
   ("OPENEDU_MCP_CACHE_MAX_SIZE_MB", ["cache"], "max_size_mb", coerce_int);
   ("OPENEDU_MCP_OPEN_LIBRARY_RATE_LIMIT", ["apis"; "open_library"], "rate_limit",
    coerce_int);
   ("OPENEDU_MCP_WIKIPEDIA_RATE_LIMIT", ["apis"; "wikipedia"], "rate_limit",
    coerce_int)].

Fixpoint apply_overrides (environ : gmap string string) (tbl : list override_entry)
    (overrides : gmap string value) : result (gmap string value) :=
  match tbl with
  | [] => Ok overrides
  | (var, sections, key, coerce) :: rest =>
      overrides ← override_from environ var sections key coerce overrides;
      apply_overrides environ rest overrides
  end.

(** The paths of the entries part ways pairwise, so no assignment writes
    over an earlier one. *)
Fixpoint separated (tbl : list override_entry) : bool :=
  match tbl with
  | [] => true
  | e :: rest =>
      forallb (fun e' => diverge (entry_path e) (entry_path e')) rest
      && separated rest
  end.

(** The sections that [from_dict] passes to a dataclass constructor as
    keyword arguments, as paths into the input mapping, and the fields of
    [education] that it reads by name. *)
Definition keyword_sections : list (list string) :=
  [["server"]; ["cache"]; ["apis"; "open_library"]; ["apis"; "wikipedia"];
   ["apis"; "dictionary"]; ["apis"; "arxiv"]; ["education"; "content_filters"];
   ["logging"]; ["monitoring"]].

Definition education_lists : list string :=
  ["grade_levels"; "curriculum_standards"; "subjects"].

(** The field names of the dataclass built from a keyword section. *)
Definition section_fields (section : list string) : list string :=
  match section with
  | ["server"] => ServerConfig_fields
  | ["cache"] => CacheConfig_fields
  | ["apis"; _] => APIConfig_fields
  | ["education"; "content_filters"] => ContentFilters_fields
  | ["logging"] => LoggingConfig_fields
  | ["monitoring"] => MonitoringConfig_fields
  | _ => []
  end.

(** The sections of an assignment are absent or dicts in [d], all the way
    down: the chain of [setdefault]s finds nothing else. *)
Fixpoint shaped (sections : list string) (d : gmap string value) : Prop :=
  match sections with
  | [] => True
  | s :: rest =>
      match d !! s with
      | None => True
      | Some (VDict sub) => shaped rest sub
      | Some _ => False
      end
  end.

Fixpoint is_prefix (p q : list string) : bool :=
  match p, q with
  | [], _ => true
  | a :: p', b :: q' => if decide (a = b) then is_prefix p' q' else false
  | _ :: _, [] => false
  end.

(** No entry assigns to a key that another entry uses as a section. *)
Definition prefix_free (tbl : list override_entry) : bool :=
  forallb (fun e => forallb (fun e' => negb (is_prefix (entry_path e) e'.1.1.2)) tbl) tbl.

(** ** Sample inputs of the loader *)

(** A file that gives every section in full. *)
Definition full_mapping : gmap string value := to_dict default_Config.

(** The services of [apis] given in full, and nothing else. *)
Definition apis_only : gmap string value :=
  {[ "apis" := VDict
       {[ "open_library" := VDict (APIConfig_dict (open_library default_APIsConfig));
          "wikipedia" := VDict (APIConfig_dict (wikipedia default_APIsConfig));
          "dictionary" := VDict (APIConfig_dict (dictionary default_APIsConfig));
          "arxiv" := VDict (APIConfig_dict (arxiv default_APIsConfig)) ]} ]}.

(** [server.port = 9000] and [server.debug = true] on top of [apis_only]. *)
Definition port_9000 : gmap string value :=
  <["server" := VDict {[ "port" := VInt 9000; "debug" := VBool true ]}]> apis_only.

(** The file of the specification's example: [server.port = 9000] and
    nothing else. *)
Definition port_only : gmap string value :=
  {[ "server" := VDict {[ "port" := VInt 9000 ]} ]}.

(** A server section with a key that [ServerConfig] does not have, and
    the same mapping with that key removed. *)
Definition bogus_section : gmap string value :=
  {[ "port" := VInt 9000; "bogus" := VInt 1 ]}.

Definition bogus_server : gmap string value :=
  <["server" := VDict bogus_section]> apis_only.

Definition no_bogus_server : gmap string value :=
  <["server" := VDict (delete "bogus" bogus_section)]> bogus_server.

(** The server sections that the samples lead to. *)
Definition server_with (p : Z) (dbg : bool) : ServerConfig :=
  {| name := VStr "openedu-mcp-server"; version := VStr "1.0.0";
     host := VStr "localhost"; port := VInt p;
     log_level := VStr "INFO"; debug := VBool dbg |}.

Definition world_of (env : gmap string string) (doc : file) : World :=
  {| environ := env; files := {[ "config/default.yaml" := doc ]} |}.

(** No file at all and an empty environment. *)
Definition bare_world : World := {| environ := ∅; files := ∅ |}.

(** What [from_dict] builds from [apis_only] with the given server
    section: the declared defaults, except that the three lists of
    [education] are empty. *)
Definition apis_only_Config (s : ServerConfig) : Config :=
  {| server := s;
     cache := default_CacheConfig;
     apis := default_APIsConfig;
     education := {| grade_levels := VList []; curriculum_standards := VList [];
                     subjects := VList [];
                     content_filters := default_ContentFilters |};
     logging := default_LoggingConfig;
     monitoring := default_MonitoringConfig |}.

(** The sixteen ways to spell [true] in upper and lower case. *)
Definition true_spellings : list string :=
  ["true"; "truE"; "trUe"; "trUE"; "tRue"; "tRuE"; "tRUe"; "tRUE";
   "True"; "TruE"; "TrUe"; "TrUE"; "TRue"; "TRuE"; "TRUe"; "TRUE"].

(** ** [_merge_configs] on a store of mutable objects

    The functions above pass values around.  Python passes references:
    [base.copy()] is a new dict whose values are the objects that [base]
    holds, [result[key] = value] writes into the dict that [result]
    refers to, and the values stored may be shared with the arguments.
    This second model has the store explicit, to state what the merge
    does to its arguments.

    A reference is an immutable value held in place or the location of a
    dict or list in the store; the store is the list of the objects
    allocated so far, a location is an index into it, and an allocation
    appends. *)

Module Heap.

Inductive ref : Type :=
  | RNone
  | RBool (b : bool)
  | RInt (n : Z)
  | RFloat (f : float)
  | RStr (s : string)
  | RObj (l : nat).

Inductive object : Type :=
  | ODict (items : gmap string ref)
  | OList (elems : list ref).

Abbreviation heap := (list object).

(** The items of the dict that [r] refers to. *)
Definition dict_of (h : heap) (r : ref) : option (gmap string ref) :=
  match r with
  | RObj l => match h !! l with Some (ODict items) => Some items | _ => None end
  | _ => None
  end.

(** [isinstance(r, dict)] *)
Definition is_dict_ref (h : heap) (r : ref) : bool :=
  match dict_of h r with Some _ => true | None => false end.

(** [d[key] = v] for the dict at location [l]: the dict is updated in
    place. *)
Definition setitem (h : heap) (l : nat) (key : string) (v : ref) : heap :=
  match h !! l with
  | Some (ODict items) => <[l := ODict (<[key := v]> items)]> h
  | _ => h
  end.

(** The body of the loop, for the item [(key, val)] of [override];
    [result] is the location of the copy of [base] and [rec] the
    recursive call. *)
Definition merge_step (rec : heap -> ref -> ref -> option (heap * ref))
    (result : nat) (key : string) (val : ref) (acc : option heap) : option heap :=
  h ← acc;
  ritems ← dict_of h (RObj result);
  match ritems !! key with
  | Some rv =>
      if is_dict_ref h rv && is_dict_ref h val
      then '(h', r) ← rec h rv val; Some (setitem h' result key r)
      else Some (setitem h result key val)
  | None => Some (setitem h result key val)
  end.

(** [_merge_configs(base, override)] started in the store [h]: the store
    when it returns and the reference returned.  [None] when an argument
    is not a dict or the recursion is deeper than [fuel].  The loop runs
    over the items that [override] has when the loop starts; the merge
    writes to no dict but its own [result] (see [merge_configs_frame]), so
    they are the items that [override] has all along.  The order in which
    [map_fold] visits them decides at which location a nested result is
    allocated, not what it holds. *)
Fixpoint merge_configs (fuel : nat) (h : heap) (base override : ref)
    : option (heap * ref) :=
  match fuel with
  | 0 => None
  | S fuel =>
      bitems ← dict_of h base;
      oitems ← dict_of h override;
      let result := length h in
      h' ← map_fold (merge_step (merge_configs fuel) result)
                    (Some ((h ++ [ODict bitems])%list)) oitems;
      Some (h', RObj result)
  end.

(** The value that a reference stands for in a store, when what is
    reachable from it is a tree. *)
Inductive repr (h : heap) : ref -> value -> Prop :=
  | repr_none : repr h RNone VNone
  | repr_bool b : repr h (RBool b) (VBool b)
  | repr_int n : repr h (RInt n) (VInt n)
  | repr_float f : repr h (RFloat f) (VFloat f)
  | repr_str s : repr h (RStr s) (VStr s)
  | repr_list l elems vs :
      h !! l = Some (OList elems) ->
      Forall2 (repr h) elems vs ->
      repr h (RObj l) (VList vs)
  | repr_dict l items m :
      h !! l = Some (ODict items) ->
      (forall k, option_Forall2 (repr h) (items !! k) (m !! k)) ->
      repr h (RObj l) (VDict m).

(** Every object of [h] is in [g], at the same location. *)
Definition heap_incl (h g : heap) : Prop :=
  forall l o, h !! l = Some o -> g !! l = Some o.

(** [g] has the objects that [h] has from location [n] on. *)
Definition agree_from (n : nat) (h g : heap) : Prop :=
  forall l o, n <= l -> h !! l = Some o -> g !! l = Some o.

(** A reference stands for [v] in every store that has the objects of
    [h0] and the objects that [hc] has from location [n] on. *)
Definition stable_repr (h0 : heap) (n : nat) (hc : heap) (r : ref) (v : value) : Prop :=
  forall g, heap_incl h0 g -> agree_from n hc g -> repr g r v.

(** The state of the loop after the items [m] of [override]: the store
    [hc] extends [h], [result] is a dict of it, the keys not yet visited
    hold what [base] holds, and the keys visited hold references that
    stand for what the merge of the values has at these keys. *)
Definition loop_inv (h0 h : heap) (bitems : gmap string ref)
    (merged : gmap string value) (acc : option heap) (m : gmap string ref) : Prop :=
  exists hc ritems,
    acc = Some hc
    /\ h `prefix_of` hc
    /\ hc !! length h = Some (ODict ritems)
    /\ (forall k, m !! k = None -> ritems !! k = bitems !! k)
    /\ (forall k, is_Some (m !! k) ->
          option_Forall2 (stable_repr h0 (S (length h)) hc)
                         (ritems !! k) (merged !! k)).

(** No dict of the store refers to a location that is not allocated. *)
Definition closed (h : heap) : Prop :=
  forall l items k l',
    h !! l = Some (ODict items) -> items !! k = Some (RObj l') -> l' < length h.

(** The test for [closed], on a store written out in full. *)
Definition closedb (h : heap) : bool :=
  forallb (fun o =>
             match o with
             | ODict items =>
                 forallb (fun kv => match kv.2 with
                                    | RObj l' => (l' <? length h)%nat
                                    | _ => true
                                    end)
                         (map_to_list items)
             | OList _ => true
             end) h.

(** [result[key]] and [value] are both dicts, in the store [h]. *)
Definition both_dicts (h : heap) (rv : option ref) (val : ref) : bool :=
  match rv with
  | Some rv => is_dict_ref h rv && is_dict_ref h val
  | None => false
  end.

(** A store with the sample mappings of [sample_base] at location 4 and
    [sample_override] at location 8. *)
Definition sample_heap : heap :=
  [ ODict {[ "host" := RStr "example.org"; "port" := RInt 9000 ]};
    OList [RStr "Mathematics"; RStr "Science"];
    ODict {[ "subjects" := RObj 1 ]};
    ODict {[ "level" := RStr "DEBUG" ]};
    ODict {[ "server" := RObj 0; "education" := RObj 2; "logging" := RObj 3 ]};
    ODict {[ "port" := RInt 7000 ]};
    OList [RStr "Art"];
    ODict {[ "subjects" := RObj 6 ]};
    ODict {[ "server" := RObj 5; "education" := RObj 7 ]} ].

End Heap.

(** Nesting depth of the dicts of a value; lists are not looked into. *)
Fixpoint depth (v : value) : nat :=
  match v with
  | VDict m => S (map_fold (fun _ x acc => Nat.max (depth x) acc) 0 m)
  | _ => 0
  end.

(** ** What [from_dict] accepts

    The checks that the constructors make on the mapping, written as one
    test: a keyword section is absent or a dict whose keys are fields; a
    service of [apis] is a dict whose keys are fields and that gives the
    three fields without default; [apis] and [education] are read with
    [get], so they are dicts when present, and [apis] has to be present
    for its services to be. *)

(** The dict that [d] holds at [s], and the empty dict when it holds none
    there. *)
Definition section_of (d : gmap string value) (s : string) : gmap string value :=
  match d !! s with Some (VDict kw) => kw | _ => ∅ end.

Definition keywords_ok (fields : list string) (o : option value) : bool :=
  match o with
  | None => true
  | Some (VDict kw) => bool_decide (dom kw ⊆ list_to_set fields)
  | Some _ => false
  end.

Definition api_ok (o : option value) : bool :=
  match o with
  | Some (VDict kw) =>
      bool_decide (dom kw ⊆ list_to_set APIConfig_fields)
      && bool_decide (is_Some (kw !! "base_url"))
      && bool_decide (is_Some (kw !! "rate_limit"))
      && bool_decide (is_Some (kw !! "timeout"))
  | _ => false
  end.

Definition apis_ok (o : option value) : bool :=
  match o with
  | Some (VDict a) =>
      api_ok (a !! "open_library") && api_ok (a !! "wikipedia")
      && api_ok (a !! "dictionary") && api_ok (a !! "arxiv")
  | _ => false
  end.

Definition education_ok (o : option value) : bool :=
  match o with
  | None => true
  | Some (VDict e) => keywords_ok ContentFilters_fields (e !! "content_filters")
  | Some _ => false
  end.

Definition acceptable (d : gmap string value) : bool :=
  keywords_ok ServerConfig_fields (d !! "server")
  && keywords_ok CacheConfig_fields (d !! "cache")
  && apis_ok (d !! "apis")
  && education_ok (d !! "education")
  && keywords_ok LoggingConfig_fields (d !! "logging")
  && keywords_ok MonitoringConfig_fields (d !! "monitoring").

(** The two fields of [APIConfig] that have a default. *)
Definition APIConfig_defaults : gmap string value :=
  {[ "retry_attempts" := VInt 3; "backoff_factor" := VFloat 2%float ]}.

(** ** More sample inputs *)

(** The file of [port_9000] at the first candidate path, another file at
    the path that the environment names. *)
Definition two_files (env : gmap string string) : World :=
  {| environ := env;
     files := {[ "config/default.yaml" := Document (VDict port_9000);
                 "elsewhere.yaml" := Document (VDict full_mapping) ]} |}.

(** A wikipedia section without [retry_attempts]. *)
Definition short_wikipedia : gmap string value :=
  <["apis" := VDict
      (<["wikipedia" := VDict {[ "base_url" := VStr "https://en.wikipedia.org/api/rest_v1";
                                 "rate_limit" := VInt 200; "timeout" := VInt 30 ]}]>
         (section_of apis_only "apis"))]> apis_only.

(** What [from_dict] builds from [short_wikipedia]. *)
Definition short_wikipedia_Config : Config :=
  {| server := default_ServerConfig;
     cache := default_CacheConfig;
     apis := {| open_library := open_library default_APIsConfig;
                wikipedia :=
                  {| base_url := VStr "https://en.wikipedia.org/api/rest_v1";
                     rate_limit := VInt 200; timeout := VInt 30;
                     retry_attempts := VInt 3; backoff_factor := VFloat 2%float |};
                dictionary := dictionary default_APIsConfig;
                arxiv := arxiv default_APIsConfig |};
     education := {| grade_levels := VList []; curriculum_standards := VList [];
                     subjects := VList [];
                     content_filters := default_ContentFilters |};
     logging := default_LoggingConfig;
     monitoring := default_MonitoringConfig |}.
(** * Properties *)

(** ** Sample runs *)

Example py_int_samples : Forall (fun p => py_int p.1 = p.2) int_samples.
Proof. repeat constructor. Qed.

Example py_int_unicode_samples :
  Forall (fun p => py_int p.1 = p.2) int_unicode_samples.
Proof. repeat constructor. Qed.

Example py_int_digit_limit :
  is_Some (py_int (digits_of_length int_max_str_digits))
  /\ py_int (digits_of_length (S int_max_str_digits)) = None.
Proof. split; [eexists|]; vm_compute; reflexivity. Qed.


Example lower_samples :
  lower "TRUE" = "true" /\ lower "True" = "true" /\ lower "yes" = "yes".
Proof. repeat split. Qed.

Lemma from_dict_to_dict (c : Config) : from_dict (to_dict c) = Ok c.
Proof.
  destruct c as [[] [] [[] [] [] []] [? ? ? []] [] []].
  vm_compute. reflexivity.
Qed.

Lemma from_dict_empty : from_dict ∅ = Raise TypeError.
Proof. vm_compute. reflexivity. Qed.

(** ** The monad of results *)

Lemma bind_Ok {A B} (f : A -> result B) (r : result A) (b : B) :
  r ≫= f = Ok b -> exists a, r = Ok a /\ f a = Ok b.
Proof. destruct r as [a|e]; [eauto | discriminate]. Qed.

Lemma bind_Raise {A B} (f : A -> result B) (e : exn) :
  Raise e ≫= f = Raise e.
Proof. reflexivity. Qed.

(** Splits a hypothesis [x ← r; k = Ok b] into [r = Ok a] and [k a = Ok b],
    as often as it applies. *)
Ltac inv_bind H :=
  let a := fresh "a" in
  let Ha := fresh "Ha" in
  apply bind_Ok in H; destruct H as (a & Ha & H);
  try (inv_bind H).

(** ** [_merge_configs] on the keys of its arguments *)

Lemma merge_item_dict (base override : gmap string value) :
  merge_item (Some (VDict base)) (VDict override)
  = VDict (_merge_configs base override).
Proof. reflexivity. Qed.

Lemma merge_item_not_both (rv : option value) (val : value) :
  ~ (exists b o, rv = Some (VDict b) /\ val = VDict o) ->
  merge_item rv val = val.
Proof.
  intros Hnot. destruct val; try reflexivity.
  destruct rv as [[]|]; try reflexivity.
  exfalso. apply Hnot. eauto.
Qed.

(** The result of the loop, key by key: the order of the items of
    [override] does not matter. *)
Lemma merge_configs_lookup (base override : gmap string value) (key : string) :
  _merge_configs base override !! key
  = match override !! key with
    | Some val => Some (merge_item (base !! key) val)
    | None => base !! key
    end.
Proof.
  unfold _merge_configs.
  induction override as [|k x m Hk Hfirst IH] using map_first_key_ind.
  - rewrite map_fold_empty, lookup_empty. reflexivity.
  - rewrite map_fold_insert_first_key by assumption.
    destruct (decide (k = key)) as [->|Hne].
    + rewrite !lookup_insert_eq. rewrite IH, Hk. reflexivity.
    + rewrite !lookup_insert_ne by assumption. exact IH.
Qed.

Lemma merge_configs_empty_r (base : gmap string value) :
  _merge_configs base ∅ = base.
Proof. unfold _merge_configs. apply map_fold_empty. Qed.

Lemma merge_configs_dom (base override : gmap string value) :
  dom (_merge_configs base override) = dom base ∪ dom override.
Proof.
  apply set_eq. intros k.
  rewrite elem_of_union, !elem_of_dom, merge_configs_lookup.
  destruct (override !! k) as [v|] eqn:Ho.
  - split; [intros _; right|]; eauto.
  - split; [intros H; left; exact H|].
    intros [H|[? H]]; [exact H | discriminate].
Qed.

(** C5. For all mappings [base] and [override] and every key: if the key
    is in [override] and both mappings hold a mapping at it, the result
    holds the recursive merge of the two there; if the key is in
    [override] and they do not both hold a mapping, the result holds
    [override]'s value, whole (a list or scalar replaces what [base] had);
    and a key of [base] that is not in [override] keeps [base]'s value. *)
Theorem merge_configs_spec (base override : gmap string value) (key : string) :
  (forall val, override !! key = Some val ->
     (forall b o, base !! key = Some (VDict b) -> val = VDict o ->
        _merge_configs base override !! key = Some (VDict (_merge_configs b o)))
     /\ (~ (exists b o, base !! key = Some (VDict b) /\ val = VDict o) ->
         _merge_configs base override !! key = Some val))
  /\ (override !! key = None ->
      _merge_configs base override !! key = base !! key).
Proof.
  rewrite merge_configs_lookup. split.
  - intros val ->. split.
    + intros b o -> ->. rewrite merge_item_dict. reflexivity.
    + intros Hnot. rewrite merge_item_not_both by exact Hnot. reflexivity.
  - intros ->. reflexivity.
Qed.

Lemma merge_configs_spec_witness :
  _merge_configs sample_base sample_override !! "server"
    = Some (VDict (_merge_configs {[ "host" := VStr "example.org"; "port" := VInt 9000 ]}
                                  {[ "port" := VInt 7000 ]}))
  /\ _merge_configs {[ "subjects" := VList [VStr "Mathematics"; VStr "Science"] ]}
                    {[ "subjects" := VList [VStr "Art"] ]} !! "subjects"
     = Some (VList [VStr "Art"])
  /\ _merge_configs sample_base sample_override !! "logging"
     = sample_base !! "logging".
Proof.
  split; [|split].
  - refine (proj1 (proj1 (merge_configs_spec sample_base sample_override "server")
                     (VDict {[ "port" := VInt 7000 ]}) _) _ _ _ _).
    + vm_compute. reflexivity.
    + vm_compute. reflexivity.
    + reflexivity.
  - refine (proj2 (proj1 (merge_configs_spec
                            {[ "subjects" := VList [VStr "Mathematics"; VStr "Science"] ]}
                            {[ "subjects" := VList [VStr "Art"] ]} "subjects")
                     (VList [VStr "Art"]) _) _).
    + vm_compute. reflexivity.
    + intros (b & o & _ & Ho). discriminate Ho.
  - apply (proj2 (merge_configs_spec sample_base sample_override "logging")).
    vm_compute. reflexivity.
Defined.

(** ** Paths into nested mappings *)

(** What [override] holds at a path that ends in a list or scalar is what
    the merge holds there: overrides win at every nesting level. *)
Lemma merge_configs_override_wins (path : list string) :
  forall (base override : gmap string value) (v : value),
    path <> [] ->
    lookup_path path (VDict override) = Some v ->
    is_dict v = false ->
    lookup_path path (VDict (_merge_configs base override)) = Some v.
Proof.
  induction path as [|k rest IH]; intros base override v Hne Hov Hv; [done|].
  simpl in *. rewrite merge_configs_lookup.
  destruct (override !! k) as [ov|] eqn:Hk; [|discriminate]. simpl in *.
  destruct rest as [|k' rest'].
  - simpl in *. injection Hov as ->.
    destruct v; try reflexivity. discriminate.
  - destruct ov as [| | | | | |o]; try discriminate.
    destruct (base !! k) as [[| | | | | |b]|]; try exact Hov.
    rewrite merge_item_dict. apply IH; [discriminate | exact Hov | exact Hv].
Qed.

(** A path of [base] that parts ways with every path of [override] is not
    touched; stated for the paths where [override] has nothing at the
    first key. *)
Lemma merge_configs_base_kept (base override : gmap string value)
    (k : string) (rest : list string) :
  override !! k = None ->
  lookup_path (k :: rest) (VDict (_merge_configs base override))
  = lookup_path (k :: rest) (VDict base).
Proof. intros Hk. simpl. rewrite merge_configs_lookup, Hk. reflexivity. Qed.

Lemma assign_lookup (sections : list string) (key : string) (v : value) :
  forall d : gmap string value,
    lookup_path (sections ++ [key]) (VDict (assign sections key v d)) = Some v.
Proof.
  induction sections as [|s rest IH]; intros d; simpl.
  - rewrite lookup_insert_eq. reflexivity.
  - rewrite lookup_insert_eq. simpl. apply IH.
Qed.

Lemma assign_other (sections : list string) (key : string) (v : value) :
  forall (p : list string) (d : gmap string value) (x : value),
    diverge p (sections ++ [key]) = true ->
    lookup_path p (VDict d) = Some x ->
    lookup_path p (VDict (assign sections key v d)) = Some x.
Proof.
  induction sections as [|s rest IH]; intros p d x Hdiv Hp.
  - destruct p as [|a p']; [discriminate|]. simpl in *.
    destruct (decide (a = key)) as [->|Hne]; [destruct p'; discriminate|].
    rewrite lookup_insert_ne by congruence. exact Hp.
  - destruct p as [|a p']; [discriminate|]. simpl in *.
    destruct (decide (a = s)) as [->|Hne].
    + rewrite lookup_insert_eq. simpl.
      destruct (d !! s) as [[| | | | | |sub]|]; simpl in Hp; try discriminate.
      * destruct p'; discriminate.
      * destruct p'; discriminate.
      * destruct p'; discriminate.
      * destruct p'; discriminate.
      * destruct p'; discriminate.
      * destruct p'; [discriminate|]. discriminate.
      * apply IH; assumption.
    + rewrite lookup_insert_ne by congruence. exact Hp.
Qed.

(** ** What [from_dict] keeps of its input *)

Lemma spread_Ok (fields : list string) (v : value) (kw : gmap string value) :
  spread fields v = Ok kw ->
  v = VDict kw /\ forall f, is_Some (kw !! f) -> In f fields.
Proof.
  unfold spread. destruct v; try discriminate.
  case_bool_decide as Hdom; [|discriminate].
  intros [= ->]. split; [reflexivity|].
  intros f Hf. apply elem_of_dom in Hf. apply Hdom in Hf.
  apply elem_of_list_to_set in Hf. apply list_elem_of_In. exact Hf.
Qed.

Lemma spread_unknown (fields : list string) (kw : gmap string value) (f : string) :
  is_Some (kw !! f) -> ~ In f fields -> spread fields (VDict kw) = Raise TypeError.
Proof.
  intros Hf Hnot. unfold spread. case_bool_decide as Hdom; [|reflexivity].
  exfalso. apply Hnot. apply list_elem_of_In.
  apply (elem_of_list_to_set (C := gset string)). apply Hdom. apply elem_of_dom. exact Hf.
Qed.

Lemma optional_Some (kw : gmap string value) (k : string) (dflt x : value) :
  kw !! k = Some x -> optional kw k dflt = x.
Proof. unfold optional. intros ->. reflexivity. Qed.

Lemma required_Ok (kw : gmap string value) (k : string) (x : value) :
  required kw k = Ok x -> kw !! k = Some x.
Proof. unfold required. destruct (kw !! k); [intros [= ->]; reflexivity | discriminate]. Qed.

(** Closes [D !! k = Some x] where [D] is the [__dict__] of a record whose
    fields are [optional kw ...] and [H : kw !! k = Some x]. *)
Ltac keep_field H :=
  simplify_map_eq; try (rewrite (optional_Some _ _ _ _ H)); try reflexivity;
  try congruence.

Local Ltac in_fields Hin :=
  repeat (destruct Hin as [<-|Hin]); [..|destruct Hin].

Lemma new_ServerConfig_keeps (v : value) (s : ServerConfig) :
  new_ServerConfig v = Ok s ->
  exists kw, v = VDict kw /\ kw ⊆ ServerConfig_dict s.
Proof.
  unfold new_ServerConfig. intros H. inv_bind H. injection H as <-.
  apply spread_Ok in Ha as [-> Hfields]. exists a. split; [reflexivity|].
  apply map_subseteq_spec. intros f x Hf.
  specialize (Hfields f (ex_intro _ x Hf)). unfold ServerConfig_dict.
  in_fields Hfields; keep_field Hf.
Qed.

Lemma new_CacheConfig_keeps (v : value) (s : CacheConfig) :
  new_CacheConfig v = Ok s ->
  exists kw, v = VDict kw /\ kw ⊆ CacheConfig_dict s.
Proof.
  unfold new_CacheConfig. intros H. inv_bind H. injection H as <-.
  apply spread_Ok in Ha as [-> Hfields]. exists a. split; [reflexivity|].
  apply map_subseteq_spec. intros f x Hf.
  specialize (Hfields f (ex_intro _ x Hf)). unfold CacheConfig_dict.
  in_fields Hfields; keep_field Hf.
Qed.

Lemma new_APIConfig_keeps (v : value) (s : APIConfig) :
  new_APIConfig v = Ok s ->
  exists kw, v = VDict kw /\ kw ⊆ APIConfig_dict s.
Proof.
  unfold new_APIConfig. intros H. inv_bind H. injection H as <-.
  apply spread_Ok in Ha as [-> Hfields]. exists a. split; [reflexivity|].
  apply required_Ok in Ha0, Ha1, Ha2.
  apply map_subseteq_spec. intros f x Hf.
  specialize (Hfields f (ex_intro _ x Hf)). unfold APIConfig_dict.
  in_fields Hfields; keep_field Hf.
Qed.

Lemma new_ContentFilters_keeps (v : value) (s : ContentFilters) :
  new_ContentFilters v = Ok s ->
  exists kw, v = VDict kw /\ kw ⊆ ContentFilters_dict s.
Proof.
  unfold new_ContentFilters. intros H. inv_bind H. injection H as <-.
  apply spread_Ok in Ha as [-> Hfields]. exists a. split; [reflexivity|].
  apply map_subseteq_spec. intros f x Hf.
  specialize (Hfields f (ex_intro _ x Hf)). unfold ContentFilters_dict.
  in_fields Hfields; keep_field Hf.
Qed.

Lemma new_LoggingConfig_keeps (v : value) (s : LoggingConfig) :
  new_LoggingConfig v = Ok s ->
  exists kw, v = VDict kw /\ kw ⊆ LoggingConfig_dict s.
Proof.
  unfold new_LoggingConfig. intros H. inv_bind H. injection H as <-.
  apply spread_Ok in Ha as [-> Hfields]. exists a. split; [reflexivity|].
  apply map_subseteq_spec. intros f x Hf.
  specialize (Hfields f (ex_intro _ x Hf)). unfold LoggingConfig_dict.
  in_fields Hfields; keep_field Hf.
Qed.

Lemma new_MonitoringConfig_keeps (v : value) (s : MonitoringConfig) :
  new_MonitoringConfig v = Ok s ->
  exists kw, v = VDict kw /\ kw ⊆ MonitoringConfig_dict s.
Proof.
  unfold new_MonitoringConfig. intros H. inv_bind H. injection H as <-.
  apply spread_Ok in Ha as [-> Hfields]. exists a. split; [reflexivity|].
  apply map_subseteq_spec. intros f x Hf.
  specialize (Hfields f (ex_intro _ x Hf)). unfold MonitoringConfig_dict.
  in_fields Hfields; keep_field Hf.
Qed.

Lemma from_dict_Ok (d : gmap string value) (c : Config) :
  from_dict d = Ok c ->
  new_ServerConfig (dict_get d "server" (VDict ∅)) = Ok (server c)
  /\ new_CacheConfig (dict_get d "cache" (VDict ∅)) = Ok (cache c)
  /\ value_get (dict_get d "apis" (VDict ∅)) "open_library" (VDict ∅) ≫= new_APIConfig
     = Ok (open_library (apis c))
  /\ value_get (dict_get d "apis" (VDict ∅)) "wikipedia" (VDict ∅) ≫= new_APIConfig
     = Ok (wikipedia (apis c))
  /\ value_get (dict_get d "apis" (VDict ∅)) "dictionary" (VDict ∅) ≫= new_APIConfig
     = Ok (dictionary (apis c))
  /\ value_get (dict_get d "apis" (VDict ∅)) "arxiv" (VDict ∅) ≫= new_APIConfig
     = Ok (arxiv (apis c))
  /\ value_get (dict_get d "education" (VDict ∅)) "grade_levels" (VList [])
     = Ok (grade_levels (education c))
  /\ value_get (dict_get d "education" (VDict ∅)) "curriculum_standards" (VList [])
     = Ok (curriculum_standards (education c))
  /\ value_get (dict_get d "education" (VDict ∅)) "subjects" (VList [])
     = Ok (subjects (education c))
  /\ value_get (dict_get d "education" (VDict ∅)) "content_filters" (VDict ∅)
       ≫= new_ContentFilters
     = Ok (content_filters (education c))
  /\ new_LoggingConfig (dict_get d "logging" (VDict ∅)) = Ok (logging c)
  /\ new_MonitoringConfig (dict_get d "monitoring" (VDict ∅)) = Ok (monitoring c).
Proof.
  unfold from_dict. intros H. inv_bind H. injection H as <-. simpl.
  repeat split; assumption.
Qed.

Lemma to_dict_sections (c : Config) :
  lookup_path ["server"] (VDict (to_dict c))
  = Some (VDict (ServerConfig_dict (server c)))
  /\ lookup_path ["cache"] (VDict (to_dict c))
     = Some (VDict (CacheConfig_dict (cache c)))
  /\ lookup_path ["apis"; "open_library"] (VDict (to_dict c))
     = Some (VDict (APIConfig_dict (open_library (apis c))))
  /\ lookup_path ["apis"; "wikipedia"] (VDict (to_dict c))
     = Some (VDict (APIConfig_dict (wikipedia (apis c))))
  /\ lookup_path ["apis"; "dictionary"] (VDict (to_dict c))
     = Some (VDict (APIConfig_dict (dictionary (apis c))))
  /\ lookup_path ["apis"; "arxiv"] (VDict (to_dict c))
     = Some (VDict (APIConfig_dict (arxiv (apis c))))
  /\ lookup_path ["education"; "content_filters"] (VDict (to_dict c))
     = Some (VDict (ContentFilters_dict (content_filters (education c))))
  /\ lookup_path ["logging"] (VDict (to_dict c))
     = Some (VDict (LoggingConfig_dict (logging c)))
  /\ lookup_path ["monitoring"] (VDict (to_dict c))
     = Some (VDict (MonitoringConfig_dict (monitoring c))).
Proof. unfold to_dict. simpl. repeat split; simplify_map_eq; reflexivity. Qed.

Lemma to_dict_education (c : Config) :
  lookup_path ["education"; "grade_levels"] (VDict (to_dict c))
  = Some (grade_levels (education c))
  /\ lookup_path ["education"; "curriculum_standards"] (VDict (to_dict c))
     = Some (curriculum_standards (education c))
  /\ lookup_path ["education"; "subjects"] (VDict (to_dict c))
     = Some (subjects (education c)).
Proof. unfold to_dict. simpl. repeat split; simplify_map_eq; reflexivity. Qed.

Lemma lookup_path_cons (k : string) (rest : list string) (v x : value) :
  lookup_path (k :: rest) v = Some x ->
  exists d y, v = VDict d /\ d !! k = Some y /\ lookup_path rest y = Some x.
Proof.
  simpl. destruct v as [| | | | | |d]; try discriminate.
  destruct (d !! k) as [y|] eqn:Hk; [|discriminate].
  simpl. eauto.
Qed.

Lemma lookup_path_app (p q : list string) :
  forall v, lookup_path (p ++ q) v = lookup_path p v ≫= lookup_path q.
Proof.
  induction p as [|k p IH]; intros v; simpl; [reflexivity|].
  destruct v as [| | | | | |d]; try reflexivity.
  destruct (d !! k) as [y|]; simpl; [apply IH | reflexivity].
Qed.

Lemma dict_get_Some (d : gmap string value) (k : string) (dflt y : value) :
  d !! k = Some y -> dict_get d k dflt = y.
Proof. unfold dict_get. intros ->. reflexivity. Qed.

(** The pattern shared by the keyword sections: the section of the input,
    when there is one, is a mapping included in the [__dict__] of the
    record built from it. *)
Lemma keeps_section (section : list string) (d D : gmap string value) (c : Config)
    (f : string) (x : value) :
  lookup_path section (VDict (to_dict c)) = Some (VDict D) ->
  (forall y, lookup_path section (VDict d) = Some y ->
             exists kw, y = VDict kw /\ kw ⊆ D) ->
  lookup_path (section ++ [f]) (VDict d) = Some x ->
  lookup_path (section ++ [f]) (VDict (to_dict c)) = Some x.
Proof.
  intros HD Hsec. rewrite !lookup_path_app, HD.
  destruct (lookup_path section (VDict d)) as [y|]; [|discriminate].
  destruct (Hsec y eq_refl) as (kw & -> & Hsub).
  simpl. destruct (kw !! f) as [z|] eqn:Hz; [|discriminate].
  rewrite (map_subseteq_spec kw D) in Hsub. rewrite (Hsub _ _ Hz).
  intros H. exact H.
Qed.

(** Reads the section named by the hypothesis [Hy] off the input, and
    hands it to the constructor equation [Hc]. *)
Local Ltac top_section Hy Hc :=
  apply lookup_path_cons in Hy as (? & ? & [= <-] & Hy & [= ->]);
  rewrite (dict_get_Some _ _ _ _ Hy) in Hc.

Local Ltac sub_section Hy Hc :=
  apply lookup_path_cons in Hy as (? & ? & [= <-] & Hy & Hy');
  rewrite (dict_get_Some _ _ _ _ Hy) in Hc;
  apply lookup_path_cons in Hy' as (? & ? & -> & Hy' & [= ->]);
  simpl in Hc; rewrite (dict_get_Some _ _ _ _ Hy') in Hc.

(** A field that the input mapping gives inside a keyword section is the
    field of the configuration built from it. *)
Lemma from_dict_keeps (d : gmap string value) (c : Config)
    (section : list string) (f : string) (x : value) :
  from_dict d = Ok c ->
  In section keyword_sections ->
  lookup_path (section ++ [f]) (VDict d) = Some x ->
  lookup_path (section ++ [f]) (VDict (to_dict c)) = Some x.
Proof.
  intros Hc Hin.
  apply from_dict_Ok in Hc
    as (Hs & Hca & Ha1 & Ha2 & Ha3 & Ha4 & _ & _ & _ & Hcf & Hl & Hm).
  destruct (to_dict_sections c)
    as (Ts & Tc & Ta1 & Ta2 & Ta3 & Ta4 & Tcf & Tl & Tm).
  in_fields Hin.
  - apply (keeps_section _ _ _ _ _ _ Ts). intros y Hy.
    top_section Hy Hs. apply (new_ServerConfig_keeps _ _ Hs).
  - apply (keeps_section _ _ _ _ _ _ Tc). intros y Hy.
    top_section Hy Hca. apply (new_CacheConfig_keeps _ _ Hca).
  - apply (keeps_section _ _ _ _ _ _ Ta1). intros y Hy.
    sub_section Hy Ha1. apply (new_APIConfig_keeps _ _ Ha1).
  - apply (keeps_section _ _ _ _ _ _ Ta2). intros y Hy.
    sub_section Hy Ha2. apply (new_APIConfig_keeps _ _ Ha2).
  - apply (keeps_section _ _ _ _ _ _ Ta3). intros y Hy.
    sub_section Hy Ha3. apply (new_APIConfig_keeps _ _ Ha3).
  - apply (keeps_section _ _ _ _ _ _ Ta4). intros y Hy.
    sub_section Hy Ha4. apply (new_APIConfig_keeps _ _ Ha4).
  - apply (keeps_section _ _ _ _ _ _ Tcf). intros y Hy.
    sub_section Hy Hcf. apply (new_ContentFilters_keeps _ _ Hcf).
  - apply (keeps_section _ _ _ _ _ _ Tl). intros y Hy.
    top_section Hy Hl. apply (new_LoggingConfig_keeps _ _ Hl).
  - apply (keeps_section _ _ _ _ _ _ Tm). intros y Hy.
    top_section Hy Hm. apply (new_MonitoringConfig_keeps _ _ Hm).
Qed.

(** ** [_get_env_overrides], entry by entry *)

Lemma get_env_overrides_table (environ : gmap string string) :
  _get_env_overrides environ = apply_overrides environ override_table ∅.
Proof. reflexivity. Qed.

Lemma truthy_str (s : string) : truthy (VStr s) = true <-> s <> "".
Proof.
  simpl. rewrite negb_true_iff. apply String.eqb_neq.
Qed.

Lemma override_from_cases (environ : gmap string string) (var : string)
    (sections : list string) (key : string) (coerce : string -> result value)
    (ov : gmap string value) :
  (override_from environ var sections key coerce ov = Ok ov
   /\ (environ !! var = None \/ environ !! var = Some ""))
  \/ (exists s, environ !! var = Some s /\ s <> ""
        /\ override_from environ var sections key coerce ov
           = (v ← coerce s; mret (assign sections key v ov))).
Proof.
  unfold override_from. destruct (environ !! var) as [s|]; [|left; auto].
  destruct (truthy (VStr s)) eqn:Ht.
  - right. exists s. apply truthy_str in Ht. auto.
  - left. split; [reflexivity|]. right. f_equal.
    destruct (decide (s = "")) as [->|Hne]; [reflexivity|].
    apply truthy_str in Hne. congruence.
Qed.

(** An assignment leaves alone what sits on a path that parts ways with
    the path of every entry. *)
Lemma apply_overrides_other (environ : gmap string string) (p : list string)
    (x : value) (tbl : list override_entry) :
  forall ov ov' : gmap string value,
    apply_overrides environ tbl ov = Ok ov' ->
    forallb (fun e => diverge p (entry_path e)) tbl = true ->
    lookup_path p (VDict ov) = Some x ->
    lookup_path p (VDict ov') = Some x.
Proof.
  induction tbl as [|[[[var sections] key] coerce] rest IH];
    intros ov ov' Hrun Hdiv Hp; simpl in *.
  - injection Hrun as <-. exact Hp.
  - apply andb_true_iff in Hdiv as [Hd Hrest].
    apply bind_Ok in Hrun as (ov1 & H1 & Hrun).
    apply (IH ov1 ov' Hrun Hrest).
    destruct (override_from_cases environ var sections key coerce ov)
      as [[Hskip _]|(s & _ & _ & Hset)].
    + rewrite Hskip in H1. injection H1 as <-. exact Hp.
    + rewrite Hset in H1. apply bind_Ok in H1 as (v & _ & [= <-]).
      apply assign_other; assumption.
Qed.

(** A variable that is set and not empty puts its coerced value at the
    path of its entry. *)
Lemma apply_overrides_set (environ : gmap string string) (e : override_entry)
    (s : string) (tbl : list override_entry) :
  forall ov ov' : gmap string value,
    separated tbl = true ->
    In e tbl ->
    apply_overrides environ tbl ov = Ok ov' ->
    environ !! entry_var e = Some s -> s <> "" ->
    exists v, entry_coerce e s = Ok v
              /\ lookup_path (entry_path e) (VDict ov') = Some v.
Proof.
  induction tbl as [|[[[var sections] key] coerce] rest IH];
    intros ov ov' Hsep Hin Hrun Hs Hne; [destruct Hin|].
  simpl in Hsep, Hrun. apply andb_true_iff in Hsep as [Hhead Hsep].
  apply bind_Ok in Hrun as (ov1 & H1 & Hrun).
  destruct Hin as [<-|Hin]; [|exact (IH ov1 ov' Hsep Hin Hrun Hs Hne)].
  unfold entry_var, entry_coerce, entry_path in *. simpl in *.
  destruct (override_from_cases environ var sections key coerce ov)
    as [[_ [Hnone|Hempty]]|(s' & Hs' & _ & Hset)]; [congruence..|].
  assert (s' = s) as -> by congruence.
  rewrite Hset in H1. apply bind_Ok in H1 as (v & Hv & [= <-]).
  exists v. split; [exact Hv|].
  apply (apply_overrides_other environ _ _ rest _ ov' Hrun Hhead).
  apply assign_lookup.
Qed.

(** A coercion that raises stops the run. *)
Lemma apply_overrides_raises (environ : gmap string string) (e : override_entry)
    (s : string) (x : exn) (tbl : list override_entry) :
  forall ov : gmap string value,
    In e tbl ->
    environ !! entry_var e = Some s -> s <> "" ->
    entry_coerce e s = Raise x ->
    raises (apply_overrides environ tbl ov).
Proof.
  induction tbl as [|[[[var sections] key] coerce] rest IH];
    intros ov Hin Hs Hne Hx; [destruct Hin|].
  simpl. destruct Hin as [<-|Hin].
  - unfold entry_var, entry_coerce in *. simpl in *.
    destruct (override_from_cases environ var sections key coerce ov)
      as [[_ [Hnone|Hempty]]|(s' & Hs' & _ & Hset)]; [congruence..|].
    assert (s' = s) as -> by congruence.
    rewrite Hset, Hx. exists x. reflexivity.
  - destruct (override_from environ var sections key coerce ov) as [ov1|x'].
    + simpl. exact (IH ov1 Hin Hs Hne Hx).
    + exists x'. reflexivity.
Qed.

Lemma apply_overrides_exn (environ : gmap string string) (x : exn)
    (tbl : list override_entry) :
  forall ov : gmap string value,
    Forall (fun e => forall s x, entry_coerce e s = Raise x -> x = ValueError) tbl ->
    apply_overrides environ tbl ov = Raise x ->
    x = ValueError.
Proof.
  induction tbl as [|[[[var sections] key] coerce] rest IH];
    intros ov Hall Hrun; [discriminate|].
  apply Forall_cons in Hall as [Hhead Hall]. simpl in Hrun.
  destruct (override_from environ var sections key coerce ov) as [ov1|x'] eqn:H1.
  - simpl in Hrun. exact (IH ov1 Hall Hrun).
  - simpl in Hrun. injection Hrun as <-.
    destruct (override_from_cases environ var sections key coerce ov)
      as [[Hskip _]|(s & _ & _ & Hset)]; [congruence|].
    rewrite Hset in H1. unfold entry_coerce in Hhead. simpl in Hhead.
    destruct (coerce s) as [v|x''] eqn:Hc; [discriminate|].
    injection H1 as <-. exact (Hhead s x'' Hc).
Qed.

Lemma coerce_table_exn :
  Forall (fun e => forall s x, entry_coerce e s = Raise x -> x = ValueError)
         override_table.
Proof.
  repeat constructor; intros s x; unfold entry_coerce; simpl;
    unfold coerce_str, coerce_int, coerce_bool;
    try discriminate; destruct (py_int s); congruence.
Qed.

Lemma coerce_table_scalar :
  Forall (fun e => forall s v, entry_coerce e s = Ok v -> is_dict v = false)
         override_table.
Proof.
  repeat constructor; intros s x; unfold entry_coerce; simpl;
    unfold coerce_str, coerce_int, coerce_bool;
    try (intros [= <-]; reflexivity);
    destruct (py_int s); try discriminate; intros [= <-]; reflexivity.
Qed.

(** An empty value and no value at all are the same to the guard. *)
Lemma apply_overrides_empty_unset (environ : gmap string string) (var : string)
    (tbl : list override_entry) :
  forall ov : gmap string value,
    apply_overrides (<[var := ""]> environ) tbl ov
    = apply_overrides (delete var environ) tbl ov.
Proof.
  induction tbl as [|[[[var' sections] key] coerce] rest IH]; intros ov;
    [reflexivity|].
  simpl.
  assert (override_from (<[var := ""]> environ) var' sections key coerce ov
          = override_from (delete var environ) var' sections key coerce ov) as ->.
  { unfold override_from. destruct (decide (var = var')) as [->|Hne].
    - rewrite lookup_insert_eq, lookup_delete_eq. reflexivity.
    - rewrite lookup_insert_ne, lookup_delete_ne by assumption. reflexivity. }
  destruct (override_from (delete var environ) var' sections key coerce ov);
    simpl; [apply IH | reflexivity].
Qed.

Lemma apply_overrides_unset (environ : gmap string string)
    (tbl : list override_entry) :
  forall ov : gmap string value,
    Forall (fun e => environ !! entry_var e = None) tbl ->
    apply_overrides environ tbl ov = Ok ov.
Proof.
  induction tbl as [|[[[var sections] key] coerce] rest IH]; intros ov Hall;
    [reflexivity|].
  apply Forall_cons in Hall as [Hhead Hall]. simpl.
  unfold override_from. unfold entry_var in Hhead. simpl in Hhead.
  rewrite Hhead. simpl. apply IH. exact Hall.
Qed.

(** ** [load_config] *)

Lemma load_config_Ok (w : World) (config_path : option string) (c : Config) :
  load_config w config_path = Ok c ->
  exists base ov,
    read_config_data w (resolve_config_file w config_path) = Ok (VDict base)
    /\ _get_env_overrides (environ w) = Ok ov
    /\ from_dict (_merge_configs base ov) = Ok c.
Proof.
  unfold load_config. intros H.
  apply bind_Ok in H as (data & Hread & H).
  apply bind_Ok in H as (ov & Henv & H).
  apply bind_Ok in H as (merged & Hmerge & H).
  destruct data as [| | | | |l|base]; try discriminate.
  - simpl in Hmerge. destruct (decide (ov = ∅)); [|discriminate].
    injection Hmerge as <-. discriminate.
  - injection Hmerge as <-. simpl in H. eauto.
Qed.

(** The file is read before the environment: an exception there is the
    exception of [load_config]. *)
Lemma load_config_file_raises (w : World) (config_path : option string) (x : exn) :
  read_config_data w (resolve_config_file w config_path) = Raise x ->
  load_config w config_path = Raise x.
Proof. unfold load_config. intros ->. reflexivity. Qed.

Lemma load_config_env_raises (w : World) (config_path : option string)
    (data : value) (x : exn) :
  read_config_data w (resolve_config_file w config_path) = Ok data ->
  _get_env_overrides (environ w) = Raise x ->
  load_config w config_path = Raise x.
Proof. unfold load_config. intros -> ->. reflexivity. Qed.

(** With no file anywhere and none of the nine variables set, the loader
    hands the empty mapping to [from_dict], which raises. *)
Lemma load_config_bare (w : World) (config_path : option string) :
  files w = ∅ ->
  Forall (fun var => environ w !! var = None) override_vars ->
  load_config w config_path = Raise TypeError.
Proof.
  intros Hfiles Henv. unfold load_config.
  assert (read_config_data w (resolve_config_file w config_path) = Ok (VDict ∅)) as ->.
  { unfold read_config_data. destruct (resolve_config_file w config_path); [|reflexivity].
    rewrite Hfiles, lookup_empty. reflexivity. }
  simpl. rewrite get_env_overrides_table, apply_overrides_unset.
  - simpl. rewrite merge_configs_empty_r. exact from_dict_empty.
  - unfold override_table, entry_var. simpl.
    repeat (apply Forall_cons in Henv as [? Henv]).
    repeat constructor; assumption.
Qed.

(** ** The loader without a file and without overrides *)

(** C1. [load_config] called with no configuration file present and none
    of the override variables set does not return the default
    configuration: [from_dict] receives the empty mapping and
    [APIConfig], whose [base_url], [rate_limit] and [timeout] have no
    default, raises [TypeError]. *)
Theorem load_config_defaults_raise :
  load_config bare_world None = Raise TypeError.
Proof. apply load_config_bare; [reflexivity | repeat constructor]. Qed.

(** What the dataclasses declare is what [from_dict] would have to
    return: it does so when the mapping spells every section out. *)
Example from_dict_full_mapping : from_dict full_mapping = Ok default_Config.
Proof. apply from_dict_to_dict. Qed.

(** ** The lists of [education] *)

Lemma from_dict_education_absent (d : gmap string value) (c : Config) :
  d !! "education" = None ->
  from_dict d = Ok c ->
  grade_levels (education c) = VList []
  /\ curriculum_standards (education c) = VList []
  /\ subjects (education c) = VList [].
Proof.
  intros Hd Hc. apply from_dict_Ok in Hc as (_ & _ & _ & _ & _ & _ & Hg & Hcs & Hs & _).
  unfold dict_get in *. rewrite Hd in *. simpl in *.
  unfold dict_get in *. rewrite lookup_empty in *. simpl in *.
  repeat split; congruence.
Qed.

Lemma from_dict_education_missing (d e : gmap string value) (c : Config) :
  d !! "education" = Some (VDict e) ->
  from_dict d = Ok c ->
  (e !! "grade_levels" = None -> grade_levels (education c) = VList [])
  /\ (e !! "curriculum_standards" = None -> curriculum_standards (education c) = VList [])
  /\ (e !! "subjects" = None -> subjects (education c) = VList []).
Proof.
  intros Hd Hc. apply from_dict_Ok in Hc as (_ & _ & _ & _ & _ & _ & Hg & Hcs & Hs & _).
  unfold dict_get in *. rewrite Hd in *. simpl in *. unfold dict_get in *.
  repeat split; intros He; rewrite He in *; simpl in *; congruence.
Qed.

(** C2. For a mapping without an [education] section, [from_dict] does
    not fill the three lists with the seed values that [EducationConfig]
    declares: it passes [[]] for each of them. *)
Theorem from_dict_education_lists_empty :
  apis_only !! "education" = None
  /\ from_dict apis_only = Ok (apis_only_Config default_ServerConfig)
  /\ subjects (education (apis_only_Config default_ServerConfig)) = VList []
  /\ subjects (education (apis_only_Config default_ServerConfig))
     <> subjects default_EducationConfig.
Proof.
  split; [|split; [|split]].
  - vm_compute. reflexivity.
  - vm_compute. reflexivity.
  - reflexivity.
  - discriminate.
Qed.

(** ** Keys outside the schema *)

Lemma from_dict_raises_kinds (d : gmap string value) (x : exn) :
  from_dict d = Raise x -> x = TypeError \/ x = AttributeError.
Proof.
  assert (Hspread : forall fs v y, spread fs v = Raise y -> y = TypeError).
  { intros fs v y. unfold spread. destruct v; try (intros [= <-]; reflexivity).
    case_bool_decide; [discriminate | intros [= <-]; reflexivity]. }
  assert (Hget : forall v k dflt y, value_get v k dflt = Raise y -> y = AttributeError).
  { intros v k dflt y. destruct v; simpl; try discriminate; intros [= <-]; reflexivity. }
  assert (Hreq : forall kw k y, required kw k = Raise y -> y = TypeError).
  { intros kw k y. unfold required. destruct (kw !! k); [discriminate|].
    intros [= <-]; reflexivity. }
  assert (Hapi : forall v y, new_APIConfig v = Raise y -> y = TypeError).
  { intros v y. unfold new_APIConfig.
    destruct (spread APIConfig_fields v) as [kw|] eqn:Hs; simpl;
      [|intros [= <-]; eauto].
    destruct (required kw "base_url") eqn:H1; simpl; [|intros [= <-]; eauto].
    destruct (required kw "rate_limit") eqn:H2; simpl; [|intros [= <-]; eauto].
    destruct (required kw "timeout") eqn:H3; simpl; [|intros [= <-]; eauto].
    discriminate. }
  unfold from_dict, new_ServerConfig, new_CacheConfig, new_ContentFilters,
    new_LoggingConfig, new_MonitoringConfig.
  repeat match goal with
  | |- context [spread ?fs ?v] =>
      let E := fresh "E" in
      destruct (spread fs v) eqn:E; simpl;
      [|intros [= <-]; left; eauto]
  | |- context [value_get ?v ?k ?dflt] =>
      let E := fresh "E" in
      destruct (value_get v k dflt) eqn:E; simpl;
      [|intros [= <-]; right; eauto]
  | |- context [new_APIConfig ?v] =>
      let E := fresh "E" in
      destruct (new_APIConfig v) eqn:E; simpl;
      [|intros [= <-]; left; eauto]
  end.
  discriminate.
Qed.

(** The constructor of a keyword section, as [from_dict] calls it on the
    section found in the input. *)
Lemma from_dict_section_unknown (d kw : gmap string value) (section : list string)
    (f : string) :
  In section keyword_sections ->
  lookup_path section (VDict d) = Some (VDict kw) ->
  is_Some (kw !! f) ->
  ~ In f (section_fields section) ->
  raises (from_dict d).
Proof.
  intros Hin Hsec Hf Hnot.
  destruct (from_dict d) as [c|x] eqn:Hc; [exfalso|exists x; reflexivity].
  apply from_dict_Ok in Hc
    as (Hs & Hca & Ha1 & Ha2 & Ha3 & Ha4 & _ & _ & _ & Hcf & Hl & Hm).
  in_fields Hin.
  - top_section Hsec Hs. unfold new_ServerConfig in Hs.
    rewrite (spread_unknown ServerConfig_fields _ _ Hf Hnot) in Hs. discriminate.
  - top_section Hsec Hca. unfold new_CacheConfig in Hca.
    rewrite (spread_unknown CacheConfig_fields _ _ Hf Hnot) in Hca. discriminate.
  - sub_section Hsec Ha1. unfold new_APIConfig in Ha1.
    rewrite (spread_unknown APIConfig_fields _ _ Hf Hnot) in Ha1. discriminate.
  - sub_section Hsec Ha2. unfold new_APIConfig in Ha2.
    rewrite (spread_unknown APIConfig_fields _ _ Hf Hnot) in Ha2. discriminate.
  - sub_section Hsec Ha3. unfold new_APIConfig in Ha3.
    rewrite (spread_unknown APIConfig_fields _ _ Hf Hnot) in Ha3. discriminate.
  - sub_section Hsec Ha4. unfold new_APIConfig in Ha4.
    rewrite (spread_unknown APIConfig_fields _ _ Hf Hnot) in Ha4. discriminate.
  - sub_section Hsec Hcf. unfold new_ContentFilters in Hcf.
    rewrite (spread_unknown ContentFilters_fields _ _ Hf Hnot) in Hcf. discriminate.
  - top_section Hsec Hl. unfold new_LoggingConfig in Hl.
    rewrite (spread_unknown LoggingConfig_fields _ _ Hf Hnot) in Hl. discriminate.
  - top_section Hsec Hm. unfold new_MonitoringConfig in Hm.
    rewrite (spread_unknown MonitoringConfig_fields _ _ Hf Hnot) in Hm. discriminate.
Qed.

Lemma from_dict_server_unknown (d kw : gmap string value) (f : string) :
  d !! "server" = Some (VDict kw) ->
  is_Some (kw !! f) ->
  ~ In f ServerConfig_fields ->
  from_dict d = Raise TypeError.
Proof.
  intros Hd Hf Hnot. unfold from_dict, new_ServerConfig.
  rewrite (dict_get_Some _ _ _ _ Hd), (spread_unknown _ _ _ Hf Hnot).
  reflexivity.
Qed.

(** A key that [from_dict] never asks for does not show in its result. *)
Lemma from_dict_delete_top (d : gmap string value) (k : string) :
  ~ In k ["server"; "cache"; "apis"; "education"; "logging"; "monitoring"] ->
  from_dict (delete k d) = from_dict d.
Proof.
  intros Hk. unfold from_dict, dict_get.
  rewrite !lookup_delete_ne by (intros ->; apply Hk; simpl; tauto).
  reflexivity.
Qed.

Lemma from_dict_delete_apis (d a : gmap string value) (k : string) :
  d !! "apis" = Some (VDict a) ->
  ~ In k ["open_library"; "wikipedia"; "dictionary"; "arxiv"] ->
  from_dict (<["apis" := VDict (delete k a)]> d) = from_dict d.
Proof.
  intros Hd Hk. unfold from_dict, dict_get.
  rewrite lookup_insert_eq, !lookup_insert_ne by discriminate.
  rewrite Hd. simpl. unfold dict_get.
  rewrite !lookup_delete_ne by (intros ->; apply Hk; simpl; tauto).
  reflexivity.
Qed.

Lemma from_dict_delete_education (d e : gmap string value) (k : string) :
  d !! "education" = Some (VDict e) ->
  ~ In k ["grade_levels"; "curriculum_standards"; "subjects"; "content_filters"] ->
  from_dict (<["education" := VDict (delete k e)]> d) = from_dict d.
Proof.
  intros Hd Hk. unfold from_dict, dict_get.
  rewrite lookup_insert_eq, !lookup_insert_ne by discriminate.
  rewrite Hd. simpl. unfold dict_get.
  rewrite !lookup_delete_ne by (intros ->; apply Hk; simpl; tauto).
  reflexivity.
Qed.

(** C3, as the code has it.  A key that is not a field, inside a section
    that [from_dict] hands to a dataclass constructor as keyword arguments
    ([server], [cache], a service of [apis], [education.content_filters],
    [logging], [monitoring]), makes [from_dict] raise; inside [server] the
    exception is the [TypeError] of the constructor.  Only the keys that
    [from_dict] never reads are ignored: a key of the mapping that is not
    a section, and a key of [apis] or of [education] that it does not ask
    for; there [from_dict] returns what it returns for the mapping with
    that key removed. *)
Theorem from_dict_unknown_keys (d : gmap string value) :
  (forall section kw f,
     In section keyword_sections ->
     lookup_path section (VDict d) = Some (VDict kw) ->
     is_Some (kw !! f) -> ~ In f (section_fields section) ->
     raises (from_dict d))
  /\ (forall kw f,
        d !! "server" = Some (VDict kw) ->
        is_Some (kw !! f) -> ~ In f ServerConfig_fields ->
        from_dict d = Raise TypeError)
  /\ (forall k,
        ~ In k ["server"; "cache"; "apis"; "education"; "logging"; "monitoring"] ->
        from_dict (delete k d) = from_dict d)
  /\ (forall a k,
        d !! "apis" = Some (VDict a) ->
        ~ In k ["open_library"; "wikipedia"; "dictionary"; "arxiv"] ->
        from_dict (<["apis" := VDict (delete k a)]> d) = from_dict d)
  /\ (forall e k,
        d !! "education" = Some (VDict e) ->
        ~ In k ["grade_levels"; "curriculum_standards"; "subjects"; "content_filters"] ->
        from_dict (<["education" := VDict (delete k e)]> d) = from_dict d).
Proof.
  split; [|split; [|split; [|split]]].
  - intros section kw f. apply from_dict_section_unknown.
  - intros kw f. apply from_dict_server_unknown.
  - apply from_dict_delete_top.
  - intros a k. apply from_dict_delete_apis.
  - intros e k. apply from_dict_delete_education.
Qed.

Lemma from_dict_unknown_keys_witness :
  from_dict bogus_server = Raise TypeError
  /\ from_dict (delete "plugins" (<["plugins" := VInt 1]> full_mapping))
     = from_dict (<["plugins" := VInt 1]> full_mapping).
Proof.
  split.
  - apply (proj1 (proj2 (from_dict_unknown_keys bogus_server)) bogus_section "bogus").
    + vm_compute. reflexivity.
    + vm_compute. eexists. reflexivity.
    + simpl. intuition discriminate.
  - apply (proj1 (proj2 (proj2 (from_dict_unknown_keys
                                  (<["plugins" := VInt 1]> full_mapping))))).
    simpl. intuition discriminate.
Defined.

(** The mapping with an unknown key in [server] is rejected, the mapping
    without it is accepted. *)
Lemma unknown_server_key_rejected :
  bogus_server !! "server" = Some (VDict bogus_section)
  /\ bogus_section !! "bogus" = Some (VInt 1)
  /\ from_dict bogus_server = Raise TypeError
  /\ from_dict no_bogus_server = Ok (apis_only_Config (server_with 9000 false))
  /\ from_dict bogus_server <> from_dict no_bogus_server.
Proof.
  assert (H1 : from_dict bogus_server = Raise TypeError) by (vm_compute; reflexivity).
  assert (H2 : from_dict no_bogus_server = Ok (apis_only_Config (server_with 9000 false)))
    by (vm_compute; reflexivity).
  repeat split; try assumption; try (vm_compute; reflexivity).
  rewrite H1, H2. discriminate.
Qed.

(** ** Environment overrides against the file *)

Lemma to_dict_server_fields (c : Config) :
  lookup_path ["server"; "port"] (VDict (to_dict c)) = Some (port (server c))
  /\ lookup_path ["server"; "debug"] (VDict (to_dict c)) = Some (debug (server c)).
Proof.
  unfold to_dict, ServerConfig_dict. simpl.
  split; simplify_map_eq; reflexivity.
Qed.

Lemma override_table_sections (e : override_entry) :
  In e override_table -> In e.1.1.2 keyword_sections.
Proof. intros Hin. in_fields Hin; simpl; tauto. Qed.

(** Each variable that is set and not empty decides its field of the
    configuration, whatever the file says. *)
Lemma load_config_override (w : World) (config_path : option string) (c : Config)
    (e : override_entry) (s : string) :
  load_config w config_path = Ok c ->
  In e override_table ->
  environ w !! entry_var e = Some s -> s <> "" ->
  exists v, entry_coerce e s = Ok v
            /\ lookup_path (entry_path e) (VDict (to_dict c)) = Some v.
Proof.
  intros Hload Hin Hs Hne.
  apply load_config_Ok in Hload as (base & ov & _ & Henv & Hc).
  rewrite get_env_overrides_table in Henv.
  destruct (apply_overrides_set (environ w) e s override_table ∅ ov
              eq_refl Hin Henv Hs Hne) as (v & Hv & Hov).
  exists v. split; [exact Hv|].
  assert (Hscalar : is_dict v = false).
  { pose proof coerce_table_scalar as Hall.
    rewrite Forall_forall in Hall.
    apply (Hall e (proj2 (list_elem_of_In _ _) Hin) s v Hv). }
  unfold entry_path in *.
  apply (from_dict_keeps _ _ _ _ _ Hc (override_table_sections e Hin)).
  apply merge_configs_override_wins; [|exact Hov|exact Hscalar].
  destruct (e.1.1.2); discriminate.
Qed.

(** C4. The example of the specification: the file sets [server.port] to
    9000 and gives nothing else, and the port variable is ["7000"].  The
    override is computed and the merge puts 7000 in place of 9000, but no
    configuration comes back: [from_dict] raises the [TypeError] of
    [APIConfig] called without its required arguments, since the file
    gives no [apis] and the defaults that [APIsConfig] declares are not
    used.  With the four services added to the same file the loader
    returns and the port is 7000. *)
Theorem load_config_port_only_raises :
  _get_env_overrides {[ "OPENEDU_MCP_PORT" := "7000" ]}
  = Ok {[ "server" := VDict {[ "port" := VInt 7000 ]} ]}
  /\ lookup_path ["server"; "port"]
       (VDict (_merge_configs port_only
                 {[ "server" := VDict {[ "port" := VInt 7000 ]} ]}))
     = Some (VInt 7000)
  /\ load_config (world_of {[ "OPENEDU_MCP_PORT" := "7000" ]}
                           (Document (VDict port_only))) None
     = Raise TypeError
  /\ (exists c,
        load_config (world_of {[ "OPENEDU_MCP_PORT" := "7000" ]}
                              (Document (VDict (port_only ∪ apis_only)))) None
        = Ok c
        /\ port (server c) = VInt 7000
        /\ port (server default_Config) = VInt 8000).
Proof.
  split; [vm_compute; reflexivity|].
  split; [vm_compute; reflexivity|].
  split; [vm_compute; reflexivity|].
  eexists. split; [vm_compute; reflexivity|].
  split; reflexivity.
Qed.

(** ** Integer variables that do not hold an integer *)

Lemma int_vars_entries (var : string) :
  In var int_vars ->
  exists sections key, In (var, sections, key, coerce_int) override_table.
Proof.
  intros Hin. unfold override_table.
  in_fields Hin; do 2 eexists; simpl; eauto 12.
Qed.

Lemma get_env_overrides_bad_int (environ : gmap string string) (var s : string) :
  In var int_vars ->
  environ !! var = Some s -> s <> "" -> py_int s = None ->
  _get_env_overrides environ = Raise ValueError.
Proof.
  intros Hin Hs Hne Hint.
  destruct (int_vars_entries var Hin) as (sections & key & He).
  rewrite get_env_overrides_table.
  destruct (apply_overrides_raises environ (var, sections, key, coerce_int) s
              ValueError override_table ∅ He Hs Hne) as [x Hx].
  { unfold entry_coerce, coerce_int. simpl. rewrite Hint. reflexivity. }
  rewrite Hx. f_equal.
  exact (apply_overrides_exn environ x override_table ∅ coerce_table_exn Hx).
Qed.

(** C6, as the code has it.  When an integer variable is set to a string
    that is not empty and that [int] does not accept,
    [_get_env_overrides] raises [ValueError], and [load_config] returns
    no configuration: it raises that [ValueError], unless reading the
    file, which comes first, has already raised, and then it raises what
    the read raised, whatever that is. *)
Theorem load_config_bad_int (w : World) (config_path : option string)
    (var s : string) :
  In var int_vars ->
  environ w !! var = Some s -> s <> "" -> py_int s = None ->
  _get_env_overrides (environ w) = Raise ValueError
  /\ raises (load_config w config_path)
  /\ (forall data,
        read_config_data w (resolve_config_file w config_path) = Ok data ->
        load_config w config_path = Raise ValueError)
  /\ (forall x,
        read_config_data w (resolve_config_file w config_path) = Raise x ->
        load_config w config_path = Raise x).
Proof.
  intros Hin Hs Hne Hint.
  pose proof (get_env_overrides_bad_int (environ w) var s Hin Hs Hne Hint) as Henv.
  split; [exact Henv|]. split; [|split].
  - destruct (read_config_data w (resolve_config_file w config_path)) as [data|x] eqn:Hr.
    + exists ValueError. exact (load_config_env_raises w config_path data _ Hr Henv).
    + exists x. exact (load_config_file_raises w config_path x Hr).
  - intros data Hr. exact (load_config_env_raises w config_path data _ Hr Henv).
  - intros x Hr. exact (load_config_file_raises w config_path x Hr).
Qed.

Lemma load_config_bad_int_witness :
  _get_env_overrides {[ "OPENEDU_MCP_PORT" := "abc" ]} = Raise ValueError
  /\ load_config (world_of {[ "OPENEDU_MCP_PORT" := "abc" ]}
                           (Document (VDict full_mapping))) None
     = Raise ValueError.
Proof.
  pose proof (load_config_bad_int
                (world_of {[ "OPENEDU_MCP_PORT" := "abc" ]}
                          (Document (VDict full_mapping)))
                None "OPENEDU_MCP_PORT" "abc") as H.
  destruct H as (Henv & _ & Hload & _).
  - simpl. tauto.
  - vm_compute. reflexivity.
  - discriminate.
  - vm_compute. reflexivity.
  - split; [exact Henv|].
    apply (Hload (VDict full_mapping)). vm_compute. reflexivity.
Defined.

(** The port variable does not hold an integer and the file that is found
    is malformed: what [load_config] raises is the [YAMLError] of the
    file, not the [ValueError] of the variable. *)
Lemma bad_int_after_malformed_file :
  environ (world_of {[ "OPENEDU_MCP_PORT" := "abc" ]} (Malformed YAMLError)) !! "OPENEDU_MCP_PORT"
  = Some "abc"
  /\ py_int "abc" = None
  /\ load_config (world_of {[ "OPENEDU_MCP_PORT" := "abc" ]} (Malformed YAMLError)) None
     = Raise YAMLError
  /\ load_config (world_of {[ "OPENEDU_MCP_PORT" := "abc" ]} (Malformed YAMLError)) None
     <> Raise ValueError.
Proof.
  assert (H : load_config (world_of {[ "OPENEDU_MCP_PORT" := "abc" ]} (Malformed YAMLError)) None
              = Raise YAMLError) by (vm_compute; reflexivity).
  repeat split; try (vm_compute; reflexivity).
  rewrite H. discriminate.
Qed.

(** Whatever reading the file raises is what [load_config] raises,
    whatever the environment holds. *)
Lemma load_config_malformed (env : gmap string string) (x : exn) :
  load_config (world_of env (Malformed x)) None = Raise x.
Proof.
  apply load_config_file_raises. unfold resolve_config_file, world_of. simpl.
  unfold path_exists. simpl. rewrite lookup_singleton_eq.
  rewrite bool_decide_eq_true_2 by eauto. simpl.
  rewrite lookup_singleton_eq. reflexivity.
Qed.

(** ** The debug variable *)

Local Ltac lower_ascii_cases c :=
  destruct c as [[] [] [] [] [] [] [] []]; vm_compute; intros H;
  try discriminate H; auto.

Lemma lower_ascii_t (c : ascii) :
  lower_ascii c = "t"%char -> c = "t"%char \/ c = "T"%char.
Proof. lower_ascii_cases c. Qed.

Lemma lower_ascii_r (c : ascii) :
  lower_ascii c = "r"%char -> c = "r"%char \/ c = "R"%char.
Proof. lower_ascii_cases c. Qed.

Lemma lower_ascii_u (c : ascii) :
  lower_ascii c = "u"%char -> c = "u"%char \/ c = "U"%char.
Proof. lower_ascii_cases c. Qed.

Lemma lower_ascii_e (c : ascii) :
  lower_ascii c = "e"%char -> c = "e"%char \/ c = "E"%char.
Proof. lower_ascii_cases c. Qed.

(** [s.lower() == "true"] holds of the spellings of [true] in upper and
    lower case, and of nothing else. *)
Lemma lower_true_spellings (s : string) :
  String.eqb (lower s) "true" = true <-> In s true_spellings.
Proof.
  rewrite String.eqb_eq. split.
  - destruct s as [|c1 [|c2 [|c3 [|c4 [|c5 s]]]]]; simpl; try discriminate.
    intros [= H1 H2 H3 H4].
    apply lower_ascii_t in H1. apply lower_ascii_r in H2.
    apply lower_ascii_u in H3. apply lower_ascii_e in H4.
    destruct H1 as [-> | ->], H2 as [-> | ->], H3 as [-> | ->], H4 as [-> | ->];
      tauto.
  - intros Hin. unfold true_spellings in Hin.
    repeat (destruct Hin as [<-|Hin]; [reflexivity|]). destruct Hin.
Qed.

(** C7, as the code has it.  When the debug variable is set to a string
    that is not empty and [load_config] returns a configuration, its
    [server.debug] is the boolean [s.lower() == "true"], whatever the file
    gives: [True] for the spellings of [true] in upper and lower case and
    [False] for every other string that is not empty. *)
Theorem load_config_debug (w : World) (config_path : option string) (c : Config)
    (s : string) :
  load_config w config_path = Ok c ->
  environ w !! "OPENEDU_MCP_DEBUG" = Some s -> s <> "" ->
  debug (server c) = VBool (String.eqb (lower s) "true")
  /\ (debug (server c) = VBool true <-> In s true_spellings).
Proof.
  intros Hload Hs Hne.
  assert (Hd : debug (server c) = VBool (String.eqb (lower s) "true")).
  { destruct (load_config_override w config_path c
                ("OPENEDU_MCP_DEBUG", ["server"], "debug", coerce_bool) s Hload)
      as (v & Hv & Hc); [simpl; tauto | exact Hs | exact Hne |].
    injection Hv as <-.
    destruct (to_dict_server_fields c) as [_ Hp].
    change (entry_path _) with ["server"; "debug"] in Hc.
    rewrite Hp in Hc. injection Hc as ->. reflexivity. }
  split; [exact Hd|]. rewrite Hd, <- lower_true_spellings.
  split; [intros [= ->]; reflexivity | intros ->; reflexivity].
Qed.

Lemma load_config_debug_witness :
  load_config (world_of {[ "OPENEDU_MCP_DEBUG" := "no" ]}
                        (Document (VDict port_9000))) None
  = Ok (apis_only_Config (server_with 9000 false))
  /\ debug (server (apis_only_Config (server_with 9000 false)))
     = VBool (String.eqb (lower "no") "true").
Proof.
  assert (H : load_config (world_of {[ "OPENEDU_MCP_DEBUG" := "no" ]}
                                    (Document (VDict port_9000))) None
              = Ok (apis_only_Config (server_with 9000 false)))
    by (vm_compute; reflexivity).
  split; [exact H|].
  apply (proj1 (load_config_debug _ _ _ "no" H ltac:(vm_compute; reflexivity)
                  ltac:(discriminate))).
Defined.

(** The debug variable is set, to the empty string, and the file says
    [debug: true]: the configuration has [debug] true although the
    variable does not spell [true]. *)
Lemma empty_debug_keeps_file :
  environ (world_of {[ "OPENEDU_MCP_DEBUG" := "" ]} (Document (VDict port_9000)))
    !! "OPENEDU_MCP_DEBUG" = Some ""
  /\ String.eqb (lower "") "true" = false
  /\ lookup_path ["server"; "debug"] (VDict port_9000) = Some (VBool true)
  /\ load_config (world_of {[ "OPENEDU_MCP_DEBUG" := "" ]}
                           (Document (VDict port_9000))) None
     = Ok (apis_only_Config (server_with 9000 true))
  /\ debug (server (apis_only_Config (server_with 9000 true))) = VBool true.
Proof. repeat split; vm_compute; reflexivity. Qed.

(** ** Round trip *)

(** C8. A configuration that [load_config] returns is rebuilt by
    [from_dict] from its [to_dict]. *)
Theorem load_config_round_trip (w : World) (config_path : option string) (c : Config) :
  load_config w config_path = Ok c ->
  from_dict (to_dict c) = Ok c.
Proof. intros _. apply from_dict_to_dict. Qed.

Lemma load_config_round_trip_witness :
  from_dict (to_dict (apis_only_Config (server_with 7000 true)))
  = Ok (apis_only_Config (server_with 7000 true)).
Proof.
  apply (load_config_round_trip
           (world_of {[ "OPENEDU_MCP_PORT" := "7000" ]} (Document (VDict port_9000)))
           None).
  vm_compute. reflexivity.
Defined.

(** ** Variables set to the empty string *)

Lemma override_vars_not_config_path (var : string) :
  In var override_vars -> var <> "OPENEDU_MCP_CONFIG_PATH".
Proof. intros Hin. in_fields Hin; discriminate. Qed.

Lemma load_config_same_environ (w1 w2 : World) (config_path : option string) :
  files w1 = files w2 ->
  environ w1 !! "OPENEDU_MCP_CONFIG_PATH" = environ w2 !! "OPENEDU_MCP_CONFIG_PATH" ->
  _get_env_overrides (environ w1) = _get_env_overrides (environ w2) ->
  load_config w1 config_path = load_config w2 config_path.
Proof.
  intros Hf Hp Henv. unfold load_config.
  assert (resolve_config_file w1 config_path = resolve_config_file w2 config_path) as ->.
  { unfold resolve_config_file. rewrite Hp.
    assert (path_exists w1 = path_exists w2) as ->; [|reflexivity].
    unfold path_exists. rewrite Hf. reflexivity. }
  unfold read_config_data. rewrite Hf, Henv. reflexivity.
Qed.

(** C10. For each of the nine variables, an environment in which it is set
    to the empty string gives the same overrides, and the same outcome of
    [load_config], value or exception, as the environment in which it is
    not set. *)
Theorem empty_override_as_unset (w : World) (config_path : option string)
    (var : string) :
  In var override_vars ->
  _get_env_overrides (<[var := ""]> (environ w))
  = _get_env_overrides (delete var (environ w))
  /\ load_config {| environ := <[var := ""]> (environ w); files := files w |} config_path
     = load_config {| environ := delete var (environ w); files := files w |} config_path.
Proof.
  intros Hin.
  assert (Henv : _get_env_overrides (<[var := ""]> (environ w))
                 = _get_env_overrides (delete var (environ w))).
  { rewrite !get_env_overrides_table. apply apply_overrides_empty_unset. }
  split; [exact Henv|].
  apply load_config_same_environ; [reflexivity | | exact Henv].
  simpl. apply override_vars_not_config_path in Hin.
  rewrite lookup_insert_ne, lookup_delete_ne by assumption. reflexivity.
Qed.

Lemma empty_override_as_unset_witness :
  _get_env_overrides (<["OPENEDU_MCP_PORT" := ""]> {[ "OPENEDU_MCP_HOST" := "0.0.0.0" ]})
  = _get_env_overrides (delete "OPENEDU_MCP_PORT" {[ "OPENEDU_MCP_HOST" := "0.0.0.0" ]}).
Proof.
  apply (proj1 (empty_override_as_unset
                  (world_of {[ "OPENEDU_MCP_HOST" := "0.0.0.0" ]}
                            (Document (VDict full_mapping)))
                  None "OPENEDU_MCP_PORT" ltac:(simpl; tauto))).
Defined.

Example empty_port_sample :
  _get_env_overrides {[ "OPENEDU_MCP_HOST" := "0.0.0.0"; "OPENEDU_MCP_PORT" := "" ]}
  = Ok {[ "server" := VDict {[ "host" := VStr "0.0.0.0" ]} ]}.
Proof. vm_compute. reflexivity. Qed.

(** ** When [load_config] returns

    A file that [from_dict] accepts on its own is still accepted after the
    environment overrides have been merged in: each override sets a field
    of the schema, in a section that is absent or a mapping. *)

Lemma shaped_empty (sections : list string) : shaped sections ∅.
Proof. destruct sections; simpl; [exact I|]. rewrite lookup_empty. exact I. Qed.

Lemma shaped_assign (sections : list string) (key : string) (v : value) :
  forall (sections' : list string) (d : gmap string value),
    is_prefix (sections ++ [key]) sections' = false ->
    shaped sections' d ->
    shaped sections' (assign sections key v d).
Proof.
  induction sections as [|s rest IH]; intros sections' d Hpre Hsh;
    destruct sections' as [|s' rest']; simpl in *; try exact I.
  - destruct (decide (key = s')) as [->|Hne]; [destruct rest'; discriminate|].
    rewrite lookup_insert_ne by assumption. exact Hsh.
  - destruct (decide (s = s')) as [->|Hne].
    + rewrite lookup_insert_eq.
      destruct (d !! s') as [[| | | | | |sub]|]; try (exfalso; exact Hsh).
      * apply IH; assumption.
      * apply IH; [assumption | apply shaped_empty].
    + rewrite lookup_insert_ne by assumption. exact Hsh.
Qed.

(** Merging one more override into [base] is setting its field in the
    merge. *)
Lemma merge_configs_assign (sections : list string) (key : string) (v : value) :
  forall base ov : gmap string value,
    is_dict v = false ->
    shaped sections ov ->
    _merge_configs base (assign sections key v ov)
    = assign sections key v (_merge_configs base ov).
Proof.
  induction sections as [|s rest IH]; intros base ov Hv Hsh; simpl;
    apply map_eq; intros k; rewrite merge_configs_lookup.
  - destruct (decide (key = k)) as [->|Hne].
    + rewrite !lookup_insert_eq. destruct v; try reflexivity. discriminate.
    + rewrite !lookup_insert_ne by assumption.
      rewrite merge_configs_lookup. reflexivity.
  - destruct (decide (s = k)) as [->|Hne].
    + rewrite !lookup_insert_eq. rewrite merge_configs_lookup.
      simpl in Hsh.
      destruct (ov !! k) as [[| | | | | |sub]|] eqn:Hk; try (exfalso; exact Hsh).
      * destruct (base !! k) as [[| | | | | |b]|]; try reflexivity.
        rewrite !merge_item_dict. rewrite (IH b sub Hv Hsh). reflexivity.
      * destruct (base !! k) as [[| | | | | |b]|]; try reflexivity.
        rewrite merge_item_dict.
        rewrite (IH b ∅ Hv (shaped_empty rest)), merge_configs_empty_r.
        reflexivity.
    + rewrite !lookup_insert_ne by assumption.
      rewrite merge_configs_lookup. reflexivity.
Qed.

Lemma spread_Ok_iff (fields : list string) (v : value) (kw : gmap string value) :
  spread fields v = Ok kw
  <-> v = VDict kw /\ forall f, is_Some (kw !! f) -> In f fields.
Proof.
  split; [apply spread_Ok|]. intros [-> Hall]. unfold spread.
  case_bool_decide as Hdom; [reflexivity|]. exfalso. apply Hdom.
  intros f Hf. apply elem_of_list_to_set, list_elem_of_In, Hall.
  apply elem_of_dom. exact Hf.
Qed.

(** Setting a field in a keyword section that is accepted: the section is
    still accepted, and the keys it had are still there. *)
Lemma spread_assign (fields : list string) (d kw : gmap string value)
    (s key : string) (v : value) :
  In key fields ->
  spread fields (dict_get d s (VDict ∅)) = Ok kw ->
  spread fields (dict_get (assign [s] key v d) s (VDict ∅)) = Ok (<[key := v]> kw).
Proof.
  intros Hkey Hs. apply spread_Ok in Hs as [Hd Hfields].
  unfold dict_get. simpl. rewrite lookup_insert_eq. simpl.
  assert (match d !! s with Some (VDict sub) => sub | _ => ∅ end = kw) as ->.
  { unfold dict_get in Hd. destruct (d !! s) as [x|]; simpl in Hd.
    - subst x. reflexivity.
    - injection Hd as <-. reflexivity. }
  apply (proj2 (spread_Ok_iff fields (VDict (<[key := v]> kw)) (<[key := v]> kw))).
  split; [reflexivity|].
  intros f [x Hf]. destruct (decide (key = f)) as [<-|Hne]; [exact Hkey|].
  rewrite lookup_insert_ne in Hf by assumption. apply Hfields. eauto.
Qed.

Lemma dict_get_assign_ne (d : gmap string value) (sections : list string)
    (s s' key : string) (v dflt : value) :
  s <> s' ->
  dict_get (assign (s :: sections) key v d) s' dflt = dict_get d s' dflt.
Proof.
  intros Hne. unfold dict_get. simpl. rewrite lookup_insert_ne by assumption.
  reflexivity.
Qed.

Lemma new_APIConfig_insert (kw : gmap string value) (key : string) (v : value)
    (a : APIConfig) :
  In key APIConfig_fields ->
  new_APIConfig (VDict kw) = Ok a ->
  exists a', new_APIConfig (VDict (<[key := v]> kw)) = Ok a'.
Proof.
  intros Hkey Ha. unfold new_APIConfig in *.
  apply bind_Ok in Ha as (kw' & Hs & Ha).
  apply spread_Ok in Hs as [[= <-] Hfields].
  apply bind_Ok in Ha as (u & Hu & Ha).
  apply bind_Ok in Ha as (r & Hr & Ha).
  apply bind_Ok in Ha as (t & Ht & _).
  apply required_Ok in Hu, Hr, Ht.
  assert (Hs : spread APIConfig_fields (VDict (<[key := v]> kw))
               = Ok (<[key := v]> kw)).
  { apply spread_Ok_iff. split; [reflexivity|].
    intros f [x Hf]. destruct (decide (key = f)) as [<-|Hne]; [exact Hkey|].
    rewrite lookup_insert_ne in Hf by assumption. apply Hfields. eauto. }
  rewrite Hs. simpl.
  assert (Hreq : forall k x, kw !! k = Some x ->
                   exists y, required (<[key := v]> kw) k = Ok y).
  { intros k x Hk. unfold required. destruct (decide (key = k)) as [<-|Hne].
    - rewrite lookup_insert_eq. eauto.
    - rewrite lookup_insert_ne, Hk by assumption. eauto. }
  destruct (Hreq _ _ Hu) as [u' ->]. destruct (Hreq _ _ Hr) as [r' ->].
  destruct (Hreq _ _ Ht) as [t' ->]. simpl. eauto.
Qed.

Lemma from_dict_intro (d : gmap string value) (s : ServerConfig) (c : CacheConfig)
    (a1 a2 a3 a4 : APIConfig) (g cs sb : value) (cf : ContentFilters)
    (l : LoggingConfig) (m : MonitoringConfig) :
  new_ServerConfig (dict_get d "server" (VDict ∅)) = Ok s ->
  new_CacheConfig (dict_get d "cache" (VDict ∅)) = Ok c ->
  value_get (dict_get d "apis" (VDict ∅)) "open_library" (VDict ∅) ≫= new_APIConfig
  = Ok a1 ->
  value_get (dict_get d "apis" (VDict ∅)) "wikipedia" (VDict ∅) ≫= new_APIConfig
  = Ok a2 ->
  value_get (dict_get d "apis" (VDict ∅)) "dictionary" (VDict ∅) ≫= new_APIConfig
  = Ok a3 ->
  value_get (dict_get d "apis" (VDict ∅)) "arxiv" (VDict ∅) ≫= new_APIConfig
  = Ok a4 ->
  value_get (dict_get d "education" (VDict ∅)) "grade_levels" (VList []) = Ok g ->
  value_get (dict_get d "education" (VDict ∅)) "curriculum_standards" (VList [])
  = Ok cs ->
  value_get (dict_get d "education" (VDict ∅)) "subjects" (VList []) = Ok sb ->
  value_get (dict_get d "education" (VDict ∅)) "content_filters" (VDict ∅)
    ≫= new_ContentFilters = Ok cf ->
  new_LoggingConfig (dict_get d "logging" (VDict ∅)) = Ok l ->
  new_MonitoringConfig (dict_get d "monitoring" (VDict ∅)) = Ok m ->
  exists c', from_dict d = Ok c'.
Proof.
  intros H1 H2 H3 H4 H5 H6 H7 H8 H9 H10 H11 H12. unfold from_dict.
  rewrite H1, H2. simpl. rewrite H3. simpl. rewrite H4. simpl.
  rewrite H5. simpl. rewrite H6. simpl. rewrite H7. simpl. rewrite H8. simpl.
  rewrite H9. simpl. rewrite H10. simpl. rewrite H11, H12. simpl. eauto.
Qed.

Lemma new_ServerConfig_spread (v : value) :
  (exists s, new_ServerConfig v = Ok s)
  <-> exists kw, spread ServerConfig_fields v = Ok kw.
Proof.
  unfold new_ServerConfig.
  destruct (spread ServerConfig_fields v) as [kw|x]; simpl.
  - split; eauto.
  - split; intros [? H]; discriminate H.
Qed.

Lemma new_CacheConfig_spread (v : value) :
  (exists s, new_CacheConfig v = Ok s)
  <-> exists kw, spread CacheConfig_fields v = Ok kw.
Proof.
  unfold new_CacheConfig.
  destruct (spread CacheConfig_fields v) as [kw|x]; simpl.
  - split; eauto.
  - split; intros [? H]; discriminate H.
Qed.

Lemma from_dict_assign_server (d : gmap string value) (c : Config)
    (key : string) (v : value) :
  from_dict d = Ok c ->
  In key ServerConfig_fields ->
  exists c', from_dict (assign ["server"] key v d) = Ok c'.
Proof.
  intros Hc Hkey.
  apply from_dict_Ok in Hc
    as (Hs & Hca & Ha1 & Ha2 & Ha3 & Ha4 & Hg & Hcs & Hsb & Hcf & Hl & Hm).
  destruct (proj1 (new_ServerConfig_spread _) (ex_intro _ _ Hs)) as [kw Hkw].
  destruct (proj2 (new_ServerConfig_spread
                     (dict_get (assign ["server"] key v d) "server" (VDict ∅)))
              (ex_intro _ _ (spread_assign _ d kw "server" key v Hkey Hkw)))
    as [s' Hs'].
  eapply (from_dict_intro _ s');
    rewrite ?(dict_get_assign_ne d [] "server") by discriminate; eassumption.
Qed.

Lemma from_dict_assign_cache (d : gmap string value) (c : Config)
    (key : string) (v : value) :
  from_dict d = Ok c ->
  In key CacheConfig_fields ->
  exists c', from_dict (assign ["cache"] key v d) = Ok c'.
Proof.
  intros Hc Hkey.
  apply from_dict_Ok in Hc
    as (Hs & Hca & Ha1 & Ha2 & Ha3 & Ha4 & Hg & Hcs & Hsb & Hcf & Hl & Hm).
  destruct (proj1 (new_CacheConfig_spread _) (ex_intro _ _ Hca)) as [kw Hkw].
  destruct (proj2 (new_CacheConfig_spread
                     (dict_get (assign ["cache"] key v d) "cache" (VDict ∅)))
              (ex_intro _ _ (spread_assign _ d kw "cache" key v Hkey Hkw)))
    as [s' Hs'].
  eapply (from_dict_intro _ _ s');
    rewrite ?(dict_get_assign_ne d [] "cache") by discriminate; eassumption.
Qed.

Lemma dict_get_dict (d kw : gmap string value) (s : string) :
  dict_get d s (VDict ∅) = VDict kw ->
  match d !! s with Some (VDict sub) => sub | _ => ∅ end = kw.
Proof.
  unfold dict_get. destruct (d !! s) as [x|]; simpl.
  - intros ->. reflexivity.
  - intros [= <-]. reflexivity.
Qed.

(** Setting a field of the service [svc0] inside [apis]: every service is
    still accepted. *)
Lemma api_assign (A : gmap string value) (svc0 svc key : string) (v : value)
    (a0 a : APIConfig) :
  In key APIConfig_fields ->
  new_APIConfig (dict_get A svc0 (VDict ∅)) = Ok a0 ->
  new_APIConfig (dict_get A svc (VDict ∅)) = Ok a ->
  exists a', new_APIConfig (dict_get (assign [svc0] key v A) svc (VDict ∅)) = Ok a'.
Proof.
  intros Hkey H0 H. destruct (decide (svc0 = svc)) as [<-|Hne].
  - assert (exists kw, dict_get A svc0 (VDict ∅) = VDict kw) as [kw Hkw].
    { unfold new_APIConfig in H0. apply bind_Ok in H0 as (kw & Hs & _).
      apply spread_Ok in Hs as [Hs _]. eauto. }
    unfold dict_get at 1. simpl. rewrite lookup_insert_eq. simpl.
    rewrite (dict_get_dict A kw svc0 Hkw). rewrite Hkw in H0.
    exact (new_APIConfig_insert kw key v a0 Hkey H0).
  - rewrite (dict_get_assign_ne A [] svc0 svc) by assumption. eauto.
Qed.

Lemma from_dict_assign_api (d : gmap string value) (c : Config)
    (svc0 key : string) (v : value) :
  from_dict d = Ok c ->
  In svc0 ["open_library"; "wikipedia"; "dictionary"; "arxiv"] ->
  In key APIConfig_fields ->
  exists c', from_dict (assign ["apis"; svc0] key v d) = Ok c'.
Proof.
  intros Hc Hsvc Hkey.
  apply from_dict_Ok in Hc
    as (Hs & Hca & Ha1 & Ha2 & Ha3 & Ha4 & Hg & Hcs & Hsb & Hcf & Hl & Hm).
  destruct (dict_get d "apis" (VDict ∅)) as [| | | | | |A] eqn:HA;
    try discriminate.
  simpl in Ha1, Ha2, Ha3, Ha4.
  assert (HA' : dict_get (assign ["apis"; svc0] key v d) "apis" (VDict ∅)
                = VDict (assign [svc0] key v A)).
  { unfold dict_get at 1. simpl. rewrite lookup_insert_eq. simpl.
    rewrite (dict_get_dict d A "apis" HA). reflexivity. }
  assert (H0 : exists a0, new_APIConfig (dict_get A svc0 (VDict ∅)) = Ok a0).
  { in_fields Hsvc; eauto. }
  destruct H0 as [a0 H0].
  destruct (api_assign A svc0 "open_library" key v a0 _ Hkey H0 Ha1) as [b1 Hb1].
  destruct (api_assign A svc0 "wikipedia" key v a0 _ Hkey H0 Ha2) as [b2 Hb2].
  destruct (api_assign A svc0 "dictionary" key v a0 _ Hkey H0 Ha3) as [b3 Hb3].
  destruct (api_assign A svc0 "arxiv" key v a0 _ Hkey H0 Ha4) as [b4 Hb4].
  eapply (from_dict_intro _ _ _ b1 b2 b3 b4);
    rewrite ?HA';
    rewrite ?(dict_get_assign_ne d [svc0] "apis") by discriminate;
    first [eassumption | exact Hb1 | exact Hb2 | exact Hb3 | exact Hb4].
Qed.

Lemma from_dict_assign_entry (d : gmap string value) (c : Config)
    (e : override_entry) (v : value) :
  from_dict d = Ok c ->
  In e override_table ->
  exists c', from_dict (assign e.1.1.2 e.1.2 v d) = Ok c'.
Proof.
  intros Hc Hin. in_fields Hin; simpl.
  - apply (from_dict_assign_server d c); [exact Hc | simpl; tauto].
  - apply (from_dict_assign_server d c); [exact Hc | simpl; tauto].
  - apply (from_dict_assign_server d c); [exact Hc | simpl; tauto].
  - apply (from_dict_assign_server d c); [exact Hc | simpl; tauto].
  - apply (from_dict_assign_cache d c); [exact Hc | simpl; tauto].
  - apply (from_dict_assign_cache d c); [exact Hc | simpl; tauto].
  - apply (from_dict_assign_cache d c); [exact Hc | simpl; tauto].
  - apply (from_dict_assign_api d c); [exact Hc | simpl; tauto | simpl; tauto].
  - apply (from_dict_assign_api d c); [exact Hc | simpl; tauto | simpl; tauto].
Qed.

Lemma prefix_free_table (e e' : override_entry) :
  In e override_table -> In e' override_table ->
  is_prefix (entry_path e) e'.1.1.2 = false.
Proof.
  intros He He'.
  assert (H : prefix_free override_table = true) by reflexivity.
  unfold prefix_free in H. rewrite forallb_forall in H.
  specialize (H e He). rewrite forallb_forall in H.
  specialize (H e' He'). apply negb_true_iff in H. exact H.
Qed.

Lemma apply_overrides_accepted (environ : gmap string string)
    (base : gmap string value) (tbl : list override_entry) :
  forall ov ov' : gmap string value,
    (forall e, In e tbl -> In e override_table) ->
    (forall e, In e override_table -> shaped e.1.1.2 ov) ->
    (exists c, from_dict (_merge_configs base ov) = Ok c) ->
    apply_overrides environ tbl ov = Ok ov' ->
    exists c', from_dict (_merge_configs base ov') = Ok c'.
Proof.
  induction tbl as [|[[[var sections] key] coerce] rest IH];
    intros ov ov' Htbl Hsh Hacc Hrun; simpl in Hrun.
  - injection Hrun as <-. exact Hacc.
  - apply bind_Ok in Hrun as (ov1 & H1 & Hrun).
    assert (Hin : In (var, sections, key, coerce) override_table)
      by (apply Htbl; left; reflexivity).
    assert (Hrest : forall e, In e rest -> In e override_table)
      by (intros e He; apply Htbl; right; exact He).
    destruct (override_from_cases environ var sections key coerce ov)
      as [[Hskip _]|(s & _ & _ & Hset)].
    + rewrite Hskip in H1. injection H1 as <-.
      exact (IH ov ov' Hrest Hsh Hacc Hrun).
    + rewrite Hset in H1. apply bind_Ok in H1 as (v & Hv & [= <-]).
      assert (Hscalar : is_dict v = false).
      { pose proof coerce_table_scalar as Hall. rewrite Forall_forall in Hall.
        exact (Hall _ (proj2 (list_elem_of_In _ _) Hin) s v Hv). }
      apply (IH (assign sections key v ov) ov' Hrest); [| |exact Hrun].
      * intros e' He'. apply shaped_assign; [|exact (Hsh e' He')].
        exact (prefix_free_table _ e' Hin He').
      * rewrite merge_configs_assign; [|exact Hscalar|exact (Hsh _ Hin)].
        destruct Hacc as [c Hc].
        exact (from_dict_assign_entry _ c _ v Hc Hin).
Qed.

(** X17. [load_config] returns a configuration as soon as the file found holds
    a mapping that [from_dict] accepts on its own and the overrides can be
    coerced.  The first hypothesis holds with [base] empty when there is
    no file; [from_dict] does not accept the empty mapping
    ([from_dict_empty]). *)
Lemma load_config_returns (w : World) (config_path : option string)
    (base ov : gmap string value) (c0 : Config) :
  read_config_data w (resolve_config_file w config_path) = Ok (VDict base) ->
  from_dict base = Ok c0 ->
  _get_env_overrides (environ w) = Ok ov ->
  exists c, load_config w config_path = Ok c.
Proof.
  intros Hread Hc0 Henv. unfold load_config. rewrite Hread, Henv. simpl.
  rewrite get_env_overrides_table in Henv.
  apply (apply_overrides_accepted (environ w) base override_table ∅ ov);
    [auto | | | exact Henv].
  - intros e _. apply shaped_empty.
  - rewrite merge_configs_empty_r. eauto.
Qed.

Lemma load_config_returns_witness :
  exists c, load_config (world_of {[ "OPENEDU_MCP_WIKIPEDIA_RATE_LIMIT" := "20" ]}
                                  (Document (VDict port_9000))) None = Ok c.
Proof.
  apply (load_config_returns
           (world_of {[ "OPENEDU_MCP_WIKIPEDIA_RATE_LIMIT" := "20" ]}
                     (Document (VDict port_9000)))
           None port_9000
           {[ "apis" := VDict {[ "wikipedia" := VDict {[ "rate_limit" := VInt 20 ]} ]} ]}
           (apis_only_Config (server_with 9000 true)));
    vm_compute; reflexivity.
Defined.

(** ** [_merge_configs] and the store *)

Lemma depth_lookup (m : gmap string value) (k : string) (x : value) :
  m !! k = Some x -> depth x < depth (VDict m).
Proof.
  simpl. intros Hk. apply Nat.lt_succ_r. revert k x Hk.
  apply (map_fold_weak_ind
           (fun n (m : gmap string value) =>
              forall k x, m !! k = Some x -> depth x <= n)).
  - intros k x Hk. rewrite lookup_empty in Hk. discriminate.
  - intros i y m' n Hi IH k x Hk.
    destruct (decide (i = k)) as [->|Hne].
    + rewrite lookup_insert_eq in Hk. injection Hk as ->. lia.
    + rewrite lookup_insert_ne in Hk by assumption.
      specialize (IH k x Hk). lia.
Qed.

Module HeapFacts.
Import Heap.

#[local] Arguments dict_of : simpl never.

Example merge_sample_heap :
  exists h', Heap.merge_configs 3 sample_heap (RObj 4) (RObj 8) = Some (h', RObj 9)
             /\ firstn 9 h' = sample_heap
             /\ h' !! 9 = Some (ODict {[ "server" := RObj 11; "education" := RObj 10;
                                         "logging" := RObj 3 ]})
             /\ h' !! 10 = Some (ODict {[ "subjects" := RObj 6 ]})
             /\ h' !! 11 = Some (ODict {[ "host" := RStr "example.org";
                                          "port" := RInt 7000 ]}).
Proof. eexists. vm_compute. repeat split; reflexivity. Qed.

(** *** The merge writes to its own result only *)

Lemma setitem_prefix (h hc : heap) (l : nat) (k : string) (v : ref) :
  h `prefix_of` hc -> length h <= l -> h `prefix_of` setitem hc l k v.
Proof.
  intros [ext ->] Hl. unfold setitem.
  destruct ((h ++ ext)%list !! l) as [[items|]|]; try (by exists ext).
  rewrite insert_app_r_alt by lia. eexists. reflexivity.
Qed.

(** Whatever the store holds, also shared or cyclic structures: when the
    merge returns, the store it started in is a prefix of the store it
    leaves, so that every object that existed before the call is what it
    was. *)
Lemma merge_configs_frame (fuel : nat) :
  forall (h : heap) (base override : ref) (h' : heap) (r : ref),
    Heap.merge_configs fuel h base override = Some (h', r) ->
    h `prefix_of` h'.
Proof.
  induction fuel as [|fuel IH]; intros h base override h' r H; [discriminate|].
  simpl in H.
  apply bind_Some in H as (bitems & _ & H).
  apply bind_Some in H as (oitems & _ & H).
  apply bind_Some in H as (hf & Hloop & [= <- <-]).
  revert hf Hloop.
  apply (map_fold_weak_ind
           (fun acc (_ : gmap string ref) =>
              forall hf, acc = Some hf -> h `prefix_of` hf)).
  - intros hf [= <-]. apply prefix_app_r. reflexivity.
  - intros i x m acc _ IHm hf Hstep. unfold merge_step in Hstep.
    apply bind_Some in Hstep as (hc & -> & Hstep).
    apply bind_Some in Hstep as (ritems & _ & Hstep).
    specialize (IHm hc eq_refl).
    destruct (ritems !! i) as [rv|].
    + destruct (is_dict_ref hc rv && is_dict_ref hc x).
      * apply bind_Some in Hstep as ([h2 r2] & Hrec & [= <-]).
        apply setitem_prefix; [|reflexivity].
        etrans; [exact IHm|]. exact (IH _ _ _ _ _ Hrec).
      * injection Hstep as <-. apply setitem_prefix; [exact IHm|reflexivity].
    + injection Hstep as <-. apply setitem_prefix; [exact IHm|reflexivity].
Qed.

(** *** References and the values they stand for *)

Lemma prefix_incl (h g : heap) : h `prefix_of` g -> heap_incl h g.
Proof. intros Hp l o Hl. exact (prefix_lookup_Some _ _ _ _ Hl Hp). Qed.

Lemma repr_incl (h g : heap) :
  heap_incl h g -> forall r v, repr h r v -> repr g r v.
Proof.
  intros Hincl. fix IH 3. intros r v H.
  destruct H as [| | | | |l elems vs Hl Hall|l items m Hl Hitems].
  - constructor.
  - constructor.
  - constructor.
  - constructor.
  - constructor.
  - apply (repr_list g l elems vs (Hincl _ _ Hl)).
    clear Hl. revert elems vs Hall. fix IHl 3. intros elems vs Hall.
    destruct Hall as [|x y xs ys Hxy Hrest].
    + constructor.
    + constructor; [exact (IH _ _ Hxy) | exact (IHl _ _ Hrest)].
  - apply (repr_dict g l items m (Hincl _ _ Hl)).
    intros k. destruct (Hitems k) as [x y Hxy|].
    + constructor. exact (IH _ _ Hxy).
    + constructor.
Qed.

Lemma repr_dict_inv (h : heap) (r : ref) (m : gmap string value) :
  repr h r (VDict m) ->
  exists items, dict_of h r = Some items
                /\ forall k, option_Forall2 (repr h) (items !! k) (m !! k).
Proof.
  intros H. inversion H as [| | | | | |l items m' Hl Hitems]; subst.
  exists items. unfold dict_of. rewrite Hl. auto.
Qed.

Lemma is_dict_ref_repr (h : heap) (r : ref) (v : value) :
  repr h r v -> is_dict_ref h r = is_dict v.
Proof.
  intros H. unfold is_dict_ref, dict_of.
  destruct H as [| | | | |l elems vs Hl _|l items m Hl _]; simpl;
    try reflexivity; rewrite Hl; reflexivity.
Qed.

Lemma stable_repr_of_repr (h0 : heap) (n : nat) (hc : heap) (r : ref) (v : value) :
  repr h0 r v -> stable_repr h0 n hc r v.
Proof. intros H g Hincl _. exact (repr_incl h0 g Hincl r v H). Qed.

Lemma stable_repr_mono (h0 : heap) (n n' : nat) (hc hc' : heap) (r : ref) (v : value) :
  stable_repr h0 n hc r v ->
  n' <= n -> agree_from n hc hc' ->
  stable_repr h0 n' hc' r v.
Proof.
  intros H Hn Hag g Hincl Hg. apply H; [exact Hincl|].
  intros l o Hl Hlo. apply Hg; [lia|]. exact (Hag l o Hl Hlo).
Qed.

(** The store after [result[key] = r], when [result] is a dict of [hc]
    and [h2] extends [hc]. *)
Lemma setitem_result (h hc h2 : heap) (ritems : gmap string ref) (key : string)
    (r : ref) :
  h `prefix_of` hc -> hc `prefix_of` h2 ->
  hc !! length h = Some (ODict ritems) ->
  h `prefix_of` setitem h2 (length h) key r
  /\ setitem h2 (length h) key r !! length h = Some (ODict (<[key := r]> ritems))
  /\ agree_from (S (length h)) h2 (setitem h2 (length h) key r).
Proof.
  intros Hh Hc Hres.
  pose proof (prefix_lookup_Some _ _ _ _ Hres Hc) as Hres2.
  split; [|split].
  - apply setitem_prefix; [etrans; eassumption | reflexivity].
  - unfold setitem. rewrite Hres2.
    apply list_lookup_insert_eq. exact (lookup_lt_Some _ _ _ Hres2).
  - intros l o Hl Hlo. unfold setitem. rewrite Hres2.
    rewrite list_lookup_insert_ne by lia. exact Hlo.
Qed.

(** *** The merge in the store computes the merge of the values *)

Lemma loop_inv_step (h0 h hc h2 : heap) (bitems ritems m : gmap string ref)
    (merged : gmap string value) (i : string) (x r : ref) (v : value) :
  h `prefix_of` hc -> hc `prefix_of` h2 ->
  hc !! length h = Some (ODict ritems) ->
  m !! i = None ->
  (forall k, m !! k = None -> ritems !! k = bitems !! k) ->
  (forall k, is_Some (m !! k) ->
     option_Forall2 (stable_repr h0 (S (length h)) hc) (ritems !! k) (merged !! k)) ->
  merged !! i = Some v ->
  stable_repr h0 (S (length h)) h2 r v ->
  loop_inv h0 h bitems merged (Some (setitem h2 (length h) i r)) (<[i := x]> m).
Proof.
  intros Hh Hc Hres Hi Hrest Hdone Hv Hr.
  destruct (setitem_result h hc h2 ritems i r Hh Hc Hres) as (Hp & Hl & Hag).
  exists (setitem h2 (length h) i r), (<[i := r]> ritems).
  split; [reflexivity|]. split; [exact Hp|]. split; [exact Hl|]. split.
  - intros k Hk. apply lookup_insert_None in Hk as [Hk Hne].
    rewrite lookup_insert_ne by assumption. exact (Hrest k Hk).
  - intros k Hk. destruct (decide (i = k)) as [<-|Hne].
    + rewrite lookup_insert_eq, Hv. constructor.
      exact (stable_repr_mono _ _ _ _ _ _ _ Hr (le_n _) Hag).
    + rewrite lookup_insert_ne in Hk by assumption.
      rewrite lookup_insert_ne by assumption.
      destruct (Hdone k Hk) as [y w Hyw|]; constructor.
      apply (stable_repr_mono _ _ _ _ _ _ _ Hyw (le_n _)).
      intros l o Hlt Hlo. apply Hag; [exact Hlt|].
      exact (prefix_lookup_Some _ _ _ _ Hlo Hc).
Qed.

Lemma dict_of_incl (h g : heap) (r : ref) (items : gmap string ref) :
  heap_incl h g -> dict_of h r = Some items -> dict_of g r = Some items.
Proof.
  intros Hincl. unfold dict_of. destruct r; try discriminate.
  destruct (h !! l) as [[]|] eqn:E; try discriminate.
  rewrite (Hincl _ _ E). intros H. exact H.
Qed.

(** For arguments that stand for the values [mb] and [mo] in [h0], a part
    of the store [h] the merge starts in: with fuel for the depth of
    [mo] the merge returns, and what it returns stands for
    [_merge_configs mb mo]. *)
Lemma merge_configs_refines (fuel : nat) :
  forall (h0 h : heap) (base override : ref) (mb mo : gmap string value),
    depth (VDict mo) <= fuel ->
    heap_incl h0 h ->
    repr h0 base (VDict mb) ->
    repr h0 override (VDict mo) ->
    exists h',
      Heap.merge_configs fuel h base override = Some (h', RObj (length h))
      /\ stable_repr h0 (length h) h' (RObj (length h))
                     (VDict (_merge_configs mb mo)).
Proof.
  induction fuel as [|fuel IH]; intros h0 h base override mb mo Hdepth Hincl Hb Ho.
  { simpl in Hdepth. lia. }
  destruct (repr_dict_inv h0 base mb Hb) as (bitems & Hbd & Hbitems).
  destruct (repr_dict_inv h0 override mo Ho) as (oitems & Hod & Hoitems).
  pose proof (dict_of_incl _ _ _ _ Hincl Hbd) as Hbd'.
  pose proof (dict_of_incl _ _ _ _ Hincl Hod) as Hod'.
  simpl. rewrite Hbd', Hod'. simpl.
  set (merged := _merge_configs mb mo).
  assert (Hloop : forall m, m ⊆ oitems ->
            loop_inv h0 h bitems merged
              (map_fold (merge_step (Heap.merge_configs fuel) (length h))
                        (Some (h ++ [ODict bitems])%list) m) m).
  { intros m.
    apply (map_fold_weak_ind
             (fun acc m => m ⊆ oitems -> loop_inv h0 h bitems merged acc m)).
    - intros _. exists (h ++ [ODict bitems])%list, bitems.
      split; [reflexivity|]. split; [apply prefix_app_r; reflexivity|].
      split; [apply list_lookup_middle; reflexivity|]. split; [reflexivity|].
      intros k [y Hy]. rewrite lookup_empty in Hy. discriminate.
    - clear m. intros i x m acc Hi IHm Hsub.
      assert (Hm : m ⊆ oitems).
      { etrans; [|exact Hsub]. apply insert_subseteq. exact Hi. }
      assert (Hix : oitems !! i = Some x).
      { apply (lookup_weaken _ _ _ _ (lookup_insert_eq m i x) Hsub). }
      destruct (IHm Hm) as (hc & ritems & -> & Hh & Hres & Hrest & Hdone).
      pose proof (Hoitems i) as Hoi. rewrite Hix in Hoi.
      inversion Hoi as [x' vo Hxvo Hx' Hmo|]; subst x'. symmetry in Hmo.
      assert (Hmerged : merged !! i = Some (merge_item (mb !! i) vo)).
      { unfold merged. rewrite merge_configs_lookup, Hmo. reflexivity. }
      assert (Hhc : heap_incl h0 hc).
      { intros l o Hl. apply (prefix_incl _ _ Hh). exact (Hincl _ _ Hl). }
      assert (Hdres : dict_of hc (RObj (length h)) = Some ritems)
        by (unfold dict_of; rewrite Hres; reflexivity).
      unfold merge_step. simpl. rewrite Hdres. simpl.
      rewrite (Hrest i Hi).
      pose proof (Hbitems i) as Hbi.
      destruct Hbi as [rv vb Hrvb|].
      + rewrite (is_dict_ref_repr hc rv vb (repr_incl _ _ Hhc _ _ Hrvb)).
        rewrite (is_dict_ref_repr hc x vo (repr_incl _ _ Hhc _ _ Hxvo)).
        destruct vb as [| | | | | |mb'], vo as [| | | | | |mo']; simpl;
          try (apply (loop_inv_step h0 h hc hc bitems ritems m merged i x x _
                        Hh (reflexivity _) Hres Hi Hrest Hdone Hmerged);
               apply stable_repr_of_repr; exact Hxvo).
        assert (Hd : depth (VDict mo') <= fuel).
        { pose proof (depth_lookup mo i (VDict mo') Hmo). lia. }
        destruct (IH h0 hc rv x mb' mo' Hd Hhc Hrvb Hxvo) as (h2 & Hrec & Hst).
        rewrite Hrec. simpl.
        pose proof (merge_configs_frame _ _ _ _ _ _ Hrec) as Hc2.
        apply (loop_inv_step h0 h hc h2 bitems ritems m merged i x
                 (RObj (length hc)) _ Hh Hc2 Hres Hi Hrest Hdone Hmerged).
        rewrite merge_item_dict.
        apply (stable_repr_mono _ _ _ _ h2 _ _ Hst).
        * exact (lookup_lt_Some _ _ _ Hres).
        * intros l o _ Hlo. exact Hlo.
      + apply (loop_inv_step h0 h hc hc bitems ritems m merged i x x _
                 Hh (reflexivity _) Hres Hi Hrest Hdone Hmerged).
        apply stable_repr_of_repr.
        destruct vo; exact Hxvo. }
  destruct (Hloop oitems (reflexivity _))
    as (hf & ritems & -> & Hh & Hres & Hrest & Hdone).
  simpl. exists hf. split; [reflexivity|].
  intros g Hg Hag.
  apply (repr_dict g (length h) ritems merged (Hag _ _ (le_n _) Hres)).
  intros k. destruct (oitems !! k) as [x|] eqn:Hk.
  - destruct (Hdone k (ex_intro _ x Hk)) as [y w Hyw|]; constructor.
    apply Hyw; [exact Hg|].
    intros l o Hl Hlo. apply Hag; [lia | exact Hlo].
  - rewrite (Hrest k Hk). unfold merged. rewrite merge_configs_lookup.
    pose proof (Hoitems k) as Hok. rewrite Hk in Hok.
    inversion Hok as [|Hx Hmo]. 
    destruct (Hbitems k) as [y w Hyw|]; constructor.
    exact (repr_incl _ _ Hg _ _ Hyw).
Qed.

(** *** Purity of the merge *)

Lemma items_singleton (R : ref -> value -> Prop) (i : string) (r : ref) (v : value) :
  R r v ->
  forall k, option_Forall2 R (({[ i := r ]} : gmap string ref) !! k)
                             (({[ i := v ]} : gmap string value) !! k).
Proof.
  intros Hrv k. destruct (decide (i = k)) as [->|Hne].
  - rewrite !lookup_singleton_eq. constructor. exact Hrv.
  - rewrite !lookup_singleton_ne by assumption. constructor.
Qed.

Lemma items_insert (R : ref -> value -> Prop) (i : string) (r : ref) (v : value)
    (items : gmap string ref) (m : gmap string value) :
  R r v ->
  (forall k, option_Forall2 R (items !! k) (m !! k)) ->
  forall k, option_Forall2 R (<[i := r]> items !! k) (<[i := v]> m !! k).
Proof.
  intros Hrv Hall k. destruct (decide (i = k)) as [->|Hne].
  - rewrite !lookup_insert_eq. constructor. exact Hrv.
  - rewrite !lookup_insert_ne by assumption. apply Hall.
Qed.

(** Proves that a reference of a store written out in full stands for a
    value written out in full. *)
Ltac solve_repr :=
  lazymatch goal with
  | |- repr _ (RObj _) (VDict _) =>
      eapply repr_dict; [reflexivity | solve_items]
  | |- repr _ (RObj _) (VList _) =>
      eapply repr_list; [reflexivity | repeat constructor]
  | |- repr _ _ _ => constructor
  end
with solve_items :=
  lazymatch goal with
  | |- forall k, option_Forall2 _ (<[_ := _]> _ !! k) (<[_ := _]> _ !! k) =>
      apply items_insert; [solve_repr | solve_items]
  | |- forall k, option_Forall2 _ ({[_ := _]} !! k) ({[_ := _]} !! k) =>
      apply items_singleton; solve_repr
  end.

(** C9. The merge leaves its arguments as they were and is deterministic.
    In whatever store it runs, when it returns the store it started in is
    a prefix of the store it leaves: no object that existed before the
    call, [base] and [override] among them, has been written to.  And for
    [base] and [override] that stand for the mappings [mb] and [mo]: the
    call returns, a second call with the same arguments returns too, both
    arguments still stand for [mb] and [mo] after each call, and the two
    results stand for the same mapping, [_merge_configs mb mo]. *)
Theorem merge_configs_pure (h : heap) (base override : ref) :
  (forall fuel h' r,
     Heap.merge_configs fuel h base override = Some (h', r) ->
     h `prefix_of` h')
  /\ (forall mb mo,
        repr h base (VDict mb) -> repr h override (VDict mo) ->
        exists fuel h1 r1 h2 r2,
          Heap.merge_configs fuel h base override = Some (h1, r1)
          /\ Heap.merge_configs fuel h1 base override = Some (h2, r2)
          /\ h `prefix_of` h1 /\ h1 `prefix_of` h2
          /\ repr h1 base (VDict mb) /\ repr h1 override (VDict mo)
          /\ repr h2 base (VDict mb) /\ repr h2 override (VDict mo)
          /\ repr h1 r1 (VDict (_merge_configs mb mo))
          /\ repr h2 r1 (VDict (_merge_configs mb mo))
          /\ repr h2 r2 (VDict (_merge_configs mb mo))).
Proof.
  split.
  { intros fuel h' r. apply merge_configs_frame. }
  intros mb mo Hb Ho.
  assert (Hhh : heap_incl h h) by (intros l o Hl; exact Hl).
  destruct (merge_configs_refines (depth (VDict mo)) h h base override mb mo
              (le_n _) Hhh Hb Ho) as (h1 & H1 & S1).
  pose proof (merge_configs_frame _ _ _ _ _ _ H1) as P1.
  destruct (merge_configs_refines (depth (VDict mo)) h h1 base override mb mo
              (le_n _) (prefix_incl _ _ P1) Hb Ho) as (h2 & H2 & S2).
  pose proof (merge_configs_frame _ _ _ _ _ _ H2) as P2.
  assert (P12 : heap_incl h h2) by (apply prefix_incl; etrans; eassumption).
  exists (depth (VDict mo)), h1, (RObj (length h)), h2, (RObj (length h1)).
  split; [exact H1|]. split; [exact H2|]. split; [exact P1|]. split; [exact P2|].
  split; [exact (repr_incl _ _ (prefix_incl _ _ P1) _ _ Hb)|].
  split; [exact (repr_incl _ _ (prefix_incl _ _ P1) _ _ Ho)|].
  split; [exact (repr_incl _ _ P12 _ _ Hb)|].
  split; [exact (repr_incl _ _ P12 _ _ Ho)|].
  split; [|split].
  - apply S1; [exact (prefix_incl _ _ P1)|]. intros l o _ Hl. exact Hl.
  - apply S1; [exact P12|]. intros l o _ Hl. exact (prefix_lookup_Some _ _ _ _ Hl P2).
  - apply S2; [exact P12|]. intros l o _ Hl. exact Hl.
Qed.

Lemma merge_configs_pure_witness :
  exists fuel h1 r1 h2 r2,
    Heap.merge_configs fuel sample_heap (RObj 4) (RObj 8) = Some (h1, r1)
    /\ Heap.merge_configs fuel h1 (RObj 4) (RObj 8) = Some (h2, r2)
    /\ sample_heap `prefix_of` h1 /\ h1 `prefix_of` h2
    /\ repr h1 (RObj 4) (VDict sample_base)
    /\ repr h1 (RObj 8) (VDict sample_override)
    /\ repr h2 (RObj 4) (VDict sample_base)
    /\ repr h2 (RObj 8) (VDict sample_override)
    /\ repr h1 r1 (VDict (_merge_configs sample_base sample_override))
    /\ repr h2 r1 (VDict (_merge_configs sample_base sample_override))
    /\ repr h2 r2 (VDict (_merge_configs sample_base sample_override)).
Proof.
  apply (proj2 (merge_configs_pure sample_heap (RObj 4) (RObj 8))
           sample_base sample_override).
  - unfold sample_base. solve_repr.
  - unfold sample_override. solve_repr.
Defined.

End HeapFacts.

(** * Further properties *)

(** ** Algebra of [_merge_configs] *)

Lemma merge_item_None (val : value) : merge_item None val = val.
Proof. destruct val; reflexivity. Qed.

Lemma merge_configs_empty_l (override : gmap string value) :
  _merge_configs ∅ override = override.
Proof.
  apply map_eq. intros k. rewrite merge_configs_lookup, lookup_empty.
  destruct (override !! k) as [v|]; [|reflexivity].
  rewrite merge_item_None. reflexivity.
Qed.

(** X1. The keys of the merge are the keys of [base] together with the
    keys of [override]: the merge drops no key of either and invents
    none. *)
Theorem merge_configs_keys (base override : gmap string value) :
  dom (_merge_configs base override) = dom base ∪ dom override.
Proof.
  apply set_eq. intros k.
  rewrite elem_of_union, !elem_of_dom, merge_configs_lookup.
  destruct (override !! k) as [v|] eqn:Ho.
  - split; [intros _; right|]; eauto.
  - split; [intros H; left; exact H|].
    intros [H|[? H]]; [exact H | discriminate].
Qed.

(** X2. The empty mapping is neutral on both sides: merging nothing into
    [d] gives [d], and merging [d] into nothing gives [d]. *)
Theorem merge_configs_neutral (d : gmap string value) :
  _merge_configs d ∅ = d /\ _merge_configs ∅ d = d.
Proof. split; [apply merge_configs_empty_r | apply merge_configs_empty_l]. Qed.

Lemma merge_configs_self (n : nat) :
  forall d : gmap string value, depth (VDict d) <= n -> _merge_configs d d = d.
Proof.
  induction n as [|n IH]; intros d Hd; [simpl in Hd; lia|].
  apply map_eq. intros k. rewrite merge_configs_lookup.
  destruct (d !! k) as [v|] eqn:Hk; [|reflexivity].
  pose proof (depth_lookup d k v Hk) as Hv.
  destruct v as [| | | | | |m]; try reflexivity.
  rewrite merge_item_dict, IH by lia. reflexivity.
Qed.

Lemma merge_configs_twice (n : nat) :
  forall base override : gmap string value,
    depth (VDict override) <= n ->
    _merge_configs (_merge_configs base override) override
    = _merge_configs base override.
Proof.
  induction n as [|n IH]; intros base override Hd; [simpl in Hd; lia|].
  apply map_eq. intros k. rewrite (merge_configs_lookup (_merge_configs _ _)).
  destruct (override !! k) as [v|] eqn:Hk; [|reflexivity].
  rewrite merge_configs_lookup, Hk.
  pose proof (depth_lookup override k v Hk) as Hv.
  destruct v as [| | | | | |m]; try reflexivity.
  destruct (base !! k) as [[| | | | | |b]|];
    rewrite ?merge_item_dict;
    try (simpl merge_item at 2; rewrite merge_item_dict,
           (merge_configs_self n m) by lia; reflexivity).
  rewrite IH by lia. reflexivity.
Qed.

(** X3. Merging is idempotent: merging a mapping into itself changes
    nothing, and merging the same overrides a second time into a merge
    changes nothing. *)
Theorem merge_configs_idempotent (base override : gmap string value) :
  _merge_configs override override = override
  /\ _merge_configs (_merge_configs base override) override
     = _merge_configs base override.
Proof.
  split.
  - apply (merge_configs_self (depth (VDict override))). reflexivity.
  - apply (merge_configs_twice (depth (VDict override))). reflexivity.
Qed.

(** ** What [from_dict] accepts, keeps and fills in *)

Lemma spread_keywords_ok (fields : list string) (d : gmap string value) (k : string) :
  (exists kw, spread fields (dict_get d k (VDict ∅)) = Ok kw)
  <-> keywords_ok fields (d !! k) = true.
Proof.
  unfold dict_get, keywords_ok, spread.
  destruct (d !! k) as [[| | | | | |kw]|]; simpl;
    try (split; [intros [? H]; discriminate H | discriminate]).
  - case_bool_decide as Hdom; split; eauto; try discriminate.
    intros [? H]; discriminate H.
  - rewrite bool_decide_eq_true_2; [split; eauto|].
    rewrite dom_empty_L. apply empty_subseteq.
Qed.

Lemma new_ContentFilters_spread (v : value) :
  (exists s, new_ContentFilters v = Ok s)
  <-> exists kw, spread ContentFilters_fields v = Ok kw.
Proof.
  unfold new_ContentFilters.
  destruct (spread ContentFilters_fields v) as [kw|x]; simpl.
  - split; eauto.
  - split; intros [? H]; discriminate H.
Qed.

Lemma new_LoggingConfig_spread (v : value) :
  (exists s, new_LoggingConfig v = Ok s)
  <-> exists kw, spread LoggingConfig_fields v = Ok kw.
Proof.
  unfold new_LoggingConfig.
  destruct (spread LoggingConfig_fields v) as [kw|x]; simpl.
  - split; eauto.
  - split; intros [? H]; discriminate H.
Qed.

Lemma new_MonitoringConfig_spread (v : value) :
  (exists s, new_MonitoringConfig v = Ok s)
  <-> exists kw, spread MonitoringConfig_fields v = Ok kw.
Proof.
  unfold new_MonitoringConfig.
  destruct (spread MonitoringConfig_fields v) as [kw|x]; simpl.
  - split; eauto.
  - split; intros [? H]; discriminate H.
Qed.

Lemma required_is_Some (kw : gmap string value) (k : string) :
  (exists x, required kw k = Ok x) <-> is_Some (kw !! k).
Proof.
  unfold required. destruct (kw !! k) as [x|].
  - split; eauto.
  - split; [intros [? H]; discriminate H | intros [? H]; discriminate H].
Qed.

Lemma new_APIConfig_api_ok (a : gmap string value) (svc : string) :
  (exists c, new_APIConfig (dict_get a svc (VDict ∅)) = Ok c)
  <-> api_ok (a !! svc) = true.
Proof.
  unfold api_ok, dict_get, new_APIConfig, spread.
  destruct (a !! svc) as [[| | | | | |kw]|]; simpl;
    try (split; [intros [? H]; discriminate H | discriminate]).
  - rewrite !andb_true_iff, !bool_decide_eq_true.
    case_bool_decide as Hdom; simpl.
    + unfold required.
      destruct (kw !! "base_url"), (kw !! "rate_limit"), (kw !! "timeout");
        simpl; split;
        try (intros [? H]; discriminate H);
        try (intros [[[_ [? H]] [? H']] [? H'']]; discriminate);
        eauto 10.
    + split; [intros [? H]; discriminate H | tauto].
Qed.

Lemma value_get_apis (d : gmap string value) (svc : string) :
  (exists c, value_get (dict_get d "apis" (VDict ∅)) svc (VDict ∅) ≫= new_APIConfig
             = Ok c)
  <-> exists a, d !! "apis" = Some (VDict a) /\ api_ok (a !! svc) = true.
Proof.
  unfold dict_get at 1.
  destruct (d !! "apis") as [[| | | | | |a]|]; simpl;
    try (split; [intros [? H]; discriminate H
                | intros (? & H & _); discriminate H]).
  rewrite new_APIConfig_api_ok. split; [eauto|].
  intros (a' & [= <-] & H). exact H.
Qed.

Lemma value_get_education (d : gmap string value) (f : string) (dflt : value) :
  (exists x, value_get (dict_get d "education" (VDict ∅)) f dflt = Ok x)
  <-> match d !! "education" with
      | None | Some (VDict _) => True
      | Some _ => False
      end.
Proof.
  unfold dict_get at 1.
  destruct (d !! "education") as [[| | | | | |e]|]; simpl;
    try (split; [intros [? H]; discriminate H | tauto]);
    split; eauto.
Qed.

Lemma content_filters_ok (d : gmap string value) :
  (exists x, value_get (dict_get d "education" (VDict ∅)) "content_filters" (VDict ∅)
               ≫= new_ContentFilters = Ok x)
  <-> education_ok (d !! "education") = true.
Proof.
  unfold dict_get at 1, education_ok.
  destruct (d !! "education") as [[| | | | | |e]|]; simpl;
    try (split; [intros [? H]; discriminate H | discriminate]).
  - rewrite new_ContentFilters_spread. apply spread_keywords_ok.
  - rewrite new_ContentFilters_spread, spread_keywords_ok, lookup_empty.
    reflexivity.
Qed.

(** X4. [from_dict] returns a configuration for exactly the mappings that
    pass the test [acceptable]: every keyword section that is present is
    a mapping whose keys are fields, [education] is absent or a mapping,
    and [apis] is a mapping that gives all four services, each with
    [base_url], [rate_limit] and [timeout].  For every other mapping it
    raises. *)
Theorem from_dict_accepts (d : gmap string value) :
  (exists c, from_dict d = Ok c) <-> acceptable d = true.
Proof.
  unfold acceptable. rewrite !andb_true_iff.
  rewrite <- !spread_keywords_ok, <- content_filters_ok.
  rewrite <- new_ServerConfig_spread, <- new_CacheConfig_spread,
    <- new_LoggingConfig_spread, <- new_MonitoringConfig_spread.
  split.
  - intros [c Hc].
    apply from_dict_Ok in Hc
      as (Hs & Hca & Ha1 & Ha2 & Ha3 & Ha4 & Hg & Hcs & Hsb & Hcf & Hl & Hm).
    repeat split; eauto.
    destruct (proj1 (value_get_apis d "open_library") (ex_intro _ _ Ha1))
      as (a & Ha & H1).
    destruct (proj1 (value_get_apis d "wikipedia") (ex_intro _ _ Ha2))
      as (a2 & Ha' & H2).
    destruct (proj1 (value_get_apis d "dictionary") (ex_intro _ _ Ha3))
      as (a3 & Ha'' & H3).
    destruct (proj1 (value_get_apis d "arxiv") (ex_intro _ _ Ha4))
      as (a4 & Ha''' & H4).
    rewrite Ha in *. injection Ha' as <-. injection Ha'' as <-.
    injection Ha''' as <-. simpl. rewrite H1, H2, H3, H4. reflexivity.
  - intros ((((([s Hs] & [c Hc]) & Hapis) & Hedu) & [l Hl]) & [m Hm]).
    assert (Ha : exists a, d !! "apis" = Some (VDict a)
                   /\ api_ok (a !! "open_library") = true
                   /\ api_ok (a !! "wikipedia") = true
                   /\ api_ok (a !! "dictionary") = true
                   /\ api_ok (a !! "arxiv") = true).
    { unfold apis_ok in Hapis.
      destruct (d !! "apis") as [[| | | | | |a]|]; try discriminate.
      rewrite !andb_true_iff in Hapis. exists a. tauto. }
    destruct Ha as (a & Ha & H1 & H2 & H3 & H4).
    destruct (proj2 (value_get_apis d "open_library")) as [a1 Ha1]; [eauto|].
    destruct (proj2 (value_get_apis d "wikipedia")) as [a2 Ha2]; [eauto|].
    destruct (proj2 (value_get_apis d "dictionary")) as [a3 Ha3]; [eauto|].
    destruct (proj2 (value_get_apis d "arxiv")) as [a4 Ha4]; [eauto|].
    pose proof Hedu as [cf Hcf].
    assert (He : match d !! "education" with
                 | None | Some (VDict _) => True
                 | Some _ => False
                 end).
    { apply (proj1 (content_filters_ok d)) in Hedu. unfold education_ok in Hedu.
      destruct (d !! "education") as [[]|]; try discriminate; exact I. }
    destruct (proj2 (value_get_education d "grade_levels" (VList [])) He) as [g Hg].
    destruct (proj2 (value_get_education d "curriculum_standards" (VList [])) He)
      as [cs Hcs].
    destruct (proj2 (value_get_education d "subjects" (VList [])) He) as [sb Hsb].
    exact (from_dict_intro d s c a1 a2 a3 a4 g cs sb cf l m
             Hs Hc Ha1 Ha2 Ha3 Ha4 Hg Hcs Hsb Hcf Hl Hm).
Qed.

Lemma from_dict_accepts_witness :
  (exists c, from_dict apis_only = Ok c) /\ acceptable bogus_server = false.
Proof.
  split.
  - apply (proj2 (from_dict_accepts apis_only)). vm_compute. reflexivity.
  - destruct (acceptable bogus_server) eqn:E; [|reflexivity].
    destruct (proj2 (from_dict_accepts bogus_server) E) as [c Hc].
    vm_compute in Hc. discriminate Hc.
Defined.

Ltac split_key f keys :=
  lazymatch keys with
  | @nil _ => idtac
  | @cons _ ?k ?rest => destruct (decide (f = k)) as [->|?]; [|split_key f rest]
  end.

(** Closes [D s !! f = (kw ∪ D dflt) !! f] where the record [s] has been
    built from the keywords [kw], all of them among [keys]. *)
Ltac overlay kw Hfields f keys :=
  rewrite lookup_union; split_key f keys;
  [ unfold optional; simplify_map_eq; try reflexivity;
    match goal with
    | |- context [default _ (kw !! ?k)] => destruct (kw !! k) eqn:?; reflexivity
    end ..
  | destruct (kw !! f) as [x|] eqn:Hx;
    [ exfalso; specialize (Hfields f (ex_intro _ x Hx)); simpl in Hfields;
      intuition congruence
    | simplify_map_eq; reflexivity ] ].

Lemma new_ServerConfig_overlay (v : value) (s : ServerConfig) :
  new_ServerConfig v = Ok s ->
  exists kw, v = VDict kw
             /\ ServerConfig_dict s = kw ∪ ServerConfig_dict default_ServerConfig.
Proof.
  unfold new_ServerConfig. intros H. inv_bind H. injection H as <-.
  apply spread_Ok in Ha as [-> Hfields]. exists a. split; [reflexivity|].
  apply map_eq. intros f. unfold ServerConfig_dict, default_ServerConfig. simpl.
  let ks := eval unfold ServerConfig_fields in ServerConfig_fields in
  overlay a Hfields f ks.
Qed.

Lemma new_CacheConfig_overlay (v : value) (s : CacheConfig) :
  new_CacheConfig v = Ok s ->
  exists kw, v = VDict kw
             /\ CacheConfig_dict s = kw ∪ CacheConfig_dict default_CacheConfig.
Proof.
  unfold new_CacheConfig. intros H. inv_bind H. injection H as <-.
  apply spread_Ok in Ha as [-> Hfields]. exists a. split; [reflexivity|].
  apply map_eq. intros f. unfold CacheConfig_dict, default_CacheConfig. simpl.
  let ks := eval unfold CacheConfig_fields in CacheConfig_fields in
  overlay a Hfields f ks.
Qed.

Lemma new_ContentFilters_overlay (v : value) (s : ContentFilters) :
  new_ContentFilters v = Ok s ->
  exists kw, v = VDict kw
             /\ ContentFilters_dict s = kw ∪ ContentFilters_dict default_ContentFilters.
Proof.
  unfold new_ContentFilters. intros H. inv_bind H. injection H as <-.
  apply spread_Ok in Ha as [-> Hfields]. exists a. split; [reflexivity|].
  apply map_eq. intros f. unfold ContentFilters_dict, default_ContentFilters. simpl.
  let ks := eval unfold ContentFilters_fields in ContentFilters_fields in
  overlay a Hfields f ks.
Qed.

Lemma new_LoggingConfig_overlay (v : value) (s : LoggingConfig) :
  new_LoggingConfig v = Ok s ->
  exists kw, v = VDict kw
             /\ LoggingConfig_dict s = kw ∪ LoggingConfig_dict default_LoggingConfig.
Proof.
  unfold new_LoggingConfig. intros H. inv_bind H. injection H as <-.
  apply spread_Ok in Ha as [-> Hfields]. exists a. split; [reflexivity|].
  apply map_eq. intros f. unfold LoggingConfig_dict, default_LoggingConfig. simpl.
  let ks := eval unfold LoggingConfig_fields in LoggingConfig_fields in
  overlay a Hfields f ks.
Qed.

Lemma new_MonitoringConfig_overlay (v : value) (s : MonitoringConfig) :
  new_MonitoringConfig v = Ok s ->
  exists kw, v = VDict kw
             /\ MonitoringConfig_dict s = kw ∪ MonitoringConfig_dict default_MonitoringConfig.
Proof.
  unfold new_MonitoringConfig. intros H. inv_bind H. injection H as <-.
  apply spread_Ok in Ha as [-> Hfields]. exists a. split; [reflexivity|].
  apply map_eq. intros f. unfold MonitoringConfig_dict, default_MonitoringConfig. simpl.
  let ks := eval unfold MonitoringConfig_fields in MonitoringConfig_fields in
  overlay a Hfields f ks.
Qed.

Lemma new_APIConfig_overlay (v : value) (s : APIConfig) :
  new_APIConfig v = Ok s ->
  exists kw, v = VDict kw /\ APIConfig_dict s = kw ∪ APIConfig_defaults.
Proof.
  unfold new_APIConfig. intros H. inv_bind H. injection H as <-.
  apply spread_Ok in Ha as [-> Hfields]. exists a. split; [reflexivity|].
  apply required_Ok in Ha0, Ha1, Ha2.
  apply map_eq. intros f. unfold APIConfig_dict, APIConfig_defaults. simpl.
  let ks := eval unfold APIConfig_fields in APIConfig_fields in
  overlay a Hfields f ks.
Qed.

Lemma value_get_section (d : gmap string value) (k : string) (x : value) :
  value_get (dict_get d "education" (VDict ∅)) k (VList []) = Ok x ->
  x = default (VList []) (section_of d "education" !! k).
Proof.
  unfold dict_get at 1, section_of.
  destruct (d !! "education") as [[| | | | | |e]|]; simpl; try discriminate.
  - intros [= <-]. reflexivity.
  - intros [= <-]. unfold dict_get. rewrite lookup_empty. reflexivity.
Qed.

Lemma section_of_get (d kw : gmap string value) (k : string) :
  dict_get d k (VDict ∅) = VDict kw -> section_of d k = kw.
Proof. unfold section_of. apply dict_get_dict. Qed.

(** X5. A field that the input mapping gives, inside a keyword section or
    as one of the three lists of [education], is the field of the
    configuration that [from_dict] returns: nothing given is lost or
    changed. *)
Theorem from_dict_given_fields (d : gmap string value) (c : Config) :
  from_dict d = Ok c ->
  (forall section f x,
     In section keyword_sections ->
     lookup_path (section ++ [f]) (VDict d) = Some x ->
     lookup_path (section ++ [f]) (VDict (to_dict c)) = Some x)
  /\ (forall f x,
        In f education_lists ->
        lookup_path ["education"; f] (VDict d) = Some x ->
        lookup_path ["education"; f] (VDict (to_dict c)) = Some x).
Proof.
  intros Hc. split.
  - intros section f x Hin. exact (from_dict_keeps d c section f x Hc Hin).
  - intros f x Hin Hx.
    apply from_dict_Ok in Hc as (_ & _ & _ & _ & _ & _ & Hg & Hcs & Hsb & _).
    destruct (to_dict_education c) as (Tg & Tcs & Tsb).
    apply lookup_path_cons in Hx as (d' & y & [= <-] & Hy & Hx).
    apply lookup_path_cons in Hx as (e & z & -> & Hz & [= ->]).
    rewrite (dict_get_Some _ _ _ _ Hy) in Hg, Hcs, Hsb. simpl in Hg, Hcs, Hsb.
    in_fields Hin.
    + rewrite Tg. rewrite (dict_get_Some _ _ _ _ Hz) in Hg. congruence.
    + rewrite Tcs. rewrite (dict_get_Some _ _ _ _ Hz) in Hcs. congruence.
    + rewrite Tsb. rewrite (dict_get_Some _ _ _ _ Hz) in Hsb. congruence.
Qed.

Lemma from_dict_given_fields_witness :
  lookup_path ["server"; "port"] (VDict (to_dict (apis_only_Config (server_with 9000 true))))
  = Some (VInt 9000).
Proof.
  apply (proj1 (from_dict_given_fields port_9000
                  (apis_only_Config (server_with 9000 true))
                  ltac:(vm_compute; reflexivity))
           ["server"] "port" (VInt 9000)).
  - simpl. tauto.
  - vm_compute. reflexivity.
Defined.

(** X6. What [from_dict] fills in.  The [__dict__] of each section of the
    configuration is the section of the input laid over the defaults of
    its dataclass; for a service of [apis] the defaults are those of
    [APIConfig] ([retry_attempts] 3, [backoff_factor] 2.0), not the
    service's own defaults that [APIsConfig] declares; and a list of
    [education] that the input does not give is [[]]. *)
Theorem from_dict_defaults (d : gmap string value) (c : Config) :
  from_dict d = Ok c ->
  ServerConfig_dict (server c)
  = section_of d "server" ∪ ServerConfig_dict default_ServerConfig
  /\ CacheConfig_dict (cache c)
     = section_of d "cache" ∪ CacheConfig_dict default_CacheConfig
  /\ APIConfig_dict (open_library (apis c))
     = section_of (section_of d "apis") "open_library" ∪ APIConfig_defaults
  /\ APIConfig_dict (wikipedia (apis c))
     = section_of (section_of d "apis") "wikipedia" ∪ APIConfig_defaults
  /\ APIConfig_dict (dictionary (apis c))
     = section_of (section_of d "apis") "dictionary" ∪ APIConfig_defaults
  /\ APIConfig_dict (arxiv (apis c))
     = section_of (section_of d "apis") "arxiv" ∪ APIConfig_defaults
  /\ grade_levels (education c)
     = default (VList []) (section_of d "education" !! "grade_levels")
  /\ curriculum_standards (education c)
     = default (VList []) (section_of d "education" !! "curriculum_standards")
  /\ subjects (education c)
     = default (VList []) (section_of d "education" !! "subjects")
  /\ ContentFilters_dict (content_filters (education c))
     = section_of (section_of d "education") "content_filters"
       ∪ ContentFilters_dict default_ContentFilters
  /\ LoggingConfig_dict (logging c)
     = section_of d "logging" ∪ LoggingConfig_dict default_LoggingConfig
  /\ MonitoringConfig_dict (monitoring c)
     = section_of d "monitoring" ∪ MonitoringConfig_dict default_MonitoringConfig.
Proof.
  intros Hc.
  apply from_dict_Ok in Hc
    as (Hs & Hca & Ha1 & Ha2 & Ha3 & Ha4 & Hg & Hcs & Hsb & Hcf & Hl & Hm).
  assert (Hsub : forall {A} (new : value -> result A) (D : A -> gmap string value)
                    (dflt : gmap string value) s k (r : A),
            (forall v r, new v = Ok r -> exists kw, v = VDict kw /\ D r = kw ∪ dflt) ->
            value_get (dict_get d s (VDict ∅)) k (VDict ∅) ≫= new = Ok r ->
            D r = section_of (section_of d s) k ∪ dflt).
  { intros A new D dflt s k r Hnew Hr.
    destruct (dict_get d s (VDict ∅)) as [| | | | | |a] eqn:Ha; try discriminate.
    simpl in Hr. destruct (Hnew _ _ Hr) as (kw & Hkw & ->).
    rewrite (section_of_get d a s Ha), (section_of_get a kw k Hkw). reflexivity. }
  destruct (new_ServerConfig_overlay _ _ Hs) as (kw1 & E1 & ->).
  destruct (new_CacheConfig_overlay _ _ Hca) as (kw2 & E2 & ->).
  destruct (new_LoggingConfig_overlay _ _ Hl) as (kw3 & E3 & ->).
  destruct (new_MonitoringConfig_overlay _ _ Hm) as (kw4 & E4 & ->).
  rewrite (section_of_get _ _ _ E1), (section_of_get _ _ _ E2),
    (section_of_get _ _ _ E3), (section_of_get _ _ _ E4).
  rewrite (Hsub _ new_APIConfig APIConfig_dict APIConfig_defaults _ _ _
             new_APIConfig_overlay Ha1).
  rewrite (Hsub _ new_APIConfig APIConfig_dict APIConfig_defaults _ _ _
             new_APIConfig_overlay Ha2).
  rewrite (Hsub _ new_APIConfig APIConfig_dict APIConfig_defaults _ _ _
             new_APIConfig_overlay Ha3).
  rewrite (Hsub _ new_APIConfig APIConfig_dict APIConfig_defaults _ _ _
             new_APIConfig_overlay Ha4).
  rewrite (Hsub _ new_ContentFilters ContentFilters_dict
             (ContentFilters_dict default_ContentFilters) _ _ _
             new_ContentFilters_overlay Hcf).
  rewrite (value_get_section d _ _ Hg), (value_get_section d _ _ Hcs),
    (value_get_section d _ _ Hsb).
  repeat split; reflexivity.
Qed.

(** The wikipedia service given without [retry_attempts] gets 3, where
    [APIsConfig] declares 2 for it. *)
Lemma from_dict_defaults_witness :
  APIConfig_dict (wikipedia (apis short_wikipedia_Config))
  = section_of (section_of short_wikipedia "apis") "wikipedia" ∪ APIConfig_defaults
  /\ retry_attempts (wikipedia (apis short_wikipedia_Config)) = VInt 3
  /\ retry_attempts (wikipedia default_APIsConfig) = VInt 2.
Proof.
  split; [|split; reflexivity].
  apply (from_dict_defaults short_wikipedia short_wikipedia_Config).
  vm_compute. reflexivity.
Defined.

(** ** What [_get_env_overrides] can return *)

Lemma assign_other_None (sections : list string) (key : string) (v : value) :
  forall (p : list string) (d : gmap string value),
    diverge p (sections ++ [key]) = true ->
    lookup_path p (VDict d) = None ->
    lookup_path p (VDict (assign sections key v d)) = None.
Proof.
  induction sections as [|s rest IH]; intros p d Hdiv Hp.
  - destruct p as [|a p']; [discriminate|]. simpl in *.
    destruct (decide (a = key)) as [->|Hne]; [destruct p'; discriminate|].
    rewrite lookup_insert_ne by congruence. exact Hp.
  - destruct p as [|a p']; [discriminate|]. simpl in *.
    destruct (decide (a = s)) as [->|Hne].
    + rewrite lookup_insert_eq. simpl. apply IH; [exact Hdiv|].
      destruct p' as [|b p'']; [discriminate|].
      destruct (d !! s) as [[| | | | | |sub]|]; simpl in *;
        try (rewrite lookup_empty; reflexivity).
      exact Hp.
    + rewrite lookup_insert_ne by congruence. exact Hp.
Qed.

(** An invariant of the run that every assignment of the table keeps is
    an invariant of the overrides returned. *)
Lemma apply_overrides_invariant (P : gmap string value -> Prop)
    (environ : gmap string string) (tbl : list override_entry) :
  (forall e v d, In e tbl -> is_dict v = false -> P d -> P (assign e.1.1.2 e.1.2 v d)) ->
  (forall e, In e tbl -> In e override_table) ->
  forall ov ov' : gmap string value,
    P ov -> apply_overrides environ tbl ov = Ok ov' -> P ov'.
Proof.
  induction tbl as [|[[[var sections] key] coerce] rest IH];
    intros Hstep Htbl ov ov' HP Hrun; simpl in Hrun.
  - injection Hrun as <-. exact HP.
  - apply bind_Ok in Hrun as (ov1 & H1 & Hrun).
    assert (Hrest : forall e v d, In e rest -> is_dict v = false -> P d ->
                      P (assign e.1.1.2 e.1.2 v d))
      by (intros e v d He; apply Hstep; right; exact He).
    apply (IH Hrest (fun e He => Htbl e (or_intror He)) ov1 ov'); [|exact Hrun].
    destruct (override_from_cases environ var sections key coerce ov)
      as [[Hskip _]|(s & _ & _ & Hset)].
    + rewrite Hskip in H1. injection H1 as <-. exact HP.
    + rewrite Hset in H1. apply bind_Ok in H1 as (v & Hv & [= <-]).
      apply (Hstep (var, sections, key, coerce) v ov (or_introl eq_refl)); [|exact HP].
      pose proof coerce_table_scalar as Hall. rewrite Forall_forall in Hall.
      exact (Hall _ (proj2 (list_elem_of_In _ _) (Htbl _ (or_introl eq_refl))) s v Hv).
Qed.

Lemma get_env_overrides_shaped (environ : gmap string string)
    (ov : gmap string value) :
  _get_env_overrides environ = Ok ov ->
  forall e, In e override_table -> shaped e.1.1.2 ov.
Proof.
  rewrite get_env_overrides_table. intros Hrun.
  refine (apply_overrides_invariant
            (fun d => forall e, In e override_table -> shaped e.1.1.2 d)
            environ override_table _ (fun e He => He) ∅ ov _ Hrun).
  - intros e v d He _ Hd e' He'. apply shaped_assign; [|exact (Hd e' He')].
    exact (prefix_free_table e e' He He').
  - intros e _. apply shaped_empty.
Qed.

Lemma get_env_overrides_absent (environ : gmap string string)
    (ov : gmap string value) (p : list string) :
  _get_env_overrides environ = Ok ov ->
  p <> [] ->
  forallb (fun e => diverge p (entry_path e)) override_table = true ->
  lookup_path p (VDict ov) = None.
Proof.
  rewrite get_env_overrides_table. intros Hrun Hp Hdiv.
  refine (apply_overrides_invariant
            (fun d => lookup_path p (VDict d) = None)
            environ override_table _ (fun e He => He) ∅ ov _ Hrun).
  - intros e v d He _ Hd. apply assign_other_None; [|exact Hd].
    rewrite forallb_forall in Hdiv. exact (Hdiv e He).
  - destruct p as [|a p']; [congruence|]. simpl. rewrite lookup_empty. reflexivity.
Qed.

(** X7. The overrides have no key besides [server], [cache] and [apis],
    hold a mapping at each of them, and inside [apis] have no service
    besides [open_library] and [wikipedia]: the environment reaches no
    other section. *)
Theorem get_env_overrides_reach (environ : gmap string string)
    (ov : gmap string value) :
  _get_env_overrides environ = Ok ov ->
  (forall k, is_Some (ov !! k) -> In k ["server"; "cache"; "apis"])
  /\ (forall k v, In k ["server"; "cache"; "apis"] -> ov !! k = Some v ->
        is_dict v = true)
  /\ (forall svc, is_Some (section_of ov "apis" !! svc) ->
        In svc ["open_library"; "wikipedia"]).
Proof.
  intros Hrun. split; [|split].
  - intros k [v Hk].
    destruct (decide (In k ["server"; "cache"; "apis"])) as [Hin|Hnot]; [exact Hin|].
    exfalso.
    assert (Hnone : lookup_path [k] (VDict ov) = None).
    { apply (get_env_overrides_absent environ ov [k] Hrun); [discriminate|].
      unfold override_table, entry_path. simpl.
      repeat (destruct (decide _) as [->|_];
              [exfalso; apply Hnot; simpl; tauto|]).
      reflexivity. }
    simpl in Hnone. rewrite Hk in Hnone. discriminate.
  - intros k v Hin Hk.
    assert (Hsh : shaped [k] ov).
    { in_fields Hin.
      - exact (get_env_overrides_shaped environ ov Hrun
                 ("OPENEDU_MCP_HOST", ["server"], "host", coerce_str)
                 ltac:(simpl; tauto)).
      - exact (get_env_overrides_shaped environ ov Hrun
                 ("OPENEDU_MCP_CACHE_PATH", ["cache"], "database_path", coerce_str)
                 ltac:(simpl; tauto)).
      - pose proof (get_env_overrides_shaped environ ov Hrun
                 ("OPENEDU_MCP_WIKIPEDIA_RATE_LIMIT", ["apis"; "wikipedia"],
                  "rate_limit", coerce_int) ltac:(simpl; tauto)) as H.
        simpl in *. destruct (ov !! "apis") as [[]|]; tauto. }
    simpl in Hsh. rewrite Hk in Hsh. destruct v; try contradiction. reflexivity.
  - intros svc [v Hsvc].
    destruct (decide (In svc ["open_library"; "wikipedia"])) as [Hin|Hnot];
      [exact Hin|].
    exfalso.
    assert (Hnone : lookup_path ["apis"; svc] (VDict ov) = None).
    { apply (get_env_overrides_absent environ ov ["apis"; svc] Hrun); [discriminate|].
      unfold override_table, entry_path. simpl.
      repeat (destruct (decide _) as [->|_];
              [exfalso; apply Hnot; simpl; tauto|]).
      reflexivity. }
    simpl in Hnone. unfold section_of in Hsvc.
    destruct (ov !! "apis") as [[| | | | | |a]|]; simpl in *;
      try (rewrite lookup_empty in Hsvc; discriminate).
    rewrite Hsvc in Hnone. discriminate.
Qed.

Lemma get_env_overrides_reach_witness :
  _get_env_overrides {[ "OPENEDU_MCP_HOST" := "0.0.0.0" ]}
  = Ok {[ "server" := VDict {[ "host" := VStr "0.0.0.0" ]} ]}
  /\ (forall k, is_Some (({[ "server" := VDict {[ "host" := VStr "0.0.0.0" ]} ]}
                          : gmap string value) !! k) ->
                In k ["server"; "cache"; "apis"]).
Proof.
  assert (H : _get_env_overrides {[ "OPENEDU_MCP_HOST" := "0.0.0.0" ]}
              = Ok {[ "server" := VDict {[ "host" := VStr "0.0.0.0" ]} ]})
    by (vm_compute; reflexivity).
  split; [exact H|].
  exact (proj1 (get_env_overrides_reach _ _ H)).
Defined.

(** ** The exceptions of [from_dict] *)

Lemma value_get_Raise (d : gmap string value) (s k : string) (dflt : value) (x : exn) :
  value_get (dict_get d s (VDict ∅)) k dflt = Raise x ->
  x = AttributeError /\ exists v, d !! s = Some v /\ is_dict v = false.
Proof.
  unfold dict_get. destruct (d !! s) as [[]|]; simpl; try discriminate;
    intros [= <-]; split; eauto.
Qed.

Lemma spread_Raise (fields : list string) (v : value) (x : exn) :
  spread fields v = Raise x -> x = TypeError.
Proof.
  unfold spread. destruct v; try (intros [= <-]; reflexivity).
  case_bool_decide; [discriminate | intros [= <-]; reflexivity].
Qed.

Lemma new_APIConfig_Raise (v : value) (x : exn) :
  new_APIConfig v = Raise x -> x = TypeError.
Proof.
  unfold new_APIConfig.
  destruct (spread APIConfig_fields v) as [kw|] eqn:Hs; simpl;
    [|intros [= <-]; exact (spread_Raise _ _ _ Hs)].
  unfold required.
  destruct (kw !! "base_url"); simpl; [|intros [= <-]; reflexivity].
  destruct (kw !! "rate_limit"); simpl; [|intros [= <-]; reflexivity].
  destruct (kw !! "timeout"); simpl; [|intros [= <-]; reflexivity].
  discriminate.
Qed.

(** X8. [from_dict] raises nothing but [TypeError] and [AttributeError],
    and [AttributeError] for one reason only: [apis] or [education] is
    present and is not a mapping, so that [get] is called on something
    that has none.  Every other mapping that is rejected is rejected with
    a [TypeError] of a constructor. *)
Theorem from_dict_exceptions (d : gmap string value) (x : exn) :
  from_dict d = Raise x ->
  x = TypeError
  \/ (x = AttributeError
      /\ exists s v, In s ["apis"; "education"] /\ d !! s = Some v /\ is_dict v = false).
Proof.
  unfold from_dict, new_ServerConfig, new_CacheConfig, new_ContentFilters,
    new_LoggingConfig, new_MonitoringConfig.
  repeat match goal with
  | |- context [spread ?fs ?v] =>
      let E := fresh "E" in
      destruct (spread fs v) eqn:E; simpl;
      [|intros [= <-]; left; exact (spread_Raise _ _ _ E)]
  | |- context [value_get (dict_get d ?s (VDict ∅)) ?k ?dflt] =>
      let E := fresh "E" in
      destruct (value_get (dict_get d s (VDict ∅)) k dflt) eqn:E; simpl;
      [|intros [= <-]; right;
        destruct (value_get_Raise _ _ _ _ _ E) as (-> & v & Hv & Hd);
        split; [reflexivity|]; exists s, v; simpl; tauto]
  | |- context [new_APIConfig ?v] =>
      let E := fresh "E" in
      destruct (new_APIConfig v) eqn:E; simpl;
      [|intros [= <-]; left; exact (new_APIConfig_Raise _ _ E)]
  end.
  discriminate.
Qed.

Lemma from_dict_exceptions_witness :
  TypeError = TypeError
  \/ (TypeError = AttributeError
      /\ exists s v, In s ["apis"; "education"]
                     /\ bogus_server !! s = Some v /\ is_dict v = false).
Proof.
  apply (from_dict_exceptions bogus_server TypeError).
  vm_compute. reflexivity.
Defined.

(** ** [load_config] and the file *)

Lemma read_no_data (w : World) (config_file : option string) :
  match config_file with
  | Some p => files w !! p = None
  | None => True
  end ->
  read_config_data w config_file = Ok (VDict ∅).
Proof.
  unfold read_config_data. destruct config_file as [p|]; [|reflexivity].
  intros ->. reflexivity.
Qed.

Lemma load_config_from_mapping (w : World) (config_path : option string)
    (base : gmap string value) :
  read_config_data w (resolve_config_file w config_path) = Ok (VDict base) ->
  load_config w config_path
  = ov ← _get_env_overrides (environ w); from_dict (_merge_configs base ov).
Proof.
  unfold load_config. intros ->. simpl.
  destruct (_get_env_overrides (environ w)); reflexivity.
Qed.

(** X9. A [config_path] that is given and does not exist is not replaced
    by one of the default locations: the configuration is built from the
    environment overrides alone, whatever files exist elsewhere. *)
Theorem load_config_explicit_missing (w : World) (p : string) :
  p <> "" -> files w !! p = None ->
  load_config w (Some p) = _get_env_overrides (environ w) ≫= from_dict.
Proof.
  intros Hp Hfile.
  rewrite (load_config_from_mapping w (Some p) ∅).
  - destruct (_get_env_overrides (environ w)) as [ov|]; simpl; [|reflexivity].
    rewrite merge_configs_empty_l. reflexivity.
  - unfold resolve_config_file. rewrite (proj2 (truthy_str p) Hp).
    apply read_no_data. exact Hfile.
Qed.

Lemma load_config_explicit_missing_witness :
  load_config (world_of ∅ (Document (VDict full_mapping))) (Some "missing.yaml")
  = _get_env_overrides ∅ ≫= from_dict.
Proof.
  apply (load_config_explicit_missing
           (world_of ∅ (Document (VDict full_mapping))) "missing.yaml").
  - discriminate.
  - vm_compute. reflexivity.
Defined.

Lemma new_ServerConfig_Raise (v : value) (x : exn) :
  new_ServerConfig v = Raise x -> x = TypeError.
Proof.
  unfold new_ServerConfig.
  destruct (spread ServerConfig_fields v) eqn:E; simpl; [discriminate|].
  intros [= <-]. exact (spread_Raise _ _ _ E).
Qed.

Lemma new_CacheConfig_Raise (v : value) (x : exn) :
  new_CacheConfig v = Raise x -> x = TypeError.
Proof.
  unfold new_CacheConfig.
  destruct (spread CacheConfig_fields v) eqn:E; simpl; [discriminate|].
  intros [= <-]. exact (spread_Raise _ _ _ E).
Qed.

(** The overrides alone are never a configuration: they do not give the
    [dictionary] service. *)
Lemma from_dict_overrides_raise (environ : gmap string string)
    (ov : gmap string value) :
  _get_env_overrides environ = Ok ov -> from_dict ov = Raise TypeError.
Proof.
  intros Hrun.
  assert (Hnone : lookup_path ["apis"; "dictionary"] (VDict ov) = None).
  { apply (get_env_overrides_absent environ ov _ Hrun); [discriminate|].
    reflexivity. }
  pose proof (get_env_overrides_shaped environ ov Hrun
                ("OPENEDU_MCP_WIKIPEDIA_RATE_LIMIT", ["apis"; "wikipedia"],
                 "rate_limit", coerce_int) ltac:(simpl; tauto)) as Hsh.
  assert (Ha : exists a, dict_get ov "apis" (VDict ∅) = VDict a
                         /\ a !! "dictionary" = None).
  { unfold dict_get. simpl in Hsh, Hnone.
    destruct (ov !! "apis") as [[| | | | | |a]|]; simpl in *; try contradiction.
    - exists a. split; [reflexivity|].
      destruct (a !! "dictionary"); [discriminate | reflexivity].
    - exists ∅. split; [reflexivity | apply lookup_empty]. }
  destruct Ha as (a & Ha & Hd).
  unfold from_dict. rewrite Ha.
  destruct (new_ServerConfig _) eqn:Es; simpl;
    [|f_equal; exact (new_ServerConfig_Raise _ _ Es)].
  destruct (new_CacheConfig _) eqn:Ec; simpl;
    [|f_equal; exact (new_CacheConfig_Raise _ _ Ec)].
  destruct (new_APIConfig (dict_get a "open_library" (VDict ∅))) eqn:E1; simpl;
    [|f_equal; exact (new_APIConfig_Raise _ _ E1)].
  destruct (new_APIConfig (dict_get a "wikipedia" (VDict ∅))) eqn:E2; simpl;
    [|f_equal; exact (new_APIConfig_Raise _ _ E2)].
  assert (Hdd : dict_get a "dictionary" (VDict ∅) = VDict ∅)
    by (unfold dict_get; rewrite Hd; reflexivity).
  rewrite Hdd. reflexivity.
Qed.

(** X10. Without a mapping from a file (no file is found, the given path
    does not exist, or the document is empty) [load_config] never returns
    a configuration, whatever the environment: it raises [ValueError]
    when an integer variable cannot be coerced and [TypeError] otherwise,
    because the overrides never give the services of [apis] in full. *)
Theorem load_config_needs_file (w : World) (config_path : option string) :
  read_config_data w (resolve_config_file w config_path) = Ok (VDict ∅) ->
  load_config w config_path = Raise TypeError
  \/ load_config w config_path = Raise ValueError.
Proof.
  intros Hread. rewrite (load_config_from_mapping w config_path ∅ Hread).
  destruct (_get_env_overrides (environ w)) as [ov|x] eqn:Henv; simpl.
  - left. rewrite merge_configs_empty_l.
    exact (from_dict_overrides_raise (environ w) ov Henv).
  - right. f_equal. rewrite get_env_overrides_table in Henv.
    exact (apply_overrides_exn (environ w) x override_table ∅ coerce_table_exn Henv).
Qed.

Lemma load_config_needs_file_witness :
  load_config {| environ := {[ "OPENEDU_MCP_OPEN_LIBRARY_RATE_LIMIT" := "50" ]};
                 files := ∅ |} None = Raise TypeError
  \/ load_config {| environ := {[ "OPENEDU_MCP_OPEN_LIBRARY_RATE_LIMIT" := "50" ]};
                    files := ∅ |} None = Raise ValueError.
Proof.
  apply load_config_needs_file. vm_compute. reflexivity.
Defined.

Lemma apply_overrides_same_vars (env1 env2 : gmap string string)
    (tbl : list override_entry) :
  (forall e, In e tbl -> env1 !! entry_var e = env2 !! entry_var e) ->
  forall ov, apply_overrides env1 tbl ov = apply_overrides env2 tbl ov.
Proof.
  induction tbl as [|[[[var sections] key] coerce] rest IH]; intros Hvars ov;
    [reflexivity|].
  simpl. unfold override_from.
  pose proof (Hvars (var, sections, key, coerce) (or_introl eq_refl)) as Hv.
  unfold entry_var in Hv. simpl in Hv. rewrite <- Hv.
  destruct (env1 !! var) as [s|]; simpl.
  - destruct (negb (String.eqb s "")); simpl.
    + destruct (coerce s); simpl; [|reflexivity].
      apply IH. intros e He. apply Hvars. right. exact He.
    + apply IH. intros e He. apply Hvars. right. exact He.
  - apply IH. intros e He. apply Hvars. right. exact He.
Qed.

Lemma find_ext {A} (f g : A -> bool) (l : list A) :
  (forall x, f x = g x) -> find f l = find g l.
Proof.
  intros Hfg. induction l as [|x l IH]; simpl; [reflexivity|].
  rewrite Hfg, IH. reflexivity.
Qed.

(** X11. When [config/default.yaml] or [config/development.yaml] exists,
    the variable [OPENEDU_MCP_CONFIG_PATH] has no effect on
    [load_config()]: the path it names comes last among the candidates
    and the first candidate that exists is read. *)
Theorem config_path_var_ignored (w : World) (q : string) :
  path_exists w "config/default.yaml" = true
  \/ path_exists w "config/development.yaml" = true ->
  load_config {| environ := <["OPENEDU_MCP_CONFIG_PATH" := q]> (environ w);
                 files := files w |} None
  = load_config w None.
Proof.
  intros Hex. unfold load_config.
  assert (Hres : resolve_config_file
                   {| environ := <["OPENEDU_MCP_CONFIG_PATH" := q]> (environ w);
                      files := files w |} None
                 = resolve_config_file w None).
  { unfold resolve_config_file.
    change (path_exists {| environ := <["OPENEDU_MCP_CONFIG_PATH" := q]> (environ w);
                           files := files w |})
      with (path_exists w).
    cbn [find].
    destruct (path_exists w "config/default.yaml"); [reflexivity|].
    destruct (path_exists w "config/development.yaml"); [reflexivity|].
    destruct Hex; discriminate. }
  rewrite Hres.
  assert (Henv : _get_env_overrides (<["OPENEDU_MCP_CONFIG_PATH" := q]> (environ w))
                 = _get_env_overrides (environ w)).
  { rewrite !get_env_overrides_table. apply apply_overrides_same_vars.
    intros e He. apply lookup_insert_ne. unfold entry_var.
    in_fields He; discriminate. }
  cbn [environ]. rewrite Henv. reflexivity.
Qed.

Lemma config_path_var_ignored_witness :
  load_config {| environ := <["OPENEDU_MCP_CONFIG_PATH" := "elsewhere.yaml"]>
                              (environ (two_files ∅));
                 files := files (two_files ∅) |} None
  = load_config (two_files ∅) None.
Proof.
  apply (config_path_var_ignored (two_files ∅) "elsewhere.yaml").
  left. vm_compute. reflexivity.
Defined.

(** X12. A document whose value is false in a condition ([null], [false],
    [0], an empty string, list or mapping) is read as the empty mapping:
    the outcome of [load_config] is the one it has when the file holds
    [{}]. *)
Theorem load_config_falsy_document (w : World) (config_path : option string)
    (p : string) (v : value) :
  files w !! p = Some (Document v) ->
  truthy v = false ->
  load_config w config_path
  = load_config {| environ := environ w;
                   files := <[p := Document (VDict ∅)]> (files w) |} config_path.
Proof.
  intros Hfile Hv. unfold load_config.
  assert (Hex : forall q,
            path_exists {| environ := environ w;
                           files := <[p := Document (VDict ∅)]> (files w) |} q
            = path_exists w q).
  { intros q. unfold path_exists. cbn [files].
    destruct (decide (p = q)) as [<-|Hne].
    - rewrite lookup_insert_eq, Hfile.
      rewrite !bool_decide_eq_true_2 by eauto. reflexivity.
    - rewrite lookup_insert_ne by assumption. reflexivity. }
  assert (Hres : resolve_config_file
                   {| environ := environ w;
                      files := <[p := Document (VDict ∅)]> (files w) |} config_path
                 = resolve_config_file w config_path).
  { unfold resolve_config_file. cbn [environ].
    rewrite (find_ext _ _ _ Hex). reflexivity. }
  rewrite Hres. cbn [environ].
  assert (Hread : read_config_data
                    {| environ := environ w;
                       files := <[p := Document (VDict ∅)]> (files w) |}
                    (resolve_config_file w config_path)
                  = read_config_data w (resolve_config_file w config_path)).
  { unfold read_config_data. cbn [files].
    destruct (resolve_config_file w config_path) as [q|]; [|reflexivity].
    destruct (decide (p = q)) as [<-|Hne].
    - rewrite lookup_insert_eq, Hfile, Hv. reflexivity.
    - rewrite lookup_insert_ne by assumption. reflexivity. }
  rewrite Hread. reflexivity.
Qed.

Lemma load_config_falsy_document_witness :
  load_config (world_of ∅ (Document VNone)) None
  = load_config {| environ := ∅;
                   files := <["config/default.yaml" := Document (VDict ∅)]>
                              (files (world_of ∅ (Document VNone))) |} None.
Proof.
  apply (load_config_falsy_document (world_of ∅ (Document VNone)) None
           "config/default.yaml" VNone).
  - vm_compute. reflexivity.
  - reflexivity.
Defined.

(** X13. A document that is not a mapping and is not false in a condition
    (a list with elements, a string, a number) makes [load_config] raise:
    no configuration is returned.  The exception is the [ValueError] of a
    variable that cannot be coerced, or the [TypeError] or
    [AttributeError] of using the value as a mapping. *)
Theorem load_config_not_a_mapping (w : World) (config_path : option string)
    (p : string) (v : value) :
  resolve_config_file w config_path = Some p ->
  files w !! p = Some (Document v) ->
  truthy v = true -> is_dict v = false ->
  exists x, load_config w config_path = Raise x
            /\ (x = ValueError \/ x = TypeError \/ x = AttributeError).
Proof.
  intros Hres Hfile Ht Hd. unfold load_config, read_config_data.
  rewrite Hres, Hfile, Ht. simpl.
  destruct (_get_env_overrides (environ w)) as [ov|x] eqn:Henv; simpl.
  - destruct v as [| | | | |l|m]; simpl; try discriminate; eauto 6.
    destruct (decide (ov = ∅)); simpl; eauto 6.
  - exists x. split; [reflexivity|]. left.
    rewrite get_env_overrides_table in Henv.
    exact (apply_overrides_exn (environ w) x override_table ∅ coerce_table_exn Henv).
Qed.

Lemma load_config_not_a_mapping_witness :
  exists x, load_config (world_of ∅ (Document (VList [VStr "server"]))) None = Raise x
            /\ (x = ValueError \/ x = TypeError \/ x = AttributeError).
Proof.
  apply (load_config_not_a_mapping
           (world_of ∅ (Document (VList [VStr "server"]))) None
           "config/default.yaml" (VList [VStr "server"]));
    vm_compute; reflexivity.
Defined.

Lemma apply_overrides_skipped (environ : gmap string string)
    (tbl : list override_entry) :
  forall ov : gmap string value,
    Forall (fun e => environ !! entry_var e = None
                     \/ environ !! entry_var e = Some "") tbl ->
    apply_overrides environ tbl ov = Ok ov.
Proof.
  induction tbl as [|[[[var sections] key] coerce] rest IH]; intros ov Hall;
    [reflexivity|].
  apply Forall_cons in Hall as [Hhead Hall]. simpl.
  unfold override_from. unfold entry_var in Hhead. simpl in Hhead.
  destruct Hhead as [-> | ->]; simpl; apply IH; exact Hall.
Qed.

(** X14. When none of the nine variables is set to a value that is not
    empty, [load_config] is [from_dict] of what the file holds: the
    environment adds nothing and the merge changes nothing. *)
Theorem load_config_no_overrides (w : World) (config_path : option string) :
  Forall (fun var => environ w !! var = None \/ environ w !! var = Some "")
         override_vars ->
  load_config w config_path
  = read_config_data w (resolve_config_file w config_path) ≫= from_loaded.
Proof.
  intros Hvars. unfold load_config.
  assert (Henv : _get_env_overrides (environ w) = Ok ∅).
  { rewrite get_env_overrides_table. apply apply_overrides_skipped.
    unfold override_table, entry_var. simpl.
    repeat (apply Forall_cons in Hvars as [? Hvars]).
    repeat (apply List.Forall_cons; [assumption|]). apply List.Forall_nil. }
  rewrite Henv.
  destruct (read_config_data w (resolve_config_file w config_path)) as [data|x];
    simpl; [|reflexivity].
  destruct data; simpl; rewrite ?merge_configs_empty_r; reflexivity.
Qed.

Lemma load_config_no_overrides_witness :
  load_config (world_of {[ "OPENEDU_MCP_PORT" := "" ]} (Document (VDict port_9000))) None
  = read_config_data
      (world_of {[ "OPENEDU_MCP_PORT" := "" ]} (Document (VDict port_9000)))
      (resolve_config_file
         (world_of {[ "OPENEDU_MCP_PORT" := "" ]} (Document (VDict port_9000))) None)
    ≫= from_loaded.
Proof.
  apply load_config_no_overrides.
  repeat (apply List.Forall_cons; [vm_compute; auto|]). apply List.Forall_nil.
Defined.

(** ** What the environment cannot reach *)

Lemma merge_overrides_top (environ : gmap string string)
    (base ov : gmap string value) (k : string) (dflt : value) :
  _get_env_overrides environ = Ok ov ->
  ~ In k ["server"; "cache"; "apis"] ->
  dict_get (_merge_configs base ov) k dflt = dict_get base k dflt.
Proof.
  intros Hrun Hk. unfold dict_get. rewrite merge_configs_lookup.
  assert (Hnone : lookup_path [k] (VDict ov) = None).
  { apply (get_env_overrides_absent environ ov [k] Hrun); [discriminate|].
    unfold override_table, entry_path. simpl.
    repeat (destruct (decide _) as [->|_];
            [exfalso; apply Hk; simpl; tauto|]).
    reflexivity. }
  simpl in Hnone. destruct (ov !! k); [discriminate | reflexivity].
Qed.

Lemma merge_overrides_service (environ : gmap string string)
    (base ov a : gmap string value) (svc : string) :
  _get_env_overrides environ = Ok ov ->
  base !! "apis" = Some (VDict a) ->
  ~ In svc ["open_library"; "wikipedia"] ->
  exists a', dict_get (_merge_configs base ov) "apis" (VDict ∅) = VDict a'
             /\ a' !! svc = a !! svc.
Proof.
  intros Hrun Ha Hsvc. unfold dict_get. rewrite merge_configs_lookup, Ha.
  assert (Hnone : lookup_path ["apis"; svc] (VDict ov) = None).
  { apply (get_env_overrides_absent environ ov _ Hrun); [discriminate|].
    unfold override_table, entry_path. simpl.
    repeat (destruct (decide _) as [->|_];
            [exfalso; apply Hsvc; simpl; tauto|]).
    reflexivity. }
  pose proof (get_env_overrides_shaped environ ov Hrun
                ("OPENEDU_MCP_WIKIPEDIA_RATE_LIMIT", ["apis"; "wikipedia"],
                 "rate_limit", coerce_int) ltac:(simpl; tauto)) as Hsh.
  simpl in Hnone, Hsh.
  destruct (ov !! "apis") as [[| | | | | |oa]|]; simpl in Hnone, Hsh;
    try contradiction.
  - rewrite merge_item_dict. eexists. split; [reflexivity|].
    rewrite merge_configs_lookup.
    destruct (oa !! svc); [discriminate | reflexivity].
  - eauto.
Qed.

(** X15. The environment does not reach [education], [logging],
    [monitoring] or the services [dictionary] and [arxiv]: when the file
    holds a mapping that [from_dict] accepts on its own, these parts of
    the configuration that [load_config] returns are the parts that
    [from_dict] builds from the file, whatever the variables are. *)
Theorem load_config_sections_from_file (w : World) (config_path : option string)
    (base : gmap string value) (c c0 : Config) :
  load_config w config_path = Ok c ->
  read_config_data w (resolve_config_file w config_path) = Ok (VDict base) ->
  from_dict base = Ok c0 ->
  education c = education c0
  /\ logging c = logging c0
  /\ monitoring c = monitoring c0
  /\ dictionary (apis c) = dictionary (apis c0)
  /\ arxiv (apis c) = arxiv (apis c0).
Proof.
  intros Hload Hread Hc0.
  apply load_config_Ok in Hload as (base' & ov & Hread' & Henv & Hc).
  rewrite Hread in Hread'. injection Hread' as <-.
  apply from_dict_Ok in Hc
    as (_ & _ & _ & _ & Ha3 & Ha4 & Hg & Hcs & Hsb & Hcf & Hl & Hm).
  apply from_dict_Ok in Hc0
    as (_ & _ & _ & _ & Hb3 & Hb4 & Hg0 & Hcs0 & Hsb0 & Hcf0 & Hl0 & Hm0).
  rewrite (merge_overrides_top (environ w) base ov "education" _ Henv)
    in Hg, Hcs, Hsb, Hcf by (simpl; intuition discriminate).
  rewrite (merge_overrides_top (environ w) base ov "logging" _ Henv)
    in Hl by (simpl; intuition discriminate).
  rewrite (merge_overrides_top (environ w) base ov "monitoring" _ Henv)
    in Hm by (simpl; intuition discriminate).
  assert (Hbase : exists a, base !! "apis" = Some (VDict a)).
  { unfold dict_get in Hb3.
    destruct (base !! "apis") as [[| | | | | |a]|]; try discriminate; eauto. }
  destruct Hbase as [a Hbase].
  rewrite (dict_get_Some _ _ _ _ Hbase) in Hb3, Hb4. simpl in Hb3, Hb4.
  destruct (merge_overrides_service (environ w) base ov a "dictionary" Henv Hbase)
    as (a3 & Hd3 & E3); [simpl; intuition discriminate|].
  destruct (merge_overrides_service (environ w) base ov a "arxiv" Henv Hbase)
    as (a4 & Hd4 & E4); [simpl; intuition discriminate|].
  rewrite Hd3 in Ha3. rewrite Hd4 in Ha4. simpl in Ha3, Ha4.
  unfold dict_get in Ha3, Ha4, Hb3, Hb4. rewrite E3 in Ha3. rewrite E4 in Ha4.
  repeat split; try congruence.
  destruct (education c) as [g1 cs1 sb1 cf1], (education c0) as [g2 cs2 sb2 cf2].
  simpl in *. congruence.
Qed.

Lemma load_config_sections_from_file_witness :
  education (apis_only_Config (server_with 7000 true))
  = education (apis_only_Config (server_with 9000 true)).
Proof.
  apply (load_config_sections_from_file
           (world_of {[ "OPENEDU_MCP_PORT" := "7000" ]} (Document (VDict port_9000)))
           None port_9000
           (apis_only_Config (server_with 7000 true))
           (apis_only_Config (server_with 9000 true)));
    vm_compute; reflexivity.
Defined.

(** ** When the overrides can be computed *)

Lemma apply_overrides_Ok (environ : gmap string string) (tbl : list override_entry) :
  (forall e s, In e tbl -> environ !! entry_var e = Some s -> s <> "" ->
               exists v, entry_coerce e s = Ok v) ->
  forall ov, exists ov', apply_overrides environ tbl ov = Ok ov'.
Proof.
  induction tbl as [|[[[var sections] key] coerce] rest IH]; intros Hall ov;
    [simpl; eauto|].
  simpl.
  destruct (override_from_cases environ var sections key coerce ov)
    as [[Hskip _]|(s & Hs & Hne & Hset)].
  - rewrite Hskip. simpl. apply IH. intros e s He. apply Hall. right. exact He.
  - rewrite Hset.
    destruct (Hall (var, sections, key, coerce) s (or_introl eq_refl) Hs Hne)
      as [v Hv].
    unfold entry_coerce in Hv. simpl in Hv. rewrite Hv. simpl.
    apply IH. intros e s' He. apply Hall. right. exact He.
Qed.

(** X16. [_get_env_overrides] returns exactly when [int] accepts every
    integer variable that is set to a value that is not empty (a literal
    of decimal digits of any script, with a sign, single underscores and
    white space around it, of at most 4300 digits): the string and
    boolean variables never make it raise, whatever they hold. *)
Theorem get_env_overrides_returns (environ : gmap string string) :
  (exists ov, _get_env_overrides environ = Ok ov)
  <-> (forall var s, In var int_vars -> environ !! var = Some s -> s <> "" ->
         is_Some (py_int s)).
Proof.
  split.
  - intros [ov Hov] var s Hin Hs Hne.
    destruct (py_int s) as [n|] eqn:Hint; [eauto|].
    rewrite (get_env_overrides_bad_int environ var s Hin Hs Hne Hint) in Hov.
    discriminate.
  - intros Hint. rewrite get_env_overrides_table. apply apply_overrides_Ok.
    intros e s He Hs Hne. unfold entry_var, entry_coerce in *.
    in_fields He; simpl in *; unfold coerce_str, coerce_bool, coerce_int; eauto;
      match goal with
      | H : environ !! ?var = Some s |- _ =>
          destruct (Hint var s ltac:(simpl; tauto) H Hne) as [n ->]; eauto
      end.
Qed.

Lemma get_env_overrides_returns_witness :
  exists ov, _get_env_overrides
               {[ "OPENEDU_MCP_DEBUG" := "maybe";
                  "OPENEDU_MCP_PORT" := utf8 [217; 163; 239; 188; 144] ]} = Ok ov.
Proof.
  apply (proj2 (get_env_overrides_returns _)).
  intros var s Hin Hs Hne. simpl in Hin.
  destruct Hin as [<-|[<-|[<-|[<-|[<-|[]]]]]]; vm_compute in Hs;
    try discriminate Hs.
  injection Hs as <-. vm_compute. eauto.
Defined.

(** ** What the merged dict shares with its arguments *)

Module HeapSharing.
Import Heap HeapFacts.

#[local] Arguments dict_of : simpl never.

Lemma closedb_closed (h : heap) : closedb h = true -> closed h.
Proof.
  unfold closedb, closed. intros Hall l items k l' Hl Hk.
  rewrite forallb_forall in Hall.
  specialize (Hall (ODict items)
                (proj1 (list_elem_of_In _ _) (list_elem_of_lookup_2 _ _ _ Hl))).
  simpl in Hall. rewrite forallb_forall in Hall.
  specialize (Hall (k, RObj l')
                (proj1 (list_elem_of_In _ _)
                   (proj2 (elem_of_map_to_list _ _ _) Hk))).
  simpl in Hall. apply Nat.ltb_lt in Hall. exact Hall.
Qed.

Lemma dict_of_Some (h : heap) (r : ref) (items : gmap string ref) :
  dict_of h r = Some items -> exists l, r = RObj l /\ h !! l = Some (ODict items).
Proof.
  unfold dict_of. destruct r; try discriminate.
  destruct (h !! l) as [[]|] eqn:E; try discriminate.
  intros [= <-]. eauto.
Qed.

Lemma is_dict_ref_prefix (h hc : heap) (x : ref) :
  h `prefix_of` hc ->
  (forall l, x = RObj l -> l < length h) ->
  is_dict_ref hc x = is_dict_ref h x.
Proof.
  intros Hp Hx. unfold is_dict_ref, dict_of. destruct x; try reflexivity.
  specialize (Hx l eq_refl).
  destruct (lookup_lt_is_Some_2 h l Hx) as [o Ho].
  rewrite Ho, (prefix_lookup_Some _ _ _ _ Ho Hp). reflexivity.
Qed.

(** X18. The copy that the merge returns is shallow.  In a store without
    dangling references, the result is a new dict; at a key that
    [override] does not have it holds the very reference that [base]
    holds, and at a key of [override] where [base] and [override] do not
    both hold a dict it holds the very reference that [override] holds:
    nested lists and dicts are shared with the arguments, not copied. *)
Theorem merge_configs_shares (fuel : nat) (h : heap) (base override : ref)
    (h' : heap) (r : ref) (bitems oitems : gmap string ref) :
  closed h ->
  Heap.merge_configs fuel h base override = Some (h', r) ->
  dict_of h base = Some bitems ->
  dict_of h override = Some oitems ->
  r = RObj (length h)
  /\ exists ritems,
       dict_of h' r = Some ritems
       /\ (forall k, oitems !! k = None -> ritems !! k = bitems !! k)
       /\ (forall k val, oitems !! k = Some val ->
             both_dicts h (bitems !! k) val = false ->
             ritems !! k = Some val).
Proof.
  intros Hclosed Hrun Hb Ho.
  destruct fuel as [|fuel]; [discriminate|]. simpl in Hrun.
  rewrite Hb, Ho in Hrun. simpl in Hrun.
  apply bind_Some in Hrun as (hf & Hloop & [= <- <-]).
  split; [reflexivity|].
  destruct (dict_of_Some _ _ _ Hb) as (lb & -> & Hlb).
  destruct (dict_of_Some _ _ _ Ho) as (lo & -> & Hlo).
  assert (Hinv : forall m acc,
            acc = map_fold (merge_step (Heap.merge_configs fuel) (length h))
                           (Some (h ++ [ODict bitems])%list) m ->
            forall hc, acc = Some hc -> m ⊆ oitems ->
            h `prefix_of` hc
            /\ exists ritems,
                 hc !! length h = Some (ODict ritems)
                 /\ (forall k, m !! k = None -> ritems !! k = bitems !! k)
                 /\ (forall k val, m !! k = Some val ->
                       both_dicts h (bitems !! k) val = false ->
                       ritems !! k = Some val)).
  { intros m acc ->.
    apply (map_fold_weak_ind
             (fun acc m =>
                forall hc, acc = Some hc -> m ⊆ oitems ->
                h `prefix_of` hc
                /\ exists ritems,
                     hc !! length h = Some (ODict ritems)
                     /\ (forall k, m !! k = None -> ritems !! k = bitems !! k)
                     /\ (forall k val, m !! k = Some val ->
                           both_dicts h (bitems !! k) val = false ->
                           ritems !! k = Some val))).
    - intros hc [= <-] _. split; [apply prefix_app_r; reflexivity|].
      exists bitems. split; [apply list_lookup_middle; reflexivity|].
      split; [reflexivity|]. intros k val Hk. rewrite lookup_empty in Hk.
      discriminate.
    - clear m. intros i x m acc Hi IHm hn Hstep Hsub.
      assert (Hm : m ⊆ oitems).
      { etrans; [|exact Hsub]. apply insert_subseteq. exact Hi. }
      assert (Hix : oitems !! i = Some x).
      { apply (lookup_weaken _ _ _ _ (lookup_insert_eq m i x) Hsub). }
      unfold merge_step in Hstep.
      apply bind_Some in Hstep as (hc & -> & Hstep).
      apply bind_Some in Hstep as (ritems0 & Hres0 & Hstep).
      destruct (IHm hc eq_refl Hm) as (Hh & ritems & Hres & Hrest & Hdone).
      apply dict_of_Some in Hres0 as (l0 & [= <-] & Hres0).
      rewrite Hres in Hres0. injection Hres0 as <-.
      rewrite (Hrest i Hi) in Hstep.
      assert (Hx : is_dict_ref hc x = is_dict_ref h x).
      { apply is_dict_ref_prefix; [exact Hh|]. intros l ->.
        exact (Hclosed _ _ _ _ Hlo Hix). }
      assert (Hnew : forall h2 r',
                hc `prefix_of` h2 ->
                (both_dicts h (bitems !! i) x = false -> r' = x) ->
                h `prefix_of` setitem h2 (length h) i r'
                /\ exists ritems',
                     setitem h2 (length h) i r' !! length h = Some (ODict ritems')
                     /\ (forall k, <[i := x]> m !! k = None ->
                           ritems' !! k = bitems !! k)
                     /\ (forall k val, <[i := x]> m !! k = Some val ->
                           both_dicts h (bitems !! k) val = false ->
                           ritems' !! k = Some val)).
      { intros h2 r' Hc2 Hr'.
        destruct (setitem_result h hc h2 ritems i r' Hh Hc2 Hres) as (Hp & Hl & _).
        split; [exact Hp|]. exists (<[i := r']> ritems). split; [exact Hl|]. split.
        - intros k Hk. apply lookup_insert_None in Hk as [Hk Hne].
          rewrite lookup_insert_ne by assumption. exact (Hrest k Hk).
        - intros k val Hk Hcond. destruct (decide (i = k)) as [<-|Hne].
          + rewrite lookup_insert_eq in Hk. injection Hk as <-.
            rewrite lookup_insert_eq, (Hr' Hcond). reflexivity.
          + rewrite lookup_insert_ne in Hk by assumption.
            rewrite lookup_insert_ne by assumption. exact (Hdone k val Hk Hcond). }
      destruct (bitems !! i) as [rv|] eqn:Hrv.
      + assert (Hrvd : is_dict_ref hc rv = is_dict_ref h rv).
        { apply is_dict_ref_prefix; [exact Hh|]. intros l ->.
          exact (Hclosed _ _ _ _ Hlb Hrv). }
        rewrite Hrvd, Hx in Hstep. simpl in Hnew.
        destruct (is_dict_ref h rv && is_dict_ref h x).
        * apply bind_Some in Hstep as ([h2 r2] & Hrec & [= <-]).
          apply Hnew; [exact (merge_configs_frame _ _ _ _ _ _ Hrec) | discriminate].
        * injection Hstep as <-. apply Hnew; [reflexivity | reflexivity]. 
      + injection Hstep as <-. apply Hnew; [reflexivity | reflexivity]. }
  destruct (Hinv oitems _ eq_refl hf Hloop (reflexivity _))
    as (_ & ritems & Hres & Hrest & Hdone).
  exists ritems. split; [unfold dict_of; rewrite Hres; reflexivity|].
  split; [exact Hrest | exact Hdone].
Qed.

Lemma merge_configs_shares_witness :
  exists h' ritems,
    Heap.merge_configs 3 sample_heap (RObj 4) (RObj 8)
    = Some (h', RObj (length sample_heap))
    /\ dict_of h' (RObj (length sample_heap)) = Some ritems
    /\ ritems !! "logging" = Some (RObj 3).
Proof.
  destruct (Heap.merge_configs 3 sample_heap (RObj 4) (RObj 8))
    as [[h' r]|] eqn:Hrun; [|vm_compute in Hrun; discriminate Hrun].
  destruct (merge_configs_shares 3 sample_heap (RObj 4) (RObj 8) h' r
              {[ "server" := RObj 0; "education" := RObj 2; "logging" := RObj 3 ]}
              {[ "server" := RObj 5; "education" := RObj 7 ]}
              (closedb_closed sample_heap ltac:(vm_compute; reflexivity))
              Hrun ltac:(vm_compute; reflexivity) ltac:(vm_compute; reflexivity))
    as (-> & ritems & Hd & Hbase & _).
  exists h', ritems. split; [reflexivity|]. split; [exact Hd|].
  rewrite (Hbase "logging" ltac:(vm_compute; reflexivity)).
  vm_compute. reflexivity.
Defined.

End HeapSharing.

(** ** The environment wins *)

(** X19. When the file holds a mapping that [from_dict] accepts on its own
    and the overrides can be coerced, [load_config] returns a
    configuration in which each of the nine variables that is set to a
    value that is not empty has put its coerced value in its field, at
    whatever depth the field is (two levels for [server] and [cache],
    three for the rate limits of [apis]), in place of what the file
    gives; in particular the port is 7000 when the port variable is
    ["7000"]. *)
Theorem load_config_env_wins (w : World) (config_path : option string)
    (base ov : gmap string value) (c0 : Config) :
  read_config_data w (resolve_config_file w config_path) = Ok (VDict base) ->
  from_dict base = Ok c0 ->
  _get_env_overrides (environ w) = Ok ov ->
  exists c,
    load_config w config_path = Ok c
    /\ (environ w !! "OPENEDU_MCP_PORT" = Some "7000" -> port (server c) = VInt 7000)
    /\ (forall e s,
          In e override_table ->
          environ w !! entry_var e = Some s -> s <> "" ->
          exists v, entry_coerce e s = Ok v
                    /\ lookup_path (entry_path e) (VDict (to_dict c)) = Some v).
Proof.
  intros Hread Hc0 Henv.
  assert (Hret : exists c, load_config w config_path = Ok c).
  { unfold load_config. rewrite Hread, Henv. simpl.
    rewrite get_env_overrides_table in Henv.
    apply (apply_overrides_accepted (environ w) base override_table ∅ ov);
      [auto | | | exact Henv].
    - intros e _. apply shaped_empty.
    - rewrite merge_configs_empty_r. eauto. }
  destruct Hret as [c Hload]. exists c. split; [exact Hload|]. split.
  - intros Hport.
    destruct (load_config_override w config_path c
                ("OPENEDU_MCP_PORT", ["server"], "port", coerce_int) "7000" Hload)
      as (v & Hv & Hc); [simpl; tauto | exact Hport | discriminate |].
    assert (v = VInt 7000) as -> by (vm_compute in Hv; congruence).
    destruct (to_dict_server_fields c) as [Hp _].
    change (entry_path _) with ["server"; "port"] in Hc.
    rewrite Hp in Hc. injection Hc as ->. reflexivity.
  - intros e s. exact (load_config_override w config_path c e s Hload).
Qed.

Lemma load_config_env_wins_witness :
  lookup_path ["server"; "port"] (VDict port_9000) = Some (VInt 9000)
  /\ lookup_path ["apis"; "wikipedia"; "rate_limit"] (VDict port_9000)
     = Some (VInt 200)
  /\ exists c,
       load_config (world_of {[ "OPENEDU_MCP_PORT" := "7000";
                                "OPENEDU_MCP_WIKIPEDIA_RATE_LIMIT" := "20" ]}
                             (Document (VDict port_9000))) None = Ok c
       /\ port (server c) = VInt 7000
       /\ lookup_path ["apis"; "wikipedia"; "rate_limit"] (VDict (to_dict c))
          = Some (VInt 20)
       /\ lookup_path ["apis"; "wikipedia"; "base_url"] (VDict (to_dict c))
          = lookup_path ["apis"; "wikipedia"; "base_url"] (VDict port_9000).
Proof.
  split; [vm_compute; reflexivity|]. split; [vm_compute; reflexivity|].
  destruct (load_config_env_wins
              (world_of {[ "OPENEDU_MCP_PORT" := "7000";
                           "OPENEDU_MCP_WIKIPEDIA_RATE_LIMIT" := "20" ]}
                        (Document (VDict port_9000)))
              None port_9000
              {[ "server" := VDict {[ "port" := VInt 7000 ]};
                 "apis" := VDict {[ "wikipedia" := VDict {[ "rate_limit" := VInt 20 ]} ]} ]}
              (apis_only_Config (server_with 9000 true))
              ltac:(vm_compute; reflexivity) ltac:(vm_compute; reflexivity)
              ltac:(vm_compute; reflexivity))
    as (c & Hload & Hport & Hall).
  exists c. split; [exact Hload|]. split; [apply Hport; vm_compute; reflexivity|].
  split.
  - destruct (Hall ("OPENEDU_MCP_WIKIPEDIA_RATE_LIMIT", ["apis"; "wikipedia"],
                    "rate_limit", coerce_int) "20")
      as (v & Hv & Hc); [simpl; tauto | vm_compute; reflexivity | discriminate |].
    assert (v = VInt 20) as -> by (vm_compute in Hv; congruence).
    exact Hc.
  - vm_compute in Hload. injection Hload as <-. vm_compute. reflexivity.
Defined.
